(** * NPPIC: installed-capacity spreadsheets to a flat record table

    A shallow embedding of [src/NPPIC.py] and the properties of its
    specification.

    Conventions of the embedding.
    - A spreadsheet cell is observed by the program only through
      [pd.isna(cell)] and [str(cell)]; a cell is therefore an
      [option string]: [None] for a missing cell, [Some s] for a cell whose
      [str()] is [s].
    - A Python float is an IEEE 754 binary64 number, with the operations
      of [SpecFloat] at precision 53; [float(text)] rounds a decimal
      literal to the nearest float and reads the spellings of infinity
      and NaN.  The integer [0] that the program returns for a missing
      value stands in its records as the float zero.
    - The sums and the rounding of the roll-up are computed by pandas and
      numpy; the program is modelled over any implementation of them
      ([Aggregation]), and the examples run on one that adds from left to
      right.
    - A character of a text is a code point below 256, the number of its
      [ascii]; [strip], [isdigit] and [upper] are the Python methods on
      such text ([upper] leaves the micro sign and the y with diaeresis,
      whose upper cases lie above 255 and which no test of the program
      tells from them).
    - Exceptions are values of [result]; [try]/[except] is a [match].
    - Network effects are read from a [World] and logged as [event]s. *)

From Stdlib Require Import List String Ascii Bool Arith ZArith Lia.
From Stdlib Require Import Floats.SpecFloat DecimalString Sorted.
Import ListNotations.

Local Open Scope nat_scope.
Local Open Scope string_scope.
Local Open Scope list_scope.

(** ** Exceptions *)

Inductive exn : Set := IndexError | KeyError | ValueError.

Inductive result (A : Type) : Type :=
| Ok (a : A)
| Raise (e : exn).

Arguments Ok {A} a.
Arguments Raise {A} e.

Definition bind {A B : Type} (m : result A) (k : A -> result B) : result B :=
  match m with
  | Ok a => k a
  | Raise e => Raise e
  end.

Notation "x <- m ;; k" := (bind m (fun x => k))
  (at level 61, m at next level, right associativity).

(** ** Python string methods, on text of code points below 256 *)

Module PyStr.

(** [str.isspace] on one character: TAB..CR, FS..US, the space, the next
    line character and the no-break space. *)
Definition is_space (c : ascii) : bool :=
  let n := nat_of_ascii c in
  ((9 <=? n)%nat && (n <=? 13)%nat) || ((28 <=? n)%nat && (n <=? 32)%nat)
  || (n =? 133)%nat || (n =? 160)%nat.

(** The upper case of a letter that has one below 256: [a]..[z], and the
    accented letters from 224 to 254 but the division sign. *)
Definition upper_char (c : ascii) : ascii :=
  let n := nat_of_ascii c in
  if ((97 <=? n)%nat && (n <=? 122)%nat)
     || ((224 <=? n)%nat && (n <=? 254)%nat && negb (n =? 247)%nat)
  then ascii_of_nat (n - 32) else c.

(** [s.upper()]; the sharp s becomes [SS]. *)
Fixpoint upper (s : string) : string :=
  match s with
  | EmptyString => EmptyString
  | String c s' =>
      if (nat_of_ascii c =? 223)%nat then String "S" (String "S" (upper s'))
      else String (upper_char c) (upper s')
  end.

Fixpoint lstrip (s : string) : string :=
  match s with
  | EmptyString => EmptyString
  | String c s' => if is_space c then lstrip s' else s
  end.

Fixpoint rstrip (s : string) : string :=
  match s with
  | EmptyString => EmptyString
  | String c s' =>
      let t := rstrip s' in
      if is_space c && (t =? "") then "" else String c t
  end.

(** [s.strip()] *)
Definition strip (s : string) : string := rstrip (lstrip s).

(** [sub in s] *)
Fixpoint contains (sub s : string) : bool :=
  prefix sub s ||
  match s with
  | EmptyString => false
  | String _ s' => contains sub s'
  end.

(** [s.startswith(p)] *)
Definition startswith (p s : string) : bool := prefix p s.

(** The decimal digits [0]..[9]. *)
Definition is_decimal (c : ascii) : bool :=
  let n := nat_of_ascii c in (48 <=? n)%nat && (n <=? 57)%nat.

(** [str.isdigit] on one character: a decimal digit or one of the
    superscripts 1, 2 and 3. *)
Definition is_digit (c : ascii) : bool :=
  let n := nat_of_ascii c in
  is_decimal c || (n =? 178)%nat || (n =? 179)%nat || (n =? 185)%nat.

Fixpoint all_digits (s : string) : bool :=
  match s with
  | EmptyString => true
  | String c s' => is_digit c && all_digits s'
  end.

(** [s.isdigit()]: at least one character, all of them digits. *)
Definition isdigit (s : string) : bool :=
  match s with
  | EmptyString => false
  | _ => all_digits s
  end.

(** [x in [a, b, ...]] for a list of strings *)
Definition mem (x : string) (l : list string) : bool :=
  existsb (String.eqb x) l.

(** [s.split(sep)] for a one-character separator *)
Fixpoint split (sep : ascii) (s : string) : list string :=
  match s with
  | EmptyString => [""]
  | String c s' =>
      if Ascii.eqb c sep then "" :: split sep s'
      else match split sep s' with
           | [] => [String c ""]
           | h :: t => String c h :: t
           end
  end.

End PyStr.

(** ** Python floats

    IEEE 754 binary64: 53 bits of precision, exponents up to 1024.  The
    operations of [SpecFloat] round to nearest, ties to even. *)

Module Binary64.

Definition prec : Z := 53.
Definition emax : Z := 1024.

Definition float : Type := spec_float.

Definition zero : float := S754_zero false.
Definition infinity : float := S754_infinity false.
Definition nan : float := S754_nan.

(** [- x], [x + y], [x * y], [x / y] *)
Definition opp (x : float) : float := SFopp x.
Definition add (x y : float) : float := SFadd prec emax x y.
Definition mul (x y : float) : float := SFmul prec emax x y.
Definition div (x y : float) : float := SFdiv prec emax x y.

(** [x == 0] *)
Definition is_zero (x : float) : bool := SFeqb x zero.

(** [0 <= x] *)
Definition nonneg (x : float) : bool := SFleb zero x.

(** [x < 0] *)
Definition negative (x : float) : bool := SFltb x zero.

(** [x != x] *)
Definition is_nan (x : float) : bool :=
  match x with
  | S754_nan => true
  | _ => false
  end.

(** The float nearest to the integer [n]. *)
Definition of_Z (n : Z) : float := binary_normalize prec emax n 0 false.

(** The float nearest to [n / d], with the sign [neg]. *)
Definition of_ratio (neg : bool) (n d : positive) : float :=
  let '(q, e, l) := SFdiv_core_binary prec emax (Zpos n) 0 (Zpos d) 0 in
  binary_round_aux prec emax neg q e l.

(** The float nearest to [m * 10^k], with the sign [neg], for [0 <= m]. *)
Definition of_decimal (neg : bool) (m k : Z) : float :=
  match m with
  | Zpos p =>
      if (0 <=? k)%Z
      then binary_normalize prec emax
             (if neg then - (m * 10 ^ k) else m * 10 ^ k)%Z 0 false
      else of_ratio neg p (Z.to_pos (10 ^ (- k)))
  | _ => S754_zero neg
  end.

End Binary64.

Abbreviation float := Binary64.float.

(** ** [float(text)]

    The grammar of the Python builtin:
    [[sign] (digitpart ["." [digitpart]] | "." digitpart) [exponent]] with
    [digitpart ::= digit (["_"] digit)*] and
    [exponent ::= ("e" | "E") [sign] digitpart], or, after the sign, one of
    [inf], [infinity] and [nan] in any case. *)

Module PyFloat.

Definition digit_of (c : ascii) : option Z :=
  if PyStr.is_decimal c then Some (Z.of_nat (nat_of_ascii c - 48)) else None.

(** The rest of a digit part, once a first digit has been read: the value
    so far, the number of digits so far, and what follows. *)
Fixpoint digits_tail (s : string) (v : Z) (n : nat) : Z * nat * string :=
  match s with
  | EmptyString => (v, n, s)
  | String c s' =>
      match digit_of c with
      | Some d => digits_tail s' (v * 10 + d)%Z (S n)
      | None =>
          if Ascii.eqb c "_" then
            match s' with
            | EmptyString => (v, n, s)
            | String c2 s'' =>
                match digit_of c2 with
                | Some d => digits_tail s'' (v * 10 + d)%Z (S n)
                | None => (v, n, s)
                end
            end
          else (v, n, s)
      end
  end.

Definition digitpart (s : string) : option (Z * nat * string) :=
  match s with
  | EmptyString => None
  | String c s' =>
      match digit_of c with
      | Some d => Some (digits_tail s' d 1)
      | None => None
      end
  end.

Definition is_char (c : ascii) (s : string) : option string :=
  match s with
  | String c' s' => if Ascii.eqb c c' then Some s' else None
  | EmptyString => None
  end.

(** mantissa, number of fraction digits, rest *)
Definition number (s : string) : option (Z * nat * string) :=
  match digitpart s with
  | Some (i, _, rest) =>
      match is_char "." rest with
      | Some rest' =>
          match digitpart rest' with
          | Some (f, n, rest'') =>
              let '(m, _, _) := digits_tail rest' i 0 in Some (m, n, rest'')
          | None => Some (i, 0, rest')
          end
      | None => Some (i, 0, rest)
      end
  | None =>
      match is_char "." s with
      | Some rest' => digitpart rest'
      | None => None
      end
  end.

Definition sign (s : string) : bool * string :=
  match is_char "-" s with
  | Some s' => (true, s')
  | None => match is_char "+" s with
            | Some s' => (false, s')
            | None => (false, s)
            end
  end.

(** the exponent, when the text ends with a well-formed one (or with
    nothing at all) *)
Definition exponent (s : string) : option Z :=
  match s with
  | EmptyString => Some 0%Z
  | String c s' =>
      if Ascii.eqb c "e" || Ascii.eqb c "E" then
        let '(neg, s'') := sign s' in
        match digitpart s'' with
        | Some (e, _, EmptyString) => Some (if neg then (- e)%Z else e)
        | _ => None
        end
      else None
  end.

(** [inf], [infinity] and [nan], in any case *)
Definition non_finite (s : string) : option float :=
  let u := PyStr.upper s in
  if (u =? "INF") || (u =? "INFINITY") then Some Binary64.infinity
  else if u =? "NAN" then Some Binary64.nan
  else None.

(** The float a literal denotes; [Raise ValueError] on anything that is not
    a float literal. *)
Definition literal (s : string) : result float :=
  let '(neg, s1) := sign s in
  match non_finite s1 with
  | Some x => Ok (if neg then Binary64.opp x else x)
  | None =>
      match number s1 with
      | Some (m, n, rest) =>
          match exponent rest with
          | Some e => Ok (Binary64.of_decimal neg m (e - Z.of_nat n))
          | None => Raise ValueError
          end
      | None => Raise ValueError
      end
  end.

(** [float(s)]: white space around the literal is ignored. *)
Definition py_float (s : string) : result float := literal (PyStr.strip s).

End PyFloat.

(** ** Data model *)

(** A cell of the frame read by [pd.read_excel(file_path, header=None)]. *)
Definition cell : Type := option string.
Definition row : Type := list cell.
Definition RawGrid : Type := list row.

(** One dictionary appended to [result_data] / one line of the output. *)
Record CapacityRecord : Type := mkRecord {
  Date : option string;
  Region : string;
  State : string;
  Sector : string;
  Coal : float;
  Lignite : float;
  Gas : float;
  Diesel : float;
  ThermalTotal : float;
  Nuclear : float;
  Hydro : float;
  RES : float;
  Total : float
}.

(** [df.iloc[idx]] and [row.iloc[idx]] for a non-negative index *)
Definition iloc {A : Type} (l : list A) (i : nat) : result A :=
  match nth_error l i with
  | Some a => Ok a
  | None => Raise IndexError
  end.

(** ** Header Locator: the scan of [process_excel_file] *)

(** The column variables of [process_excel_file], with [header_rows]. *)
Record Columns : Type := mkColumns {
  coal_col : option nat;
  lignite_col : option nat;
  gas_col : option nat;
  diesel_col : option nat;
  nuclear_col : option nat;
  hydro_col : option nat;
  res_col : option nat;
  total_col : option nat;
  state_col : nat;
  sector_col : option nat;
  header_rows : list nat
}.

Definition initial_columns : Columns :=
  mkColumns None None None None None None None None 1 None [].

(** The eight variables that are assigned at most once. *)
Inductive field : Set :=
| FCoal | FLignite | FGas | FDiesel | FNuclear | FHydro | FRes | FTotal.

Definition get_col (f : field) (st : Columns) : option nat :=
  match f with
  | FCoal => coal_col st
  | FLignite => lignite_col st
  | FGas => gas_col st
  | FDiesel => diesel_col st
  | FNuclear => nuclear_col st
  | FHydro => hydro_col st
  | FRes => res_col st
  | FTotal => total_col st
  end.

Definition set_col (f : field) (c : nat) (st : Columns) : Columns :=
  let '(mkColumns co li ga di nu hy re to sc se hr) := st in
  match f with
  | FCoal => mkColumns (Some c) li ga di nu hy re to sc se hr
  | FLignite => mkColumns co (Some c) ga di nu hy re to sc se hr
  | FGas => mkColumns co li (Some c) di nu hy re to sc se hr
  | FDiesel => mkColumns co li ga (Some c) nu hy re to sc se hr
  | FNuclear => mkColumns co li ga di (Some c) hy re to sc se hr
  | FHydro => mkColumns co li ga di nu (Some c) re to sc se hr
  | FRes => mkColumns co li ga di nu hy (Some c) to sc se hr
  | FTotal => mkColumns co li ga di nu hy re (Some c) sc se hr
  end.

Definition set_state_col (c : nat) (st : Columns) : Columns :=
  let '(mkColumns co li ga di nu hy re to _ se hr) := st in
  mkColumns co li ga di nu hy re to c se hr.

Definition set_sector_col (c : nat) (st : Columns) : Columns :=
  let '(mkColumns co li ga di nu hy re to sc _ hr) := st in
  mkColumns co li ga di nu hy re to sc (Some c) hr.

(** [header_rows.add(idx)] *)
Definition add_header (idx : nat) (st : Columns) : Columns :=
  let '(mkColumns co li ga di nu hy re to sc se hr) := st in
  mkColumns co li ga di nu hy re to sc se
    (if existsb (Nat.eqb idx) hr then hr else idx :: hr).

(** The label test of each of the eight fields on [cell_str]. *)
Definition label_matches (f : field) (cell_str : string) (col_idx : nat) : bool :=
  match f with
  | FCoal => PyStr.contains "COAL" cell_str
             && negb (PyStr.contains "LIGNITE" cell_str)
  | FLignite => PyStr.contains "LIGNITE" cell_str
  | FGas => PyStr.contains "GAS" cell_str
  | FDiesel => PyStr.contains "DIESEL" cell_str
  | FNuclear => PyStr.contains "NUCLEAR" cell_str
  | FHydro => PyStr.contains "HYDRO" cell_str
  | FRes => PyStr.contains "RES" cell_str
  | FTotal => PyStr.contains "GRAND" cell_str
              || (PyStr.contains "TOTAL" cell_str && (8 <? col_idx)%nat)
  end.

Definition state_label (cell_str : string) : bool := cell_str =? "STATE".

Definition sector_label (cell_str : string) : bool :=
  PyStr.contains "OWNERSHIP/SECTOR" cell_str || (cell_str =? "SECTOR").

(** [if <label>: if x_col is None: x_col = col_idx; header_rows.add(idx)] *)
Definition first_match (f : field) (cell_str : string) (idx col_idx : nat)
    (st : Columns) : Columns :=
  if label_matches f cell_str col_idx then
    match get_col f st with
    | None => add_header idx (set_col f col_idx st)
    | Some _ => st
    end
  else st.

(** The eight fields in the order in which the loop body tests them. *)
Definition fields : list field :=
  [FCoal; FLignite; FGas; FDiesel; FNuclear; FHydro; FRes; FTotal].

(** The body of the inner loop, for a cell that is not missing: the test
    for [STATE], the test for the sector label, then the eight first-match
    tests in turn. *)
Definition scan_text (idx col_idx : nat) (cell_str : string) (st : Columns)
    : Columns :=
  let st := if state_label cell_str
            then add_header idx (set_state_col col_idx st) else st in
  let st := if sector_label cell_str
            then add_header idx (set_sector_col col_idx st) else st in
  fold_left (fun st f => first_match f cell_str idx col_idx st) fields st.

(** [cell_str = str(cell).upper().strip()] *)
Definition header_text (s : string) : string := PyStr.strip (PyStr.upper s).

Definition scan_cell (idx col_idx : nat) (c : cell) (st : Columns) : Columns :=
  match c with
  | None => st
  | Some s => scan_text idx col_idx (header_text s) st
  end.

(** [for col_idx, cell in enumerate(row)], from column [col_idx] on *)
Fixpoint scan_row (idx col_idx : nat) (r : row) (st : Columns) : Columns :=
  match r with
  | [] => st
  | c :: r' => scan_row idx (S col_idx) r' (scan_cell idx col_idx c st)
  end.

(** [for idx in range(...)], from row [idx] on *)
Fixpoint scan_rows (idx : nat) (rows : list row) (st : Columns) : Columns :=
  match rows with
  | [] => st
  | r :: rows' => scan_rows (S idx) rows' (scan_row idx 0 r st)
  end.

(** The state after [for idx in range(min(15, len(df)))]. *)
Definition locate_headers (df : RawGrid) : Columns :=
  scan_rows 0 (firstn 15 df) initial_columns.

(** [sector_col] after its fallback *)
Definition sector_col_or_default (st : Columns) : nat :=
  match sector_col st with
  | Some c => c
  | None => match lignite_col st with None => 2 | Some _ => 3 end
  end.

Definition list_max (l : list nat) : nat := fold_right Nat.max 0 l.

(** [start_row = max(header_rows) + 1 if header_rows else 5] *)
Definition start_row (st : Columns) : nat :=
  match header_rows st with
  | [] => 5
  | l => S (list_max l)
  end.

(** ** Record Builder *)

(** [safe_numeric_convert(value)]; the [try]/[except] around [float] is
    the inner [match]. *)
Definition safe_numeric_convert (value : cell) : float :=
  match value with
  | None => Binary64.zero
  | Some s =>
      let val_str := PyStr.strip s in
      if PyStr.mem val_str ["nan"; ""; "None"] then Binary64.zero
      else match PyFloat.py_float val_str with
           | Ok x => x
           | Raise _ => Binary64.zero
           end
  end.

(** The integer literal [0] passed when a column is missing. *)
Definition zero_literal : cell := Some "0".

(** [row.iloc[c] if c is not None and c < len(row) else 0] *)
Definition cell_or_zero (col : option nat) (r : row) : result cell :=
  match col with
  | Some c => if (c <? List.length r)%nat then iloc r c else Ok zero_literal
  | None => Ok zero_literal
  end.

(** [safe_numeric_convert(row.iloc[c] if ... else 0)] *)
Definition extract (col : option nat) (r : row) : result float :=
  v <- cell_or_zero col r ;; Ok (safe_numeric_convert v).

Definition sector_mapping : list (string * string) :=
  [("STATE SECTOR", "State"); ("PVT SECTOR", "Private");
   ("CENTRAL SECTOR", "Central")].

(** [d[key]] on a dictionary given by its items *)
Fixpoint dict_get (d : list (string * string)) (key : string) : result string :=
  match d with
  | [] => Raise KeyError
  | (k, v) :: d' => if key =? k then Ok v else dict_get d' key
  end.

(** [a + b + c + d] *)
Definition add4 (a b c d : float) : float :=
  Binary64.add (Binary64.add (Binary64.add a b) c) d.

(** [grand_total] after [if grand_total == 0: ...] *)
Definition grand_or_sum (grand_total thermal_total nuclear hydro res : float)
    : float :=
  if Binary64.is_zero grand_total then add4 thermal_total nuclear hydro res
  else grand_total.

(** The body of the [try] of a sector data row: the dictionary that is
    appended to [result_data]. *)
Definition build_record (cols : Columns) (date : option string)
    (region current_state sector : string) (r : row) : result CapacityRecord :=
  coal <- extract (coal_col cols) r ;;
  lignite <- extract (lignite_col cols) r ;;
  gas <- extract (gas_col cols) r ;;
  diesel <- extract (diesel_col cols) r ;;
  nuclear <- extract (nuclear_col cols) r ;;
  hydro <- extract (hydro_col cols) r ;;
  res <- extract (res_col cols) r ;;
  grand_total <- extract (total_col cols) r ;;
  let thermal_total := add4 coal lignite gas diesel in
  let grand_total := grand_or_sum grand_total thermal_total nuclear hydro res in
  sector_name <- dict_get sector_mapping (PyStr.upper sector) ;;
  Ok (mkRecord date region current_state sector_name
        coal lignite gas diesel thermal_total nuclear hydro res grand_total).

(** ** Row Classifier *)

Definition region_names : list string :=
  ["NORTHERN"; "EASTERN"; "WESTERN"; "SOUTHERN"; "NORTH EASTERN"].

Definition sector_labels : list string :=
  ["STATE SECTOR"; "PVT SECTOR"; "CENTRAL SECTOR"].

(** The two variables the row loop carries. *)
Record Classifier : Type := mkClassifier {
  current_state : option string;
  result_data : list CapacityRecord
}.

(** [str(c).strip() if pd.notna(c) else "nan"] *)
Definition cell_text (c : cell) : string :=
  match c with
  | Some s => PyStr.strip s
  | None => "nan"
  end.

(** What the branch for a row without sector text does. *)
Inductive verdict : Type :=
| Continue                      (* [continue], nothing changed *)
| Assign (s : option string)    (* [current_state = s; continue] *)
| FallThrough.                  (* go on to the sector test *)

Definition no_sector_row (state_or_number : string) : verdict :=
  if PyStr.contains "Total of" state_or_number
     || PyStr.contains "TOTAL OF" (PyStr.upper state_or_number)
  then Continue
  else if negb (state_or_number =? "nan")
          && negb (PyStr.isdigit state_or_number)
  then
    if PyStr.mem (PyStr.upper state_or_number) region_names
       || PyStr.startswith "http" state_or_number
    then Assign None
    else Assign (Some state_or_number)
  else FallThrough.

(** Truth value of [current_state] in [if current_state and ...]. *)
Definition truthy (s : option string) : option string :=
  match s with
  | Some "" => None
  | _ => s
  end.

(** [if current_state and sector.upper() in [...]: try: ... except: continue] *)
Definition sector_row (cols : Columns) (date : option string) (region : string)
    (sector : string) (r : row) (st : Classifier) : Classifier :=
  match truthy (current_state st) with
  | Some name =>
      if PyStr.mem (PyStr.upper sector) sector_labels then
        match build_record cols date region name sector r with
        | Ok rec => mkClassifier (current_state st) (result_data st ++ [rec])
        | Raise _ => st
        end
      else st
  | None => st
  end.

(** One iteration of [for idx in range(start_row, len(df))]; it raises
    when the state or sector column is outside the row. *)
Definition classify_row (cols : Columns) (date : option string)
    (region : string) (r : row) (st : Classifier) : result Classifier :=
  state_cell <- iloc r (state_col cols) ;;
  sector_cell <- iloc r (sector_col_or_default cols) ;;
  let state_or_number := cell_text state_cell in
  let sector := cell_text sector_cell in
  if (state_or_number =? "nan") && (sector =? "nan") then Ok st
  else
    let v := if (sector =? "nan") || (sector =? "") || (sector =? "None")
             then no_sector_row state_or_number else FallThrough in
    match v with
    | Continue => Ok st
    | Assign s => Ok (mkClassifier s (result_data st))
    | FallThrough => Ok (sector_row cols date region sector r st)
    end.

Fixpoint classify_rows (cols : Columns) (date : option string)
    (region : string) (rows : list row) (st : Classifier) : result Classifier :=
  match rows with
  | [] => Ok st
  | r :: rows' =>
      st' <- classify_row cols date region r st ;;
      classify_rows cols date region rows' st'
  end.

(** [processed_df[processed_df['State'] != processed_df['Region']]],
    applied when the frame is not empty *)
Definition drop_regional (l : list CapacityRecord) : list CapacityRecord :=
  match l with
  | [] => []
  | _ => filter (fun rec => negb (State rec =? Region rec)) l
  end.

(** [process_excel_file(file_path, date, region)] on the content of the
    file: [None] when [pd.read_excel] raises.  Any exception gives the empty
    frame. *)
Definition process_excel_file (content : option RawGrid)
    (date : option string) (region : string) : list CapacityRecord :=
  match content with
  | None => []
  | Some df =>
      let cols := locate_headers df in
      match classify_rows cols date region (skipn (start_row cols) df)
              (mkClassifier None []) with
      | Ok st => drop_regional (result_data st)
      | Raise _ => []
      end
  end.

(** ** File names, dates and URLs *)

Definition month_num : list (string * string) :=
  [("JAN", "01"); ("FEB", "02"); ("MAR", "03"); ("APR", "04");
   ("MAY", "05"); ("JUN", "06"); ("JUL", "07"); ("AUG", "08");
   ("SEP", "09"); ("OCT", "10"); ("NOV", "11"); ("DEC", "12")].

Definition month_numbers : list string := map snd month_num.

Definition regions : list string :=
  ["Northern"; "Eastern"; "Western"; "Southern"; "North Eastern"].

(** [int(s)] for an optionally signed run of digits *)
Definition py_int (s : string) : result Z :=
  let '(neg, s1) := PyFloat.sign (PyStr.strip s) in
  match PyFloat.digitpart s1 with
  | Some (v, _, EmptyString) => Ok (if neg then (- v)%Z else v)
  | _ => Raise ValueError
  end.

Definition isleap (year : Z) : bool :=
  ((year mod 4 =? 0) && (negb (year mod 100 =? 0) || (year mod 400 =? 0)))%Z.

(** [calendar.monthrange(year, month)[1]] for a month of 1..12 *)
Definition month_days (year month : Z) : nat :=
  if (month =? 2)%Z then (if isleap year then 29 else 28)
  else if ((month =? 4) || (month =? 6) || (month =? 9) || (month =? 11))%Z
  then 30 else 31.

Definition str_nat (n : nat) : string := NilEmpty.string_of_uint (Nat.to_uint n).

(** [f"{n:02d}"] *)
Definition pad2 (n : nat) : string :=
  if (n <? 10)%nat then ("0" ++ str_nat n)%string else str_nat n.

(** [extract_date_from_filename(filename)]: the formatted date, the default
    date when something raises, and [None] when the month test fails (the
    function then ends without a [return]). *)
Definition extract_date_from_filename (filename : string) : option string :=
  let parts := PyStr.split "-" filename in
  let attempt :=
    year <- iloc parts 2 ;;
    part3 <- iloc parts 3 ;;
    month <- iloc (PyStr.split "." part3) 0 ;;
    if PyStr.mem month month_numbers then
      y <- py_int year ;;
      m <- py_int month ;;
      Ok (Some (pad2 (month_days y m) ++ "-" ++ month ++ "-" ++ year)%string)
    else Ok None in
  match attempt with
  | Ok d => d
  | Raise _ => Some "01-01-2025"
  end.

Definition base_url : string :=
  "https://npp.gov.in/public-reports/cea/monthly/installcap/".

Definition file_name (region year mm : string) : string :=
  ("capacity2-" ++ region ++ "-" ++ year ++ "-" ++ mm ++ ".xls")%string.

Definition file_url (year month filename : string) : string :=
  (base_url ++ year ++ "/" ++ month ++ "/" ++ filename)%string.

(** [generate_urls_for_month_year(year, month)]: (url, filename, region) *)
Definition generate_urls_for_month_year (year month : string)
    : result (list (string * string * string)) :=
  mm <- dict_get month_num month ;;
  Ok (map (fun region =>
             let filename := file_name region year mm in
             (file_url year month filename, filename, region)) regions).

(** ** Network collaborators *)

(** What one [requests.get] attempt of [download_excel_file] does: the file
    is written (and [pd.read_excel] will later read a grid from it, or
    raise), a [RequestException] is raised, or something else is. *)
Inductive response : Type :=
| Saved (content : option RawGrid)
| RequestException
| OtherException.

Record World : Type := mkWorld {
  (** [requests.head(url)] answered with status 200 *)
  head_ok : string -> bool;
  (** the outcome of the attempt with this number on this URL *)
  get : string -> nat -> response
}.

Inductive event : Type :=
| Head (url : string)
| Get (url : string) (attempt : nat).

(** [for attempt in range(max_retries)], from [attempt] on; [Some content]
    stands for [True] with the file written. *)
Fixpoint download_attempts (w : World) (url : string) (attempt remaining : nat)
    : option (option RawGrid) * list event :=
  match remaining with
  | O => (None, [])
  | S remaining' =>
      match get w url attempt with
      | Saved content => (Some content, [Get url attempt])
      | RequestException =>
          let '(r, log) := download_attempts w url (S attempt) remaining' in
          (r, Get url attempt :: log)
      | OtherException => (None, [Get url attempt])
      end
  end.

Definition download_excel_file (w : World) (url : string)
    : option (option RawGrid) * list event :=
  download_attempts w url 0 3.

(** [check_data_availability(year, month)] *)
Definition check_data_availability (w : World) (year month : string)
    : result bool * list event :=
  match dict_get month_num month with
  | Raise e => (Raise e, [])
  | Ok mm =>
      let test_url := file_url year month (file_name "Northern" year mm) in
      (Ok (head_ok w test_url), [Head test_url])
  end.

(** ** Region Aggregator *)

(** The nine columns that [agg] sums. *)
Inductive column : Set :=
| CCoal | CLignite | CGas | CDiesel | CThermalTotal
| CNuclear | CHydro | CRES | CTotal.

Definition columns : list column :=
  [CCoal; CLignite; CGas; CDiesel; CThermalTotal; CNuclear; CHydro; CRES; CTotal].

Definition value (c : column) (r : CapacityRecord) : float :=
  match c with
  | CCoal => Coal r
  | CLignite => Lignite r
  | CGas => Gas r
  | CDiesel => Diesel r
  | CThermalTotal => ThermalTotal r
  | CNuclear => Nuclear r
  | CHydro => Hydro r
  | CRES => RES r
  | CTotal => Total r
  end.

(** What pandas and numpy compute for the roll-up: the sum of a column
    within a group of [groupby(...).agg(... 'sum')], the sum of a column
    of [DataFrame.sum()], and [.round(2)] on one number. *)
Class Aggregation : Type := mkAggregation {
  group_sum : list float -> float;
  frame_sum : list float -> float;
  round2 : float -> float
}.

(** Insertion of a key in the sorted index of a [groupby]. *)
Fixpoint insert_key (k : string) (keys : list string) : list string :=
  match keys with
  | [] => [k]
  | k' :: keys' =>
      match String.compare k k' with
      | Lt => k :: keys
      | Eq => keys
      | Gt => k' :: insert_key k keys'
      end
  end.

(** The index of [monthly_data.groupby('Sector')]: the sectors that occur,
    sorted. *)
Definition group_keys (monthly_data : list CapacityRecord) : list string :=
  fold_left (fun keys r => insert_key (Sector r) keys) monthly_data [].

Definition group (sector : string) (monthly_data : list CapacityRecord)
    : list CapacityRecord :=
  filter (fun r => Sector r =? sector) monthly_data.

(** A line of the aggregated frame: a number for each column. *)
Definition totals : Type := column -> float.

Section Aggregator.

Context {aggregation : Aggregation}.

(** [monthly_data.groupby('Sector').agg({... : 'sum'}).round(2)] *)
Definition all_india_totals (monthly_data : list CapacityRecord)
    : list (string * totals) :=
  map (fun sector =>
         (sector,
          fun c => round2 (group_sum (map (value c) (group sector monthly_data)))))
      (group_keys monthly_data).

(** [all_india_totals.loc[sector]], [None] when [sector] is not in the
    index *)
Fixpoint loc (t : list (string * totals)) (sector : string) : option totals :=
  match t with
  | [] => None
  | (k, v) :: t' => if sector =? k then Some v else loc t' sector
  end.

(** [all_india_totals.sum()] *)
Definition overall_totals (t : list (string * totals)) : totals :=
  fun c => frame_sum (map (fun kv => snd kv c) t).

Definition all_india_row (date : option string) (sector : string) (t : totals)
    : CapacityRecord :=
  mkRecord date "All India" "ALL INDIA" sector
    (t CCoal) (t CLignite) (t CGas) (t CDiesel) (t CThermalTotal)
    (t CNuclear) (t CHydro) (t CRES) (t CTotal).

(** [all_india_rows] once the loop over the three sectors has run and the
    overall line has been appended. *)
Definition all_india_rows (date : option string)
    (monthly_data : list CapacityRecord) : list CapacityRecord :=
  let t := all_india_totals monthly_data in
  flat_map (fun sector =>
              match loc t sector with
              | Some line => [all_india_row date sector line]
              | None => []
              end) ["State"; "Private"; "Central"]
  ++ [all_india_row date "Total" (overall_totals t)].

(** The block [if not monthly_data.empty and successful_downloads >= 3];
    [date] is [monthly_data.iloc[0]['Date']]. *)
Definition roll_up (monthly_data : list CapacityRecord)
    (successful_downloads : nat) : list CapacityRecord :=
  match monthly_data with
  | [] => monthly_data
  | first :: _ =>
      if (3 <=? successful_downloads)%nat
      then monthly_data ++ all_india_rows (Date first) monthly_data
      else monthly_data
  end.

(** The variables of the loop over the regions, and the log. *)
Record Month : Type := mkMonth {
  monthly_data : list CapacityRecord;
  successful_downloads : nat;
  month_log : list event
}.

(** [pd.concat([a, df])] under [if not df.empty] *)
Definition concat_nonempty (a df : list CapacityRecord) : list CapacityRecord :=
  match df with
  | [] => a
  | _ => a ++ df
  end.

(** The frame a downloaded region file contributes. *)
Definition region_frame (content : option RawGrid) (filename region : string)
    : list CapacityRecord :=
  process_excel_file content (extract_date_from_filename filename) region.

(** One iteration of [for url, filename, region in urls]. *)
Definition fetch_region (w : World) (m : Month)
    (target : string * string * string) : Month :=
  let '(url, filename, region) := target in
  let '(downloaded, log) := download_excel_file w url in
  match downloaded with
  | Some content =>
      mkMonth (concat_nonempty (monthly_data m)
                 (region_frame content filename region))
              (S (successful_downloads m))
              (month_log m ++ log)
  | None => mkMonth (monthly_data m) (successful_downloads m) (month_log m ++ log)
  end.

Definition fetch_regions (w : World) (urls : list (string * string * string))
    : Month :=
  fold_left (fetch_region w) urls (mkMonth [] 0 []).

(** [process_month_data(year, month, work_dir)]: the monthly frame, or the
    [KeyError] of an unknown month, with the requests that were made. *)
Definition process_month_data (w : World) (year month : string)
    : result (list CapacityRecord) * list event :=
  match check_data_availability w year month with
  | (Raise e, log) => (Raise e, log)
  | (Ok false, log) => (Ok [], log)
  | (Ok true, log) =>
      match generate_urls_for_month_year year month with
      | Raise e => (Raise e, log)
      | Ok urls =>
          let m := fetch_regions w urls in
          (Ok (roll_up (monthly_data m) (successful_downloads m)),
           log ++ month_log m)
      end
  end.

(** ** Period Orchestrator *)

Definition months : list string :=
  ["JAN"; "FEB"; "MAR"; "APR"; "MAY"; "JUN";
   "JUL"; "AUG"; "SEP"; "OCT"; "NOV"; "DEC"].

(** [l[i]], with the negative indices of Python *)
Definition py_index {A : Type} (l : list A) (i : Z) : result A :=
  let n := Z.of_nat (List.length l) in
  if (0 <=? i)%Z then iloc l (Z.to_nat i)
  else if (- n <=? i)%Z then iloc l (Z.to_nat (n + i))
  else Raise IndexError.

(** [str(n)] for an integer *)
Definition str_int (n : Z) : string := NilEmpty.string_of_int (Z.to_int n).

(** The [while] loop of [generate_date_range]; [None] when [fuel]
    iterations were not enough. *)
Fixpoint date_range_loop (fuel : nat)
    (current_year current_month end_year end_month : Z)
    (date_range : list (string * string))
    : option (result (list (string * string))) :=
  if ((current_year <? end_year)
      || ((current_year =? end_year) && (current_month <=? end_month)))%Z
  then
    match fuel with
    | O => None
    | S fuel' =>
        match py_index months (current_month - 1) with
        | Raise e => Some (Raise e)
        | Ok name =>
            let date_range := date_range ++ [(str_int current_year, name)] in
            let current_month := (current_month + 1)%Z in
            if (12 <? current_month)%Z
            then date_range_loop fuel' (current_year + 1) 1
                   end_year end_month date_range
            else date_range_loop fuel' current_year current_month
                   end_year end_month date_range
        end
    end
  else Some (Ok date_range).

(** A bound on the number of iterations. *)
Definition date_range_fuel (start_year start_month end_year : Z) : nat :=
  S (Z.to_nat ((end_year - start_year) * 24 + 36 - start_month)).

Definition generate_date_range (start_year start_month end_year end_month : Z)
    : option (result (list (string * string))) :=
  date_range_loop (date_range_fuel start_year start_month end_year)
    start_year start_month end_year end_month [].

(** The variables of the loop of [main], and the log. *)
Record Master : Type := mkMaster {
  all_data : list CapacityRecord;
  master_log : list event
}.

(** One iteration of [for i, (year, month) in enumerate(date_range, 1)],
    with its [try]/[except]. *)
Definition process_month (w : World) (acc : Master) (ym : string * string)
    : Master :=
  let '(year, month) := ym in
  match process_month_data w year month with
  | (Ok data, log) =>
      mkMaster (concat_nonempty (all_data acc) data) (master_log acc ++ log)
  | (Raise _, log) => mkMaster (all_data acc) (master_log acc ++ log)
  end.

Definition process_months (w : World) (date_range : list (string * string))
    : Master :=
  fold_left (process_month w) date_range (mkMaster [] []).

Definition START_YEAR : Z := 2018.
Definition START_MONTH : Z := 1.
Definition END_YEAR : Z := 2025.
Definition END_MONTH : Z := 7.

(** [main()]: the master table that is written out, and the requests made.
    An exception before the loop leaves no table. *)
Definition main (w : World) : Master :=
  match generate_date_range START_YEAR START_MONTH END_YEAR END_MONTH with
  | Some (Ok date_range) => process_months w date_range
  | _ => mkMaster [] []
  end.

End Aggregator.

(** ** An aggregation

    One implementation of [Aggregation], on which the examples run: sums
    that skip NaN, as pandas does by default, and add from left to right;
    rounding as [numpy.round] does it: multiply by 100, round to the
    nearest integer with ties to even, divide by 100.  The libraries may
    order and compensate their additions differently; the theorems on the
    roll-up hold for every aggregation. *)

Module Sequential.

(** [numpy.rint] *)
Definition rint (x : float) : float :=
  match x with
  | S754_finite s m e =>
      if (0 <=? e)%Z then x
      else
        let n := (- e)%Z in
        let q := Z.shiftr (Zpos m) n in
        let r := (Zpos m - Z.shiftl q n)%Z in
        let k := match (r ?= Z.shiftl 1 (n - 1))%Z with
                 | Lt => q
                 | Gt => (q + 1)%Z
                 | Eq => if Z.even q then q else (q + 1)%Z
                 end in
        binary_normalize Binary64.prec Binary64.emax
          (if s then - k else k)%Z 0 s
  | _ => x
  end.

Definition round2 (x : float) : float :=
  Binary64.div (rint (Binary64.mul x (Binary64.of_Z 100))) (Binary64.of_Z 100).

Definition nansum (l : list float) : float :=
  fold_left (fun acc x => if Binary64.is_nan x then acc else Binary64.add acc x)
    l Binary64.zero.

End Sequential.

Definition sequential : Aggregation :=
  mkAggregation Sequential.nansum Sequential.nansum Sequential.round2.

(** ** Notions used by the statements *)

(** The number a record takes from column [col] of row [r]. *)
Definition cell_value (col : option nat) (r : row) : float :=
  match col with
  | Some c =>
      match nth_error r c with
      | Some v => safe_numeric_convert v
      | None => Binary64.zero
      end
  | None => Binary64.zero
  end.

(** Cells that are read as zero: missing, blank, ["nan"], ["None"], or text
    that [float] rejects. *)
Definition reads_as_zero (v : cell) : bool :=
  match v with
  | None => true
  | Some s =>
      PyStr.mem (PyStr.strip s) ["nan"; ""; "None"]
      || match PyFloat.py_float (PyStr.strip s) with
         | Ok _ => false
         | Raise _ => true
         end
  end.

(** The record of a row, given the name its sector maps to. *)
Definition record_of (cols : Columns) (date : option string)
    (region current_state sector_name : string) (r : row) : CapacityRecord :=
  let coal := cell_value (coal_col cols) r in
  let lignite := cell_value (lignite_col cols) r in
  let gas := cell_value (gas_col cols) r in
  let diesel := cell_value (diesel_col cols) r in
  let nuclear := cell_value (nuclear_col cols) r in
  let hydro := cell_value (hydro_col cols) r in
  let res := cell_value (res_col cols) r in
  let thermal_total := add4 coal lignite gas diesel in
  mkRecord date region current_state sector_name
    coal lignite gas diesel thermal_total nuclear hydro res
    (grand_or_sum (cell_value (total_col cols) r) thermal_total nuclear hydro res).

(** [rec] was appended for row [r]. *)
Definition built_from (cols : Columns) (date : option string) (region : string)
    (rows : list row) (rec : CapacityRecord) : Prop :=
  exists r name sector,
    In r rows /\ PyStr.mem (PyStr.upper sector) sector_labels = true /\
    build_record cols date region name sector r = Ok rec.

(** The cells the header scan visits, in the order it visits them: row
    index, column index and [cell_str]. *)
Definition scanned : Type := nat * nat * string.

Fixpoint row_cells (idx col_idx : nat) (r : row) : list scanned :=
  match r with
  | [] => []
  | None :: r' => row_cells idx (S col_idx) r'
  | Some s :: r' => (idx, col_idx, header_text s) :: row_cells idx (S col_idx) r'
  end.

Fixpoint grid_cells (idx : nat) (rows : list row) : list scanned :=
  match rows with
  | [] => []
  | r :: rows' => row_cells idx 0 r ++ grid_cells (S idx) rows'
  end.

Definition scanned_cells (df : RawGrid) : list scanned :=
  grid_cells 0 (firstn 15 df).

Definition cell_col (x : scanned) : nat := snd (fst x).
Definition cell_row (x : scanned) : nat := fst (fst x).

Definition is_state_label (x : scanned) : bool := state_label (snd x).
Definition is_sector_label (x : scanned) : bool := sector_label (snd x).
Definition is_label (f : field) (x : scanned) : bool :=
  label_matches f (snd x) (cell_col x).

(** A scanned cell that matches one of the ten label tests. *)
Definition labelled (x : scanned) : bool :=
  is_state_label x || is_sector_label x || existsb (fun f => is_label f x) fields.

(** The order of the scan: row by row, and from left to right in a row. *)
Definition scan_lt (x y : scanned) : Prop :=
  (cell_row x < cell_row y)%nat
  \/ (cell_row x = cell_row y /\ (cell_col x < cell_col y)%nat).

(** The cell [x], scanned after the cells [before], records its row as a
    header row: it is a [STATE] or a sector label, or it matches the label
    of one of the eight fields that no cell of [before] matches. *)
Definition records_row (before : list scanned) (x : scanned) : Prop :=
  is_state_label x = true \/ is_sector_label x = true
  \/ exists f, is_label f x = true
               /\ forall y, In y before -> is_label f y = false.

(** Row [j] is recorded as a header row in the scan of [df]. *)
Definition recorded (df : RawGrid) (j : nat) : Prop :=
  exists before x after,
    scanned_cells df = before ++ x :: after /\ cell_row x = j /\
    records_row before x.

(** The loop body on a scanned cell. *)
Definition scan_step (st : Columns) (x : scanned) : Columns :=
  scan_text (cell_row x) (cell_col x) (snd x) st.

Definition field_eqb (f g : field) : bool :=
  match f, g with
  | FCoal, FCoal | FLignite, FLignite | FGas, FGas | FDiesel, FDiesel
  | FNuclear, FNuclear | FHydro, FHydro | FRes, FRes | FTotal, FTotal => true
  | _, _ => false
  end.

(** A column that was found has left a header row. *)
Definition found_has_header (st : Columns) : Prop :=
  forall f, get_col f st <> None -> header_rows st <> [].

Definition is_all_india (rec : CapacityRecord) : bool :=
  Region rec =? "All India".

(** The frame holds a roll-up line. *)
Definition has_all_india (t : list CapacityRecord) : bool :=
  existsb is_all_india t.

Definition is_empty {A : Type} (l : list A) : bool :=
  match l with
  | [] => true
  | _ => false
  end.

(** The download of a region file succeeded. *)
Definition downloaded (w : World) (target : string * string * string) : bool :=
  match fst (download_excel_file w (fst (fst target))) with
  | Some _ => true
  | None => false
  end.

(** The region yielded data: its file was downloaded and records were
    extracted from it. *)
Definition yielded_data (w : World) (target : string * string * string) : bool :=
  let '(url, filename, region) := target in
  match fst (download_excel_file w url) with
  | Some content => negb (is_empty (region_frame content filename region))
  | None => false
  end.

Definition regions_with_data (w : World)
    (urls : list (string * string * string)) : nat :=
  List.length (filter (yielded_data w) urls).

(** The sectors of the three-sector loop that occur in a frame. *)
Definition sectors_present (md : list CapacityRecord) : list string :=
  filter (fun s => existsb (fun r => Sector r =? s) md)
    ["State"; "Private"; "Central"].

(** [x] is not a NaN and its sign bit is [s]. *)
Definition has_sign (s : bool) (x : float) : Prop :=
  match x with
  | S754_zero s' | S754_infinity s' | S754_finite s' _ _ => s' = s
  | S754_nan => False
  end.

(** All nine numbers of a record are non-negative. *)
Definition nonneg_record (rec : CapacityRecord) : Prop :=
  forall c : column, Binary64.nonneg (value c rec) = true.

(** A cell that holds no negative number and no NaN: it is missing, or its
    text is blank, ["nan"], ["None"] or rejected by [float], or [float]
    reads a non-negative number from it. *)
Definition holds_no_negative (v : cell) : bool :=
  match v with
  | None => true
  | Some s =>
      PyStr.mem (PyStr.strip s) ["nan"; ""; "None"]
      || match PyFloat.py_float (PyStr.strip s) with
         | Ok x => Binary64.nonneg x
         | Raise _ => true
         end
  end.

(** No cell of the grid holds a negative number or a NaN. *)
Definition nonneg_grid (df : RawGrid) : Prop :=
  forall r v, In r df -> In v r -> holds_no_negative v = true.

(** Every grid the world serves is non-negative. *)
Definition nonneg_world (w : World) : Prop :=
  forall url attempt df, get w url attempt = Saved (Some df) -> nonneg_grid df.

(** The table of a month, empty when the month raises. *)
Definition month_table {aggregation : Aggregation} (w : World)
    (year month : string) : list CapacityRecord :=
  match fst (process_month_data w year month) with
  | Ok t => t
  | Raise _ => []
  end.

(** The thermal identity: the Thermal Total is the float that
    [Coal + Lignite + Gas + Diesel] evaluates to. *)
Definition thermal_exact (rec : CapacityRecord) : Prop :=
  ThermalTotal rec = add4 (Coal rec) (Lignite rec) (Gas rec) (Diesel rec).

(** The sums and the rounding keep non-negative numbers non-negative. *)
Definition keeps_nonneg (aggregation : Aggregation) : Prop :=
  (forall l, Forall (fun x => Binary64.nonneg x = true) l ->
     Binary64.nonneg (group_sum l) = true) /\
  (forall l, Forall (fun x => Binary64.nonneg x = true) l ->
     Binary64.nonneg (frame_sum l) = true) /\
  (forall x, Binary64.nonneg x = true -> Binary64.nonneg (round2 x) = true).

(** The number of a record under one of the seven columns that are read
    from the row and passed on. *)
Definition component (f : field) (rec : CapacityRecord) : float :=
  match f with
  | FCoal => Coal rec
  | FLignite => Lignite rec
  | FGas => Gas rec
  | FDiesel => Diesel rec
  | FNuclear => Nuclear rec
  | FHydro => Hydro rec
  | FRes => RES rec
  | FTotal => Total rec
  end.

(** The text of the cell of row [r] under column [col] is [s], and [s] is
    not one of the blanks that are read as zero without a call to
    [float]. *)
Definition cell_holds (col : option nat) (r : row) (s : string) : Prop :=
  exists c, col = Some c /\ nth_error r c = Some (Some s) /\
            PyStr.mem (PyStr.strip s) ["nan"; ""; "None"] = false.

(** The months [main] asks for. *)
Definition main_date_range : list (string * string) :=
  match generate_date_range START_YEAR START_MONTH END_YEAR END_MONTH with
  | Some (Ok date_range) => date_range
  | _ => []
  end.

(** ** Sample inputs *)

(** A sheet whose only labels are in row 3. *)
Definition two_label_grid : RawGrid :=
  [ repeat None 7; repeat None 7; repeat None 7;
    [None; None; None; None; Some "COAL (MW)"; Some "LIGNITE"; None];
    [None; Some "Delhi"; None; None; None; None; None] ].

(** The same header row, followed by a row that holds [label]. *)
Definition label_below_grid (label : string) : RawGrid :=
  [ repeat None 7; repeat None 7; repeat None 7;
    [None; None; None; None; Some "COAL (MW)"; Some "LIGNITE"; None];
    [None; None; None; None; None; None; Some label];
    [None; Some "Delhi"; None; None; None; None; None] ].

(** The header row of the claim, with a coal and a lignite label to the
    left of columns 4 and 5. *)
Definition labels_to_the_left_grid : RawGrid :=
  [ repeat None 7; repeat None 7; repeat None 7;
    [None; Some "COAL"; Some "LIGNITE"; None; Some "COAL (MW)"; Some "LIGNITE";
     None];
    [None; Some "Delhi"; None; None; None; None; None] ].

(** A coal label in row 0 and another one in row 1. *)
Definition repeated_coal_grid : RawGrid :=
  [ [None; None; None; Some "COAL"];
    [None; None; None; Some "COAL (MW)"];
    [None; Some "Delhi"; None; None] ].

(** A sheet in which [STATE] and a coal label both occur twice. *)
Definition repeated_labels_grid : RawGrid :=
  [ [None; Some "State"; Some "Coal"; None; None];
    [None; None; Some "Coal (MW)"; Some "State"; Some "Sector"];
    [Some "Sector"; None; None; None; None] ].

(** A header row in the layout of the reports. *)
Definition sample_header : row :=
  [Some "Sl. No."; Some "State"; Some "Ownership/Sector"; Some "Coal";
   Some "Lignite"; Some "Gas"; Some "Diesel"; Some "Thermal Total";
   Some "Nuclear"; Some "Hydro"; Some "RES"; Some "Grand Total"].

(** A sheet with one state and one State-sector row. *)
Definition sample_sheet (state coal lignite gas : string) : RawGrid :=
  [ sample_header;
    [Some "1"; Some state; None; None; None; None; None; None; None; None;
     None; None];
    [None; None; Some "State Sector"; Some coal; Some lignite; Some gas;
     Some "0.0"; Some "0.0"; Some "0.0"; Some "0.0"; Some "0.0"; Some "0.0"] ].

Definition june_2025 (region : string) : string :=
  file_url "2025" "JUN" (file_name region "2025" "06").

(** A world in which every probe succeeds and the listed URLs are served at
    the first attempt; any other download fails. *)
Definition serving (files : list (string * option RawGrid)) : World :=
  mkWorld (fun _ => true)
    (fun url _ =>
       match find (fun kv => fst kv =? url) files with
       | Some kv => Saved (snd kv)
       | None => RequestException
       end).

(** Three regions are downloaded; one of them yields a record. *)
Definition one_region_world : World :=
  serving [ (june_2025 "Northern", Some (sample_sheet "Delhi" "100.0" "0.0" "0.0"));
            (june_2025 "Eastern", None);
            (june_2025 "Western", Some []) ].

(** Three regions are downloaded; none of them yields a record. *)
Definition no_data_world : World :=
  serving [ (june_2025 "Northern", None);
            (june_2025 "Eastern", Some []);
            (june_2025 "Western", None) ].

(** Three regions, each with capacity in a different fuel. *)
Definition three_fuels_world : World :=
  serving [ (june_2025 "Northern", Some (sample_sheet "Delhi" "0.004" "0.0" "0.0"));
            (june_2025 "Eastern", Some (sample_sheet "Bihar" "0.0" "0.004" "0.0"));
            (june_2025 "Western", Some (sample_sheet "Goa" "0.0" "0.0" "0.004")) ].

(** A sheet whose grand-total cell holds a number of its own. *)
Definition grand_total_sheet : RawGrid :=
  [ sample_header;
    [Some "1"; Some "Delhi"; None; None; None; None; None; None; None; None;
     None; None];
    [None; None; Some "State Sector"; Some "2000.0"; Some "0.0"; Some "0.0";
     Some "0.0"; Some "2000.0"; Some "0.0"; Some "500.0"; Some "0.0";
     Some "2500.5"] ].

(** A sheet with a negative capacity. *)
Definition negative_sheet : RawGrid := sample_sheet "Delhi" "-5.0" "0.0" "0.0".

(** No month is available. *)
Definition offline_world : World :=
  mkWorld (fun _ => false) (fun _ _ => RequestException).

(** Only the Northern file is served, and it holds a negative capacity. *)
Definition negative_world : World :=
  serving [ (june_2025 "Northern", Some negative_sheet) ].

(** The targets of June 2025. *)
Definition june_2025_urls : list (string * string * string) :=
  match generate_urls_for_month_year "2025" "JUN" with
  | Ok urls => urls
  | Raise _ => []
  end.

(** Columns with the state text in column 0 and the sector text in
    column 1, and nothing else located. *)
Definition state_sector_columns : Columns :=
  set_sector_col 1 (set_state_col 0 initial_columns).

(** The sheet of June 2025 for Delhi with 100 MW of coal. *)
Definition delhi_sheet : RawGrid := sample_sheet "Delhi" "100.0" "0.0" "0.0".

(** A record with no content, for [nth]. *)
Definition blank_record : CapacityRecord :=
  let z := Binary64.zero in mkRecord None "" "" "" z z z z z z z z z.

(** A sector row whose coal cell is not a number. *)
Definition text_in_coal_row : row :=
  [None; None; Some "State Sector"; Some "n/a"; Some "12.5"].

(** The records of the three regions of [three_fuels_world]. *)
Definition three_fuels_records : list CapacityRecord :=
  monthly_data (fetch_regions three_fuels_world june_2025_urls).

From Stdlib Require DecimalPos.

(** ** The region of a file name, and notions on text *)

(** [extract_region_from_filename(filename)] *)
Definition extract_region_from_filename (filename : string) : string :=
  match iloc (PyStr.split "-" filename) 1 with
  | Ok region => region
  | Raise _ => "Unknown"
  end.

(** The character [c] does not occur in [s]. *)
Fixpoint lacks (c : ascii) (s : string) : bool :=
  match s with
  | EmptyString => true
  | String c' s' => negb (Ascii.eqb c' c) && lacks c s'
  end.

(** No character of [s] is white space. *)
Fixpoint no_space (s : string) : bool :=
  match s with
  | EmptyString => true
  | String c s' => negb (PyStr.is_space c) && no_space s'
  end.

(** The number written by a run of decimal digits that follows the digits
    of [v]. *)
Fixpoint uint_value (d : Decimal.uint) (v : Z) : Z :=
  match d with
  | Decimal.Nil => v
  | Decimal.D0 d' => uint_value d' (v * 10 + 0)
  | Decimal.D1 d' => uint_value d' (v * 10 + 1)
  | Decimal.D2 d' => uint_value d' (v * 10 + 2)
  | Decimal.D3 d' => uint_value d' (v * 10 + 3)
  | Decimal.D4 d' => uint_value d' (v * 10 + 4)
  | Decimal.D5 d' => uint_value d' (v * 10 + 5)
  | Decimal.D6 d' => uint_value d' (v * 10 + 6)
  | Decimal.D7 d' => uint_value d' (v * 10 + 7)
  | Decimal.D8 d' => uint_value d' (v * 10 + 8)
  | Decimal.D9 d' => uint_value d' (v * 10 + 9)
  end.

(** The date [extract_date_from_filename] gives for a file of year [year]
    (an integer [y]) and month number [mm] (an integer [m]). *)
Definition last_day_date (year mm : string) (y m : Z) : string :=
  (pad2 (month_days y m) ++ "-" ++ mm ++ "-" ++ year)%string.

(** ** Notions on the range of months *)

(** The month number [t] of the calendar, counted from January of year 0:
    its year text and its abbreviation. *)
Definition month_entry (t : Z) : string * string :=
  (str_int (t / 12), nth (Z.to_nat (t mod 12)) months "").

(** The months from month [sm] of year [sy] to month [em] of year [ey],
    both included, in calendar order. *)
Definition calendar_months (sy sm ey em : Z) : list (string * string) :=
  map (fun k => month_entry (sy * 12 + sm - 1 + Z.of_nat k))
      (seq 0 (Z.to_nat (ey * 12 + em - (sy * 12 + sm) + 1))).

(** ** Notions on the rows and records of a sheet *)

(** A text the classifier takes as the name of a state, and under which it
    emits records: not empty, and accepted by the branch for rows without
    sector text. *)
Definition state_name (s : string) : Prop :=
  s <> "" /\ no_sector_row s = Assign (Some s).

(** The carried state, when there is one, was accepted as a state text. *)
Definition carries_state_text (st : Classifier) : Prop :=
  forall s, current_state st = Some s -> no_sector_row s = Assign (Some s).

(** The row has no cell in the state column or in the sector column. *)
Definition short_row (cols : Columns) (r : row) : Prop :=
  (List.length r <= state_col cols)%nat
  \/ (List.length r <= sector_col_or_default cols)%nat.

(** What holds of each record the classifier appends for a file of date
    [date] and region [region]. *)
Definition sound_record (date : option string) (region : string)
    (rec : CapacityRecord) : Prop :=
  Date rec = date /\ Region rec = region /\ state_name (State rec) /\
  In (Sector rec) ["State"; "Private"; "Central"].

(** The records the row loop of [process_excel_file] leaves, before the
    filter on State and Region. *)
Definition classified (df : RawGrid) (date : option string) (region : string)
    : list CapacityRecord :=
  match classify_rows (locate_headers df) date region
          (skipn (start_row (locate_headers df)) df) (mkClassifier None []) with
  | Ok st => result_data st
  | Raise _ => []
  end.

(** A sheet of one column. *)
Definition one_column_grid : RawGrid :=
  [ [Some "State"]; [Some "Delhi"]; [Some "State Sector"] ].

(** ** Notions on the requests and the frames of a month *)

(** The frame a target contributes: that of its file when the download
    succeeds, nothing otherwise. *)
Definition target_frame (w : World) (target : string * string * string)
    : list CapacityRecord :=
  match fst (download_excel_file w (fst (fst target))) with
  | Some content => region_frame content (snd (fst target)) (snd target)
  | None => []
  end.

(** The requests made for a target. *)
Definition target_log (w : World) (target : string * string * string)
    : list event :=
  snd (download_excel_file w (fst (fst target))).

Definition is_get (e : event) : bool :=
  match e with
  | Get _ _ => true
  | Head _ => false
  end.

(** The requests of a month. *)
Definition month_requests {aggregation : Aggregation} (w : World)
    (ym : string * string) : list event :=
  snd (process_month_data w (fst ym) (snd ym)).

(** A world in which the first two attempts on any URL fail. *)
Definition third_time_world : World :=
  mkWorld (fun _ => true)
    (fun _ attempt =>
       if (attempt <? 2)%nat then RequestException else Saved (Some delhi_sheet)).

(** * Properties *)

(** ** The sign of a float *)

Lemma has_sign_nonneg (x : float) : has_sign false x -> Binary64.nonneg x = true.
Proof. destruct x as [s|s| |s m e]; simpl; try intros ->; easy. Qed.

Lemma shr_1_nonneg (mrs : shr_record) :
  (0 <= shr_m mrs)%Z -> (0 <= shr_m (shr_1 mrs))%Z.
Proof.
  destruct mrs as [m r s]. destruct m as [|p|p]; simpl; [lia| |lia].
  destruct p; simpl; lia.
Qed.

Lemma iter_pos_invariant {A : Type} (P : A -> Prop) (f : A -> A) :
  (forall x, P x -> P (f x)) -> forall n x, P x -> P (iter_pos f n x).
Proof.
  intros Hf. induction n as [n IH|n IH|]; intros x Hx; simpl; auto.
Qed.

Lemma shr_nonneg (mrs : shr_record) (e n : Z) :
  (0 <= shr_m mrs)%Z -> (0 <= shr_m (fst (shr mrs e n)))%Z.
Proof.
  intros H. destruct n as [|p|p]; simpl; [exact H| |exact H].
  apply (iter_pos_invariant (fun x => (0 <= shr_m x)%Z)); [|exact H].
  apply shr_1_nonneg.
Qed.

Lemma shr_fexp_nonneg (m e : Z) (l : location) :
  (0 <= m)%Z ->
  (0 <= shr_m (fst (shr_fexp Binary64.prec Binary64.emax m e l)))%Z.
Proof.
  intros H. unfold shr_fexp. apply shr_nonneg.
  destruct l as [|[| |]]; exact H.
Qed.

Lemma round_nearest_even_nonneg (m : Z) (l : location) :
  (0 <= m)%Z -> (0 <= round_nearest_even m l)%Z.
Proof.
  intros H. destruct l as [|[| |]]; simpl; try lia.
  destruct (Z.even m); lia.
Qed.

(** Rounding keeps the sign it is given. *)
Lemma binary_round_aux_sign (s : bool) (m e : Z) (l : location) :
  (0 <= m)%Z ->
  has_sign s (binary_round_aux Binary64.prec Binary64.emax s m e l).
Proof.
  intros H. unfold binary_round_aux.
  pose proof (shr_fexp_nonneg m e l H) as H1.
  destruct (shr_fexp Binary64.prec Binary64.emax m e l) as [mrs1 e1].
  cbn [fst] in H1.
  pose proof (shr_fexp_nonneg
                (round_nearest_even (shr_m mrs1) (loc_of_shr_record mrs1))
                e1 loc_Exact (round_nearest_even_nonneg _ _ H1)) as H2.
  destruct (shr_fexp Binary64.prec Binary64.emax
              (round_nearest_even (shr_m mrs1) (loc_of_shr_record mrs1))
              e1 loc_Exact) as [mrs2 e2].
  cbn [fst] in H2.
  destruct (shr_m mrs2) as [|p|p]; [reflexivity| |lia].
  destruct (e2 <=? Binary64.emax - Binary64.prec)%Z; reflexivity.
Qed.

Lemma binary_round_sign (s : bool) (m : positive) (e : Z) :
  has_sign s (binary_round Binary64.prec Binary64.emax s m e).
Proof.
  unfold binary_round.
  destruct (shl_align m e _) as [mz ez]. apply binary_round_aux_sign. lia.
Qed.

(** The sum of two non-negative floats is non-negative. *)
Lemma add_nonneg (x y : float) :
  Binary64.nonneg x = true -> Binary64.nonneg y = true ->
  Binary64.nonneg (Binary64.add x y) = true.
Proof.
  intros Hx Hy.
  destruct x as [[|]|[|]| |[|] mx ex]; try discriminate Hx;
    destruct y as [[|]|[|]| |[|] my ey]; try discriminate Hy;
    try reflexivity.
  apply has_sign_nonneg. unfold Binary64.add, SFadd.
  cbn [cond_Zopp Z.add]. apply binary_round_sign.
Qed.

Lemma add4_nonneg (a b c d : float) :
  Binary64.nonneg a = true -> Binary64.nonneg b = true ->
  Binary64.nonneg c = true -> Binary64.nonneg d = true ->
  Binary64.nonneg (add4 a b c d) = true.
Proof. intros. unfold add4. auto using add_nonneg. Qed.

(** ** Numeric extraction *)

Lemma safe_numeric_convert_zero_literal :
  safe_numeric_convert zero_literal = Binary64.zero.
Proof. reflexivity. Qed.

Lemma reads_as_zero_convert (v : cell) :
  reads_as_zero v = true -> safe_numeric_convert v = Binary64.zero.
Proof.
  destruct v as [s|]; [|reflexivity].
  unfold reads_as_zero, safe_numeric_convert.
  destruct (PyStr.mem (PyStr.strip s) ["nan"; ""; "None"]); [reflexivity|].
  destruct (PyFloat.py_float (PyStr.strip s)); simpl; [discriminate|reflexivity].
Qed.

(** A cell that holds other text than the three blanks is read by
    [float]. *)
Lemma safe_numeric_convert_float (s : string) :
  PyStr.mem (PyStr.strip s) ["nan"; ""; "None"] = false ->
  safe_numeric_convert (Some s) =
  match PyFloat.py_float (PyStr.strip s) with
  | Ok x => x
  | Raise _ => Binary64.zero
  end.
Proof. intros H. unfold safe_numeric_convert. now rewrite H. Qed.

Lemma extract_ok (col : option nat) (r : row) :
  extract col r = Ok (cell_value col r).
Proof.
  unfold extract, cell_or_zero, cell_value, iloc.
  destruct col as [c|]; [|reflexivity].
  destruct (c <? List.length r)%nat eqn:Hlt.
  - destruct (nth_error r c) as [v|] eqn:Hv; [reflexivity|].
    apply Nat.ltb_lt in Hlt. apply nth_error_None in Hv. lia.
  - apply Nat.ltb_ge in Hlt. apply nth_error_None in Hlt. now rewrite Hlt.
Qed.

(** The number read under a column whose cell holds the text [s]. *)
Lemma cell_value_holds (col : option nat) (r : row) (s : string) :
  cell_holds col r s ->
  cell_value col r =
  match PyFloat.py_float (PyStr.strip s) with
  | Ok x => x
  | Raise _ => Binary64.zero
  end.
Proof.
  intros (c & -> & Hc & Hs). unfold cell_value. rewrite Hc.
  now apply safe_numeric_convert_float.
Qed.

(** Under a column none of whose cells holds such a text, zero is read. *)
Lemma cell_value_blank (col : option nat) (r : row) :
  (forall s, ~ cell_holds col r s) -> cell_value col r = Binary64.zero.
Proof.
  intros H. unfold cell_value. destruct col as [c|]; [|reflexivity].
  destruct (nth_error r c) as [[s|]|] eqn:Hc; try reflexivity.
  unfold safe_numeric_convert.
  destruct (PyStr.mem (PyStr.strip s) ["nan"; ""; "None"]) eqn:Hs;
    [reflexivity|].
  elim (H s). now exists c.
Qed.

Lemma dict_get_sector_labels (sector : string) :
  PyStr.mem sector sector_labels = true ->
  exists name, dict_get sector_mapping sector = Ok name.
Proof.
  unfold PyStr.mem, sector_labels, sector_mapping. simpl.
  destruct (sector =? "STATE SECTOR"); [eauto|].
  destruct (sector =? "PVT SECTOR"); [eauto|].
  destruct (sector =? "CENTRAL SECTOR"); [eauto|discriminate].
Qed.

Lemma build_record_eq cols date region current_state sector r :
  build_record cols date region current_state sector r =
  (name <- dict_get sector_mapping (PyStr.upper sector) ;;
   Ok (record_of cols date region current_state name r)).
Proof. unfold build_record. now rewrite !extract_ok. Qed.

Lemma build_record_inv cols date region current_state sector r rec :
  build_record cols date region current_state sector r = Ok rec ->
  exists name, rec = record_of cols date region current_state name r.
Proof.
  rewrite build_record_eq.
  destruct (dict_get sector_mapping (PyStr.upper sector)) as [name|e]; simpl.
  - intros [= <-]. now exists name.
  - discriminate.
Qed.

(** C8. Numeric extraction in the Record Builder is total.  For every
    column variable and every row, [extract] returns a number and never
    raises: 0 when the column is absent or outside the row, 0 when the
    cell is missing, blank, ["nan"], ["None"] or text that [float] rejects,
    and the float that [float] reads from the text of the cell otherwise;
    and so the construction of the record of a sector row never raises. *)
Theorem C8_numeric_extraction_total (col : option nat) (r : row) :
  (exists x, extract col r = Ok x) /\
  (col = None -> extract col r = Ok Binary64.zero) /\
  (forall c, col = Some c -> (List.length r <= c)%nat ->
     extract col r = Ok Binary64.zero) /\
  (forall c v, col = Some c -> nth_error r c = Some v ->
     reads_as_zero v = true -> extract col r = Ok Binary64.zero) /\
  (forall c s x, col = Some c -> nth_error r c = Some (Some s) ->
     PyStr.mem (PyStr.strip s) ["nan"; ""; "None"] = false ->
     PyFloat.py_float (PyStr.strip s) = Ok x -> extract col r = Ok x) /\
  (forall cols date region current_state sector,
     PyStr.mem (PyStr.upper sector) sector_labels = true ->
     exists rec, build_record cols date region current_state sector r = Ok rec).
Proof.
  repeat split.
  - rewrite extract_ok. eauto.
  - intros ->. reflexivity.
  - intros c -> Hc. rewrite extract_ok. simpl.
    apply nth_error_None in Hc. now rewrite Hc.
  - intros c v -> Hv Hz. rewrite extract_ok. simpl. rewrite Hv.
    now rewrite (reads_as_zero_convert _ Hz).
  - intros c s x -> Hc Hs Hx. rewrite extract_ok.
    rewrite (cell_value_holds (Some c) r s); [now rewrite Hx|].
    now exists c.
  - intros cols date region current_state sector Hs.
    rewrite build_record_eq.
    destruct (dict_get_sector_labels _ Hs) as [name ->]. simpl. eauto.
Qed.

(** ** Records come from rows *)

Section Classifier.

Variables (cols : Columns) (date : option string) (region : string).

Lemma built_from_incl (rows rows' : list row) (rec : CapacityRecord) :
  incl rows rows' -> built_from cols date region rows rec ->
  built_from cols date region rows' rec.
Proof.
  intros Hincl (r & name & sector & Hin & Hs & Hb).
  exists r, name, sector. auto.
Qed.

Lemma sector_row_built (sector : string) (r : row) (st : Classifier) (rows : list row) :
  In r rows ->
  Forall (built_from cols date region rows) (result_data st) ->
  Forall (built_from cols date region rows) (result_data (sector_row cols date region sector r st)).
Proof.
  intros Hin Hst. unfold sector_row.
  destruct (truthy (current_state st)) as [name|]; [|exact Hst].
  destruct (PyStr.mem (PyStr.upper sector) sector_labels) eqn:Hs; [|exact Hst].
  destruct (build_record cols date region name sector r) as [rec|e] eqn:Hb;
    [|exact Hst].
  simpl. apply Forall_app. split; [exact Hst|].
  constructor; [|constructor]. now exists r, name, sector.
Qed.

Lemma classify_row_built (r : row) (st st' : Classifier) (rows : list row) :
  In r rows ->
  Forall (built_from cols date region rows) (result_data st) ->
  classify_row cols date region r st = Ok st' ->
  Forall (built_from cols date region rows) (result_data st').
Proof.
  intros Hin Hst. unfold classify_row.
  destruct (iloc r (state_col cols)) as [state_cell|]; simpl; [|discriminate].
  destruct (iloc r (sector_col_or_default cols)) as [sector_cell|]; simpl;
    [|discriminate].
  destruct ((cell_text state_cell =? "nan") && (cell_text sector_cell =? "nan")).
  - now intros [= <-].
  - destruct (if (cell_text sector_cell =? "nan") || (cell_text sector_cell =? "")
                 || (cell_text sector_cell =? "None")
              then no_sector_row (cell_text state_cell) else FallThrough).
    + now intros [= <-].
    + now intros [= <-].
    + intros [= <-]. now apply sector_row_built.
Qed.

Lemma classify_rows_built (rows todo : list row) (st st' : Classifier) :
  incl todo rows ->
  Forall (built_from cols date region rows) (result_data st) ->
  classify_rows cols date region todo st = Ok st' ->
  Forall (built_from cols date region rows) (result_data st').
Proof.
  revert st. induction todo as [|r todo IH]; intros st Hincl Hst; simpl.
  - now intros [= <-].
  - destruct (classify_row cols date region r st) as [st1|e] eqn:Hrow; simpl;
      [|discriminate].
    apply IH.
    + intros x Hx. apply Hincl. now right.
    + eapply classify_row_built; eauto. apply Hincl. now left.
Qed.

End Classifier.

Lemma drop_regional_incl (l : list CapacityRecord) : incl (drop_regional l) l.
Proof.
  destruct l as [|a l]; [easy|]. unfold drop_regional.
  intros x Hx. now apply filter_In in Hx.
Qed.

Lemma incl_skipn {A : Type} (n : nat) (l : list A) : incl (skipn n l) l.
Proof.
  intros x Hx. rewrite <- (firstn_skipn n l). apply in_or_app. now right.
Qed.

(** Every record of the frame of a file was built from one of its rows, by
    the Record Builder, under the columns the Header Locator found. *)
Lemma process_excel_file_records (df : RawGrid) (date : option string)
    (region : string) (rec : CapacityRecord) :
  In rec (process_excel_file (Some df) date region) ->
  built_from (locate_headers df) date region df rec.
Proof.
  unfold process_excel_file.
  destruct (classify_rows _ _ _ _ _) as [st|e] eqn:Hc; [|easy].
  intros Hin. apply drop_regional_incl in Hin.
  eapply classify_rows_built in Hc.
  - rewrite Forall_forall in Hc. now apply Hc.
  - apply incl_skipn.
  - constructor.
Qed.

(** ** C3 *)

(** C3. For every record of the frame extracted from a file there is a
    data row of the grid it was built from.  When the cell of that row
    under the grand-total column holds a text that [float] reads as a
    number, the Total of the record is that number if it is not zero, and
    Thermal Total + Nuclear + Hydro + RES if it is zero; the Total is this
    sum too when [float] rejects the text, and when there is no such text:
    the column was not located or is outside the row, or the cell is
    missing or holds one of the blanks. *)
Theorem C3_total_is_source_or_sum (df : RawGrid) (date : option string)
    (region : string) (rec : CapacityRecord) :
  In rec (process_excel_file (Some df) date region) ->
  exists r name sector,
    In r df /\
    build_record (locate_headers df) date region name sector r = Ok rec /\
    let total := total_col (locate_headers df) in
    let sum := add4 (ThermalTotal rec) (Nuclear rec) (Hydro rec) (RES rec) in
    (forall s g, cell_holds total r s ->
       PyFloat.py_float (PyStr.strip s) = Ok g ->
       Total rec = if Binary64.is_zero g then sum else g) /\
    (forall s e, cell_holds total r s ->
       PyFloat.py_float (PyStr.strip s) = Raise e -> Total rec = sum) /\
    ((forall s, ~ cell_holds total r s) -> Total rec = sum).
Proof.
  intros Hin. apply process_excel_file_records in Hin.
  destruct Hin as (r & name & sector & Hr & _ & Hb).
  exists r, name, sector.
  split; [exact Hr|]. split; [exact Hb|].
  apply build_record_inv in Hb. destruct Hb as [sname ->].
  cbn zeta. cbn [Total ThermalTotal Nuclear Hydro RES record_of].
  unfold grand_or_sum. repeat split.
  - intros s g Hs Hg. rewrite (cell_value_holds _ _ _ Hs), Hg. reflexivity.
  - intros s e Hs He. rewrite (cell_value_holds _ _ _ Hs), He. reflexivity.
  - intros Hnone. rewrite (cell_value_blank _ _ Hnone). reflexivity.
Qed.

(** ** The header scan as a fold over the scanned cells *)

Lemma scan_row_fold (idx col_idx : nat) (r : row) (st : Columns) :
  scan_row idx col_idx r st = fold_left scan_step (row_cells idx col_idx r) st.
Proof.
  revert col_idx st. induction r as [|[s|] r IH]; intros col_idx st; simpl;
    [reflexivity| |]; apply IH.
Qed.

Lemma scan_rows_fold (idx : nat) (rows : list row) (st : Columns) :
  scan_rows idx rows st = fold_left scan_step (grid_cells idx rows) st.
Proof.
  revert idx st. induction rows as [|r rows IH]; intros idx st; simpl;
    [reflexivity|].
  now rewrite fold_left_app, IH, scan_row_fold.
Qed.

Lemma locate_headers_fold (df : RawGrid) :
  locate_headers df = fold_left scan_step (scanned_cells df) initial_columns.
Proof. apply scan_rows_fold. Qed.

(** Where the scanned cells sit in the grid. *)
Lemma in_row_cells (idx col_idx : nat) (r : row) (x : scanned) :
  In x (row_cells idx col_idx r) <->
  exists k s, nth_error r k = Some (Some s) /\ x = (idx, col_idx + k, header_text s).
Proof.
  revert col_idx. induction r as [|c r IH]; intros col_idx.
  - simpl. split; [easy|]. intros (k & s & Hk & _). now destruct k.
  - assert (Hshift : In x (row_cells idx (S col_idx) r) <->
      exists k s, nth_error r k = Some (Some s)
                  /\ x = (idx, col_idx + S k, header_text s)).
    { rewrite IH. split; intros (k & s & Hk & ->); exists k, s;
        (split; [exact Hk|]); f_equal; f_equal; lia. }
    destruct c as [s0|]; simpl.
    + split.
      * intros [<-|Hin].
        -- exists 0, s0. split; [reflexivity|]. f_equal. f_equal. lia.
        -- apply Hshift in Hin. destruct Hin as (k & s & Hk & ->).
           now exists (S k), s.
      * intros ([|k] & s & Hk & ->).
        -- simpl in Hk. injection Hk as ->. left. f_equal. f_equal. lia.
        -- right. apply Hshift. now exists k, s.
    + rewrite Hshift. split.
      * intros (k & s & Hk & ->). now exists (S k), s.
      * intros ([|k] & s & Hk & ->); [discriminate|]. now exists k, s.
Qed.

Lemma in_grid_cells (idx : nat) (rows : list row) (x : scanned) :
  In x (grid_cells idx rows) <->
  exists i r k s, nth_error rows i = Some r /\ nth_error r k = Some (Some s)
                  /\ x = (idx + i, k, header_text s).
Proof.
  revert idx. induction rows as [|r0 rows IH]; intros idx; simpl.
  - split; [easy|]. intros (i & r & k & s & Hi & _). now destruct i.
  - rewrite in_app_iff, in_row_cells, IH. split.
    + intros [(k & s & Hk & ->)|(i & r & k & s & Hi & Hk & ->)].
      * exists 0, r0, k, s. repeat split; auto. f_equal. f_equal. lia.
      * exists (S i), r, k, s. repeat split; auto. f_equal. f_equal. lia.
    + intros ([|i] & r & k & s & Hi & Hk & ->).
      * left. simpl in Hi. injection Hi as ->. exists k, s. split; [exact Hk|].
        f_equal. f_equal. lia.
      * right. exists i, r, k, s. repeat split; auto. f_equal. f_equal. lia.
Qed.

(** The scan visits exactly the cells of the first 15 rows that are not
    missing. *)
Lemma in_scanned_cells (df : RawGrid) (x : scanned) :
  In x (scanned_cells df) <->
  exists i r k s, (i < 15)%nat /\ nth_error df i = Some r
                  /\ nth_error r k = Some (Some s) /\ x = (i, k, header_text s).
Proof.
  unfold scanned_cells. rewrite in_grid_cells. split.
  - intros (i & r & k & s & Hi & Hk & ->). exists i, r, k, s.
    assert (Hlt : (i < 15)%nat).
    { assert (H : (i < List.length (firstn 15 df))%nat)
        by (apply nth_error_Some; congruence).
      rewrite length_firstn in H. lia. }
    rewrite nth_error_firstn in Hi.
    destruct (i <? 15)%nat eqn:E; [|discriminate]. auto.
  - intros (i & r & k & s & Hlt & Hi & Hk & ->). exists i, r, k, s.
    rewrite nth_error_firstn. apply Nat.ltb_lt in Hlt. rewrite Hlt. auto.
Qed.

(** ** What one step of the scan does to each variable *)

Lemma field_eqb_eq (f g : field) : field_eqb f g = true <-> f = g.
Proof. destruct f, g; simpl; split; congruence. Qed.

Lemma get_col_set_col (f g : field) (c : nat) (st : Columns) :
  get_col f (set_col g c st) = if field_eqb f g then Some c else get_col f st.
Proof. destruct st, f, g; reflexivity. Qed.

Lemma get_col_add_header (f : field) (i : nat) (st : Columns) :
  get_col f (add_header i st) = get_col f st.
Proof. destruct st, f; reflexivity. Qed.

Lemma get_col_set_state_col (f : field) (c : nat) (st : Columns) :
  get_col f (set_state_col c st) = get_col f st.
Proof. destruct st, f; reflexivity. Qed.

Lemma get_col_set_sector_col (f : field) (c : nat) (st : Columns) :
  get_col f (set_sector_col c st) = get_col f st.
Proof. destruct st, f; reflexivity. Qed.

Lemma state_col_first_match (f : field) (s : string) (i c : nat) (st : Columns) :
  state_col (first_match f s i c st) = state_col st.
Proof.
  unfold first_match. destruct (label_matches f s c); [|reflexivity].
  destruct (get_col f st); [reflexivity|]. destruct st, f; reflexivity.
Qed.

Lemma sector_col_first_match (f : field) (s : string) (i c : nat) (st : Columns) :
  sector_col (first_match f s i c st) = sector_col st.
Proof.
  unfold first_match. destruct (label_matches f s c); [|reflexivity].
  destruct (get_col f st); [reflexivity|]. destruct st, f; reflexivity.
Qed.

Lemma get_col_first_match (f g : field) (s : string) (i c : nat) (st : Columns) :
  get_col f (first_match g s i c st) =
  match get_col f st with
  | Some c0 => Some c0
  | None => if field_eqb f g && label_matches f s c then Some c else None
  end.
Proof.
  unfold first_match. destruct (field_eqb f g) eqn:E.
  - apply field_eqb_eq in E. subst g.
    destruct (label_matches f s c); simpl.
    + destruct (get_col f st) eqn:G; [exact G|].
      rewrite get_col_add_header, get_col_set_col.
      now replace (field_eqb f f) with true by (now destruct f).
    + now destruct (get_col f st).
  - simpl. destruct (label_matches g s c).
    + destruct (get_col g st) eqn:G.
      * now destruct (get_col f st).
      * rewrite get_col_add_header, get_col_set_col, E.
        now destruct (get_col f st).
    + now destruct (get_col f st).
Qed.

Section FirstMatches.

Variables (s : string) (i c : nat).

Lemma state_col_first_matches (fs : list field) (st : Columns) :
  state_col (fold_left (fun st f => first_match f s i c st) fs st) = state_col st.
Proof.
  revert st. induction fs as [|g fs IH]; intros st; simpl; [reflexivity|].
  now rewrite IH, state_col_first_match.
Qed.

Lemma sector_col_first_matches (fs : list field) (st : Columns) :
  sector_col (fold_left (fun st f => first_match f s i c st) fs st) = sector_col st.
Proof.
  revert st. induction fs as [|g fs IH]; intros st; simpl; [reflexivity|].
  now rewrite IH, sector_col_first_match.
Qed.

Lemma get_col_first_matches (f : field) (fs : list field) (st : Columns) :
  get_col f (fold_left (fun st f => first_match f s i c st) fs st) =
  match get_col f st with
  | Some c0 => Some c0
  | None => if existsb (field_eqb f) fs && label_matches f s c
            then Some c else None
  end.
Proof.
  revert st. induction fs as [|g fs IH]; intros st; simpl.
  - now destruct (get_col f st).
  - rewrite IH, get_col_first_match.
    destruct (get_col f st); [reflexivity|].
    destruct (field_eqb f g); simpl.
    + destruct (label_matches f s c); simpl; [reflexivity|].
      now rewrite andb_false_r.
    + reflexivity.
Qed.

End FirstMatches.

Lemma existsb_fields (f : field) : existsb (field_eqb f) fields = true.
Proof. now destruct f. Qed.

(** A fuel or total column keeps its first match. *)
Lemma get_col_scan_step (f : field) (st : Columns) (x : scanned) :
  get_col f (scan_step st x) =
  match get_col f st with
  | Some c0 => Some c0
  | None => if is_label f x then Some (cell_col x) else None
  end.
Proof.
  unfold scan_step, scan_text. rewrite get_col_first_matches, existsb_fields.
  simpl andb. unfold is_label.
  destruct (sector_label (snd x)), (state_label (snd x));
    now rewrite ?get_col_add_header, ?get_col_set_sector_col,
      ?get_col_add_header, ?get_col_set_state_col.
Qed.

(** The state column takes every match. *)
Lemma state_col_scan_step (st : Columns) (x : scanned) :
  state_col (scan_step st x) =
  if is_state_label x then cell_col x else state_col st.
Proof.
  unfold scan_step, scan_text, is_state_label.
  rewrite state_col_first_matches.
  destruct (sector_label (snd x)), (state_label (snd x)), st; reflexivity.
Qed.

(** So does the sector column. *)
Lemma sector_col_scan_step (st : Columns) (x : scanned) :
  sector_col (scan_step st x) =
  if is_sector_label x then Some (cell_col x) else sector_col st.
Proof.
  unfold scan_step, scan_text, is_sector_label.
  rewrite sector_col_first_matches.
  destruct (sector_label (snd x)), (state_label (snd x)), st; reflexivity.
Qed.

(** ** C10 *)

Lemma last_cons_default {A : Type} (a d : A) (l : list A) :
  last (a :: l) d = last l a.
Proof.
  revert a d. induction l as [|b l IH]; intros a d; [reflexivity|].
  change (last (a :: b :: l) d) with (last (b :: l) d).
  now rewrite (IH b d), (IH b a).
Qed.

Lemma fold_state_col (cells : list scanned) (st : Columns) :
  state_col (fold_left scan_step cells st) =
  last (map cell_col (filter is_state_label cells)) (state_col st).
Proof.
  revert st. induction cells as [|x cells IH]; intros st; [reflexivity|].
  simpl fold_left. rewrite IH, state_col_scan_step. simpl filter.
  destruct (is_state_label x); [|reflexivity].
  simpl map. now rewrite last_cons_default.
Qed.

Lemma fold_sector_col (cells : list scanned) (st : Columns) :
  sector_col (fold_left scan_step cells st) =
  last (map (fun x => Some (cell_col x)) (filter is_sector_label cells))
       (sector_col st).
Proof.
  revert st. induction cells as [|x cells IH]; intros st; [reflexivity|].
  simpl fold_left. rewrite IH, sector_col_scan_step. simpl filter.
  destruct (is_sector_label x); [|reflexivity].
  simpl map. now rewrite last_cons_default.
Qed.

Lemma fold_get_col (f : field) (cells : list scanned) (st : Columns) :
  get_col f (fold_left scan_step cells st) =
  match get_col f st with
  | Some c0 => Some c0
  | None => hd_error (map cell_col (filter (is_label f) cells))
  end.
Proof.
  revert st. induction cells as [|x cells IH]; intros st.
  - simpl. now destruct (get_col f st).
  - simpl fold_left. rewrite IH, get_col_scan_step. simpl filter.
    destruct (get_col f st); [reflexivity|].
    now destruct (is_label f x).
Qed.

(** C10. Over the cells the header scan visits (the cells of the first 15
    rows that are not missing, row by row and left to right), the state
    column is the column of the last cell whose text is [STATE] (1 when
    there is none) and the sector column is the column of the last cell
    that carries a sector label, whereas each of the eight fuel and total
    columns is the column of the first cell that matches its label. *)
Theorem C10_state_sector_last_fuel_first (df : RawGrid) :
  state_col (locate_headers df) =
    last (map cell_col (filter is_state_label (scanned_cells df))) 1%nat /\
  sector_col (locate_headers df) =
    last (map (fun x => Some (cell_col x))
              (filter is_sector_label (scanned_cells df))) None /\
  forall f : field,
    get_col f (locate_headers df) =
    hd_error (map cell_col (filter (is_label f) (scanned_cells df))).
Proof.
  rewrite locate_headers_fold. repeat split.
  - apply fold_state_col.
  - apply fold_sector_col.
  - intros f. rewrite fold_get_col. now destruct f.
Qed.

(** On a sheet that repeats its labels, the state and sector columns are
    those of the last occurrence and the coal column that of the first. *)
Example repeated_labels_columns :
  state_col (locate_headers repeated_labels_grid) = 3%nat /\
  sector_col (locate_headers repeated_labels_grid) = Some 0%nat /\
  coal_col (locate_headers repeated_labels_grid) = Some 2%nat /\
  start_row (locate_headers repeated_labels_grid) = 3%nat.
Proof. repeat split; vm_compute; reflexivity. Qed.

(** ** The header rows *)

Lemma in_header_add (j i : nat) (st : Columns) :
  In j (header_rows (add_header i st)) <-> j = i \/ In j (header_rows st).
Proof.
  destruct st as [co li ga di nu hy re to sc se hr]. simpl.
  destruct (existsb (Nat.eqb i) hr) eqn:E.
  - split; [now right|]. intros [->|H]; [|exact H].
    apply existsb_exists in E. destruct E as (k & Hk & Ek).
    apply Nat.eqb_eq in Ek. now subst k.
  - simpl. split; intros [H|H]; auto.
Qed.

Lemma header_rows_set_col (f : field) (c : nat) (st : Columns) :
  header_rows (set_col f c st) = header_rows st.
Proof. destruct st, f; reflexivity. Qed.

Lemma header_rows_set_state_col (c : nat) (st : Columns) :
  header_rows (set_state_col c st) = header_rows st.
Proof. now destruct st. Qed.

Lemma header_rows_set_sector_col (c : nat) (st : Columns) :
  header_rows (set_sector_col c st) = header_rows st.
Proof. now destruct st. Qed.

Lemma in_header_first_match (j : nat) (f : field) (s : string) (i c : nat)
    (st : Columns) :
  In j (header_rows (first_match f s i c st)) <->
  In j (header_rows st)
  \/ (j = i /\ label_matches f s c = true /\ get_col f st = None).
Proof.
  unfold first_match. destruct (label_matches f s c).
  - destruct (get_col f st).
    + split; [now left|]. now intros [H|(_ & _ & H)].
    + rewrite in_header_add, header_rows_set_col. tauto.
  - split; [now left|]. now intros [H|(_ & H & _)].
Qed.

Lemma get_col_first_match_None (f g : field) (s : string) (i c : nat)
    (st : Columns) :
  get_col f (first_match g s i c st) = None -> get_col f st = None.
Proof. rewrite get_col_first_match. now destruct (get_col f st). Qed.

Lemma in_header_first_matches (j : nat) (s : string) (i c : nat)
    (fs : list field) (st : Columns) :
  In j (header_rows (fold_left (fun st f => first_match f s i c st) fs st)) <->
  In j (header_rows st)
  \/ (j = i /\ exists f, In f fs /\ label_matches f s c = true
                         /\ get_col f st = None).
Proof.
  revert st. induction fs as [|g fs IH]; intros st; simpl.
  - split; [now left|]. now intros [H|(_ & f & [] & _)].
  - rewrite IH, in_header_first_match. split.
    + intros [[H|(-> & Hl & Hg)]|(-> & f & Hf & Hl & Hg)].
      * now left.
      * right. split; [reflexivity|]. exists g. auto.
      * right. split; [reflexivity|]. exists f.
        apply get_col_first_match_None in Hg. auto.
    + intros [H|(-> & f & [<-|Hf] & Hl & Hg)].
      * now left; left.
      * left; right. auto.
      * destruct (get_col f (first_match g s i c st)) eqn:G.
        -- left; right. rewrite get_col_first_match, Hg in G.
           destruct (field_eqb f g) eqn:E; [|discriminate].
           apply field_eqb_eq in E. subst g. auto.
        -- right. split; [reflexivity|]. exists f. auto.
Qed.

(** A row is recorded at a cell when the cell is a state or sector label,
    or the first match of one of the eight fields. *)
Lemma in_header_scan_step (j : nat) (st : Columns) (x : scanned) :
  In j (header_rows (scan_step st x)) <->
  In j (header_rows st)
  \/ (j = cell_row x
      /\ (is_state_label x = true \/ is_sector_label x = true
          \/ exists f, is_label f x = true /\ get_col f st = None)).
Proof.
  unfold scan_step, scan_text, is_state_label, is_sector_label, is_label.
  rewrite in_header_first_matches.
  set (st1 := if state_label (snd x) then _ else st).
  set (st2 := if sector_label (snd x) then _ else st1).
  assert (G : forall f, get_col f st2 = get_col f st).
  { intros f. unfold st2, st1.
    destruct (sector_label (snd x)), (state_label (snd x));
      now rewrite ?get_col_add_header, ?get_col_set_sector_col,
        ?get_col_add_header, ?get_col_set_state_col. }
  assert (H1 : In j (header_rows st1) <->
               In j (header_rows st)
               \/ (j = cell_row x /\ state_label (snd x) = true)).
  { unfold st1. destruct (state_label (snd x)).
    - rewrite in_header_add, header_rows_set_state_col. tauto.
    - split; [now left|]. now intros [H|[_ H]]. }
  assert (H2 : In j (header_rows st2) <->
               In j (header_rows st1)
               \/ (j = cell_row x /\ sector_label (snd x) = true)).
  { unfold st2. destruct (sector_label (snd x)).
    - rewrite in_header_add, header_rows_set_sector_col. tauto.
    - split; [now left|]. now intros [H|[_ H]]. }
  rewrite H2, H1. split.
  - intros [[[H|[-> H]]|[-> H]]|(-> & f & _ & Hl & Hg)]; auto.
    right. split; [reflexivity|]. right; right. exists f. now rewrite <- G.
  - intros [H|(-> & [H|[H|(f & Hl & Hg)]])]; auto.
    right. split; [reflexivity|]. exists f. rewrite G.
    split; [|auto]. destruct f; simpl; auto 10.
Qed.

Lemma is_label_labelled (f : field) (x : scanned) :
  is_label f x = true -> labelled x = true.
Proof.
  intros H. unfold labelled. apply orb_true_iff. right.
  apply existsb_exists. exists f. split; [now destruct f; simpl; auto 10|exact H].
Qed.

Lemma is_state_label_labelled (x : scanned) :
  is_state_label x = true -> labelled x = true.
Proof. intros H. unfold labelled. now rewrite H. Qed.

Lemma is_sector_label_labelled (x : scanned) :
  is_sector_label x = true -> labelled x = true.
Proof. intros H. unfold labelled. rewrite H. now rewrite orb_true_r. Qed.

Lemma labelled_cases (x : scanned) :
  labelled x = true ->
  is_state_label x = true \/ is_sector_label x = true
  \/ exists f, is_label f x = true.
Proof.
  unfold labelled. intros H.
  apply orb_true_iff in H. destruct H as [H|H].
  - apply orb_true_iff in H. tauto.
  - apply existsb_exists in H. destruct H as (f & _ & H). eauto.
Qed.

(** Every recorded header row is the row of a labelled cell. *)
Lemma fold_header_rows_labelled (cells : list scanned) (st : Columns) (j : nat) :
  In j (header_rows (fold_left scan_step cells st)) ->
  In j (header_rows st)
  \/ exists x, In x cells /\ cell_row x = j /\ labelled x = true.
Proof.
  revert st. induction cells as [|x cells IH]; intros st; simpl; [auto|].
  intros H. apply IH in H. destruct H as [H|(y & Hy & Hr & Hl)].
  - apply in_header_scan_step in H.
    destruct H as [H|(-> & H)]; [now left|].
    right. exists x. split; [now left|]. split; [reflexivity|].
    destruct H as [H|[H|(f & H & _)]];
      eauto using is_label_labelled, is_state_label_labelled,
        is_sector_label_labelled.
  - right. exists y. auto.
Qed.

Lemma header_rows_step_nonempty (st : Columns) (x : scanned) :
  header_rows st <> [] -> header_rows (scan_step st x) <> [].
Proof.
  destruct (header_rows st) as [|j l] eqn:E; [easy|]. intros _ Hnil.
  assert (H : In j (header_rows (scan_step st x))).
  { apply in_header_scan_step. left. rewrite E. now left. }
  now rewrite Hnil in H.
Qed.

Lemma labelled_step_nonempty (st : Columns) (x : scanned) :
  found_has_header st -> labelled x = true ->
  header_rows (scan_step st x) <> [].
Proof.
  intros K Hl.
  assert (Hin : In (cell_row x) (header_rows (scan_step st x))
                \/ header_rows st <> []).
  { apply labelled_cases in Hl. destruct Hl as [H|[H|(f & H)]].
    - left. apply in_header_scan_step. auto.
    - left. apply in_header_scan_step. auto.
    - destruct (get_col f st) eqn:G.
      + right. apply (K f). congruence.
      + left. apply in_header_scan_step. right. split; [reflexivity|].
        right; right. eauto. }
  destruct Hin as [Hin|Hne].
  - intros Hnil. now rewrite Hnil in Hin.
  - now apply header_rows_step_nonempty.
Qed.

Lemma found_has_header_step (st : Columns) (x : scanned) :
  found_has_header st -> found_has_header (scan_step st x).
Proof.
  intros K f Hf. rewrite get_col_scan_step in Hf.
  destruct (get_col f st) eqn:G.
  - apply header_rows_step_nonempty, (K f). congruence.
  - destruct (is_label f x) eqn:L; [|easy].
    eapply labelled_step_nonempty; eauto using is_label_labelled.
Qed.

Lemma fold_header_rows_nonempty (cells : list scanned) (st : Columns) :
  header_rows st <> [] -> header_rows (fold_left scan_step cells st) <> [].
Proof.
  revert st. induction cells as [|x cells IH]; intros st H; simpl; [exact H|].
  now apply IH, header_rows_step_nonempty.
Qed.

Lemma fold_labelled_nonempty (cells : list scanned) (st : Columns) (x : scanned) :
  found_has_header st -> In x cells -> labelled x = true ->
  header_rows (fold_left scan_step cells st) <> [].
Proof.
  revert st. induction cells as [|y cells IH]; intros st K Hin Hl; [easy|].
  simpl. destruct Hin as [->|Hin].
  - now apply fold_header_rows_nonempty, labelled_step_nonempty.
  - apply IH; auto using found_has_header_step.
Qed.

Lemma found_has_header_initial : found_has_header initial_columns.
Proof. intros f. now destruct f. Qed.

Lemma list_max_const (l : list nat) (k : nat) :
  l <> [] -> (forall j, In j l -> j = k) -> list_max l = k.
Proof.
  induction l as [|a l IH]; [easy|]. intros _ H. simpl.
  assert (Ha : a = k) by (apply H; now left). subst a.
  destruct l as [|b l]; [simpl; lia|].
  rewrite IH; [lia|easy|]. intros j Hj. apply H. now right.
Qed.

(** When the labelled cells of the scan are all in row [k], and there is
    one, the data start at row [k + 1]. *)
Lemma start_row_single_header_row (df : RawGrid) (k : nat) (x : scanned) :
  In x (scanned_cells df) -> labelled x = true ->
  (forall y, In y (scanned_cells df) -> labelled y = true -> cell_row y = k) ->
  start_row (locate_headers df) = S k.
Proof.
  intros Hx Hl Hall. unfold start_row. rewrite locate_headers_fold.
  pose proof (fold_labelled_nonempty _ _ _ found_has_header_initial Hx Hl) as Hne.
  destruct (header_rows _) as [|a l] eqn:E; [easy|].
  f_equal. apply list_max_const; [easy|].
  intros j Hj. rewrite <- E in Hj.
  apply fold_header_rows_labelled in Hj. destruct Hj as [[]|(y & Hy & <- & Hly)].
  now apply Hall.
Qed.

Lemma start_row_no_label (df : RawGrid) :
  (forall x, In x (scanned_cells df) -> labelled x = false) ->
  start_row (locate_headers df) = 5%nat.
Proof.
  intros Hall. unfold start_row. rewrite locate_headers_fold.
  destruct (header_rows _) as [|a l] eqn:E; [reflexivity|].
  assert (Hj : In a (header_rows (fold_left scan_step (scanned_cells df)
                                    initial_columns)))
    by (rewrite E; now left).
  apply fold_header_rows_labelled in Hj. destruct Hj as [[]|(y & Hy & _ & Hly)].
  rewrite (Hall y Hy) in Hly. discriminate.
Qed.

Lemma hd_error_map_const {A B : Type} (g : A -> B) (v : B) (l : list A) (a : A) :
  In a l -> (forall x, In x l -> g x = v) -> hd_error (map g l) = Some v.
Proof.
  destruct l as [|b l]; [easy|]. intros _ H. simpl. f_equal. apply H. now left.
Qed.

(** ** The order of the scan *)

Lemma StronglySorted_app {A : Type} (R : A -> A -> Prop) (l1 l2 : list A) :
  StronglySorted R l1 -> StronglySorted R l2 ->
  (forall x y, In x l1 -> In y l2 -> R x y) ->
  StronglySorted R (l1 ++ l2).
Proof.
  intros H1 H2 H. induction l1 as [|a l1 IH]; [exact H2|]. simpl.
  apply StronglySorted_inv in H1. destruct H1 as [Hs Ha].
  constructor.
  - apply IH; [exact Hs|]. intros x y Hx. apply H. now right.
  - apply Forall_app. split; [exact Ha|].
    apply Forall_forall. intros y Hy. apply H; [now left|exact Hy].
Qed.

Lemma StronglySorted_before {A : Type} (R : A -> A -> Prop)
    (before after : list A) (x y : A) :
  StronglySorted R (before ++ x :: after) -> In y before -> R y x.
Proof.
  induction before as [|a before IH]; [easy|]. simpl. intros H Hy.
  apply StronglySorted_inv in H. destruct H as [Hs Ha].
  destruct Hy as [->|Hy]; [|now apply IH].
  rewrite Forall_forall in Ha. apply Ha. apply in_or_app. right. now left.
Qed.

Lemma StronglySorted_after {A : Type} (R : A -> A -> Prop)
    (before after : list A) (x y : A) :
  StronglySorted R (before ++ x :: after) -> In y after -> R x y.
Proof.
  induction before as [|a before IH]; simpl; intros H Hy.
  - apply StronglySorted_inv in H. destruct H as [_ Ha].
    rewrite Forall_forall in Ha. now apply Ha.
  - apply StronglySorted_inv in H. destruct H as [Hs _]. now apply IH.
Qed.

Lemma row_cells_sorted (idx col_idx : nat) (r : row) :
  StronglySorted scan_lt (row_cells idx col_idx r) /\
  Forall (fun x => cell_row x = idx /\ (col_idx <= cell_col x)%nat)
         (row_cells idx col_idx r).
Proof.
  revert col_idx. induction r as [|c r IH]; intros col_idx; simpl.
  - split; constructor.
  - destruct (IH (S col_idx)) as [Hs Hf].
    assert (Hf' : Forall (fun x => cell_row x = idx /\ (col_idx <= cell_col x)%nat)
                         (row_cells idx (S col_idx) r)).
    { eapply Forall_impl; [|exact Hf]. intros x [Hr Hc]. split; [exact Hr|lia]. }
    destruct c as [s|]; [|now split].
    split.
    + constructor; [exact Hs|].
      eapply Forall_impl; [|exact Hf]. intros x [Hr Hc].
      right. unfold cell_row, cell_col in *. simpl. split; [now rewrite Hr|lia].
    + constructor; [|exact Hf']. unfold cell_row, cell_col. simpl. split; lia.
Qed.

Lemma grid_cells_sorted (idx : nat) (rows : list row) :
  StronglySorted scan_lt (grid_cells idx rows) /\
  Forall (fun x => (idx <= cell_row x)%nat) (grid_cells idx rows).
Proof.
  revert idx. induction rows as [|r rows IH]; intros idx; simpl.
  - split; constructor.
  - destruct (IH (S idx)) as [Hs Hf].
    destruct (row_cells_sorted idx 0 r) as [Hrs Hrf].
    rewrite Forall_forall in Hf, Hrf. split.
    + apply StronglySorted_app; [exact Hrs|exact Hs|].
      intros x y Hx Hy. left.
      destruct (Hrf x Hx) as [-> _]. specialize (Hf y Hy). lia.
    + apply Forall_app. split; apply Forall_forall; intros x Hx.
      * destruct (Hrf x Hx) as [-> _]. lia.
      * specialize (Hf x Hx). lia.
Qed.

(** The cells are scanned row by row, and from left to right in a row. *)
Lemma scanned_cells_sorted (df : RawGrid) :
  StronglySorted scan_lt (scanned_cells df).
Proof. apply grid_cells_sorted. Qed.

(** ** The rows that are recorded *)

Lemma get_col_scan_step_None (f : field) (st : Columns) (x : scanned) :
  get_col f (scan_step st x) = None <->
  get_col f st = None /\ is_label f x = false.
Proof.
  rewrite get_col_scan_step. destruct (get_col f st); [easy|].
  destruct (is_label f x); split; try easy; now intros [_ H].
Qed.

(** A row is among the header rows after the scan of [cells] when it was
    before, or when one of the cells recorded it: a state or sector label,
    or the first match of a field that had no column yet. *)
Lemma fold_header_rows_recorded (cells : list scanned) (st : Columns) (j : nat) :
  In j (header_rows (fold_left scan_step cells st)) <->
  In j (header_rows st)
  \/ exists before x after,
       cells = before ++ x :: after /\ cell_row x = j /\
       (is_state_label x = true \/ is_sector_label x = true
        \/ exists f, is_label f x = true /\ get_col f st = None
                     /\ forall y, In y before -> is_label f y = false).
Proof.
  revert st. induction cells as [|x0 cells IH]; intros st.
  - simpl. split; [now left|]. intros [H|(before & x & after & E & _)];
      [exact H|]. now destruct before.
  - simpl fold_left. rewrite IH, in_header_scan_step. split.
    + intros [[H|(-> & H)]|(before & x & after & -> & <- & H)].
      * now left.
      * right. exists [], x0, cells. split; [reflexivity|].
        split; [reflexivity|].
        destruct H as [H|[H|(f & Hl & Hg)]]; auto.
        right; right. exists f. repeat split; auto. intros y [].
      * right. exists (x0 :: before), x, after. split; [reflexivity|].
        split; [reflexivity|].
        destruct H as [H|[H|(f & Hl & Hg & Hb)]]; auto.
        right; right. exists f. apply get_col_scan_step_None in Hg.
        destruct Hg as [Hg Hx0]. repeat split; auto.
        intros y [<-|Hy]; auto.
    + intros [H|(before & x & after & E & <- & H)]; [now left; left|].
      destruct before as [|b before]; simpl in E; injection E as <- ->.
      * left; right. split; [reflexivity|].
        destruct H as [H|[H|(f & Hl & Hg & _)]]; eauto.
      * right. exists before, x, after. split; [reflexivity|].
        split; [reflexivity|].
        destruct H as [H|[H|(f & Hl & Hg & Hb)]]; auto.
        right; right. exists f. repeat split; auto.
        -- apply get_col_scan_step_None. split; [exact Hg|].
           apply Hb. now left.
        -- intros y Hy. apply Hb. now right.
Qed.

Lemma header_rows_recorded (df : RawGrid) (j : nat) :
  In j (header_rows (locate_headers df)) <-> recorded df j.
Proof.
  rewrite locate_headers_fold, fold_header_rows_recorded. unfold recorded.
  split.
  - intros [[]|(before & x & after & E & Hj & H)].
    exists before, x, after. split; [exact E|]. split; [exact Hj|].
    destruct H as [H|[H|(f & Hl & _ & Hb)]]; [now left|now right; left|].
    right; right. now exists f.
  - intros (before & x & after & E & Hj & H). right.
    exists before, x, after. split; [exact E|]. split; [exact Hj|].
    destruct H as [H|[H|(f & Hl & Hb)]]; [now left|now right; left|].
    right; right. exists f. repeat split; auto. now destruct f.
Qed.

Lemma list_max_greatest (l : list nat) (j : nat) :
  In j l -> (forall i, In i l -> (i <= j)%nat) -> list_max l = j.
Proof.
  induction l as [|a l IH]; [easy|]. intros Hj Hle. simpl.
  assert (Ha : (a <= j)%nat) by (apply Hle; now left).
  destruct Hj as [->|Hj].
  - assert (H : (list_max l <= j)%nat).
    { clear IH Ha. induction l as [|b l IHl]; simpl; [lia|].
      assert ((b <= j)%nat) by (apply Hle; right; now left).
      assert ((list_max l <= j)%nat).
      { apply IHl. intros i [<-|Hi]; apply Hle; [now left|right; now right]. }
      lia. }
    lia.
  - rewrite IH; [lia|exact Hj|]. intros i Hi. apply Hle. now right.
Qed.

Lemma start_row_recorded (df : RawGrid) (j : nat) :
  recorded df j -> (forall i, recorded df i -> (i <= j)%nat) ->
  start_row (locate_headers df) = S j.
Proof.
  intros Hj Hle. unfold start_row.
  apply header_rows_recorded in Hj.
  destruct (header_rows (locate_headers df)) as [|a l] eqn:E; [easy|].
  f_equal. apply list_max_greatest; [exact Hj|].
  intros i Hi. apply Hle, header_rows_recorded. now rewrite E.
Qed.

Lemma start_row_none_recorded (df : RawGrid) :
  (forall j, ~ recorded df j) -> start_row (locate_headers df) = 5%nat.
Proof.
  intros H. unfold start_row.
  destruct (header_rows (locate_headers df)) as [|a l] eqn:E; [reflexivity|].
  elim (H a). apply header_rows_recorded. rewrite E. now left.
Qed.

Lemma filter_none {A : Type} (p : A -> bool) (l : list A) :
  (forall x, In x l -> p x = false) -> filter p l = [].
Proof.
  induction l as [|a l IH]; [reflexivity|]. intros H. simpl.
  rewrite (H a) by now left. apply IH. intros x Hx. apply H. now right.
Qed.

(** The column of a field is that of a matching cell before which no cell
    matches. *)
Lemma get_col_first_label (df : RawGrid) (f : field)
    (before after : list scanned) (x : scanned) :
  scanned_cells df = before ++ x :: after ->
  is_label f x = true -> (forall y, In y before -> is_label f y = false) ->
  get_col f (locate_headers df) = Some (cell_col x).
Proof.
  intros E Hx Hb. rewrite locate_headers_fold, fold_get_col, E.
  replace (get_col f initial_columns) with (@None nat) by now destruct f.
  rewrite filter_app, (filter_none _ _ Hb). simpl. now rewrite Hx.
Qed.

(** ** C7 *)

(** C7 (amended).  The rows the scan records as header rows are those in
    which a cell is a [STATE] or a sector label, or matches the label of a
    fuel or total column that no cell scanned before it matches;
    [start_row] is 5 when no row is recorded and one more than the
    largest recorded row otherwise.  For a grid with ["COAL (MW)"] at row
    3, column 4 and ["LIGNITE"] at row 3, column 5, with no label in the
    rows above, no coal label to the left of column 4 and no lignite label
    to the left of column 5 in row 3, and, in the rows below among the
    first 15, no [STATE] or sector label and no label of a field that has
    no label in the rows up to row 3: Coal is mapped to column 4, Lignite
    to column 5 and the data start at row 4. *)
Theorem C7_header_locator (df : RawGrid) :
  (forall j, In j (header_rows (locate_headers df)) <-> recorded df j) /\
  ((forall j, ~ recorded df j) -> start_row (locate_headers df) = 5%nat) /\
  (forall j, recorded df j -> (forall i, recorded df i -> (i <= j)%nat) ->
     start_row (locate_headers df) = S j) /\
  (forall r3 : row,
     nth_error df 3 = Some r3 ->
     nth_error r3 4 = Some (Some "COAL (MW)") ->
     nth_error r3 5 = Some (Some "LIGNITE") ->
     (forall x, In x (scanned_cells df) -> (cell_row x < 3)%nat ->
        labelled x = false) ->
     (forall x, In x (scanned_cells df) -> cell_row x = 3%nat ->
        ((cell_col x < 4)%nat -> is_label FCoal x = false) /\
        ((cell_col x < 5)%nat -> is_label FLignite x = false)) ->
     (forall x, In x (scanned_cells df) -> (3 < cell_row x)%nat ->
        is_state_label x = false /\ is_sector_label x = false /\
        forall f, is_label f x = true ->
          exists y, In y (scanned_cells df) /\ (cell_row y <= 3)%nat /\
                    is_label f y = true) ->
     coal_col (locate_headers df) = Some 4%nat /\
     lignite_col (locate_headers df) = Some 5%nat /\
     start_row (locate_headers df) = 4%nat).
Proof.
  split; [apply header_rows_recorded|].
  split; [apply start_row_none_recorded|].
  split; [apply start_row_recorded|].
  intros r3 Hr3 H4 H5 Habove Hleft Hbelow.
  pose proof (scanned_cells_sorted df) as Hsorted.
  assert (Hx4 : In (3, 4, "COAL (MW)")%nat (scanned_cells df)).
  { apply in_scanned_cells. exists 3%nat, r3, 4%nat, "COAL (MW)".
    repeat split; auto. lia. }
  assert (Hx5 : In (3, 5, "LIGNITE")%nat (scanned_cells df)).
  { apply in_scanned_cells. exists 3%nat, r3, 5%nat, "LIGNITE".
    repeat split; auto. lia. }
  assert (Hnone : forall f y, In y (scanned_cells df) -> (cell_row y < 3)%nat ->
            is_label f y = false).
  { intros f y Hy Hlt. destruct (is_label f y) eqn:E; [|reflexivity].
    apply is_label_labelled in E. now rewrite (Habove y Hy Hlt) in E. }
  destruct (in_split _ _ Hx4) as (b4 & a4 & E4).
  destruct (in_split _ _ Hx5) as (b5 & a5 & E5).
  assert (Hb4 : forall y, In y b4 -> is_label FCoal y = false).
  { intros y Hy.
    assert (Hin : In y (scanned_cells df))
      by (rewrite E4; apply in_or_app; now left).
    rewrite E4 in Hsorted.
    destruct (StronglySorted_before _ _ _ _ _ Hsorted Hy) as [Hlt|[Heq Hlt]].
    - now apply Hnone.
    - now apply (Hleft y Hin Heq). }
  assert (Hb5 : forall y, In y b5 -> is_label FLignite y = false).
  { intros y Hy.
    assert (Hin : In y (scanned_cells df))
      by (rewrite E5; apply in_or_app; now left).
    rewrite E5 in Hsorted.
    destruct (StronglySorted_before _ _ _ _ _ Hsorted Hy) as [Hlt|[Heq Hlt]].
    - now apply Hnone.
    - now apply (Hleft y Hin Heq). }
  split; [|split].
  - exact (get_col_first_label df FCoal b4 a4 _ E4 eq_refl Hb4).
  - exact (get_col_first_label df FLignite b5 a5 _ E5 eq_refl Hb5).
  - apply start_row_recorded.
    + exists b4, (3, 4, "COAL (MW)")%nat, a4. split; [exact E4|].
      split; [reflexivity|]. right; right. now exists FCoal.
    + intros i (before & x & after & E & <- & Hrec).
      destruct (le_gt_dec (cell_row x) 3) as [Hle|Hgt]; [exact Hle|].
      assert (Hx : In x (scanned_cells df))
        by (rewrite E; apply in_or_app; right; now left).
      destruct (Hbelow x Hx Hgt) as (Hst & Hse & Hf).
      destruct Hrec as [H|[H|(f & Hl & Hb)]]; [congruence|congruence|].
      destruct (Hf f Hl) as (y & Hy & Hrow & Hly).
      rewrite E in Hy, Hsorted. apply in_app_or in Hy.
      destruct Hy as [Hy|[<-|Hy]].
      * rewrite (Hb y Hy) in Hly. discriminate.
      * lia.
      * destruct (StronglySorted_after _ _ _ _ _ Hsorted Hy) as [H|[H _]]; lia.
Qed.

Lemma C7_header_locator_witness :
  coal_col (locate_headers two_label_grid) = Some 4%nat /\
  lignite_col (locate_headers two_label_grid) = Some 5%nat /\
  start_row (locate_headers two_label_grid) = 4%nat.
Proof.
  apply (proj2 (proj2 (proj2 (C7_header_locator two_label_grid)))
           [None; None; None; None; Some "COAL (MW)"; Some "LIGNITE"; None]);
    try reflexivity.
  - intros x Hx. vm_compute in Hx.
    destruct Hx as [<-|[<-|[<-|[]]]]; vm_compute; lia.
  - intros x Hx. vm_compute in Hx.
    destruct Hx as [<-|[<-|[<-|[]]]]; vm_compute; intros H;
      try discriminate H; split; intros H'; try reflexivity; lia.
  - intros x Hx. vm_compute in Hx.
    destruct Hx as [<-|[<-|[<-|[]]]]; vm_compute; intros H; try lia.
    repeat split. intros f Hf. destruct f; discriminate Hf.
Defined.

(** In the first grids the cells of the claim are in place and no row
    above row 3 holds a label.  With a row below row 3 that holds a label
    of gas, a [STATE] label or a sector label, the columns are mapped as
    stated but the data start at row 5.  With a coal and a lignite label to
    the left in row 3, Coal and Lignite are mapped to columns 1 and 2.  In
    the last grid rows 0 and 1 both hold a coal label; only row 0 is
    recorded, and the data start at row 1 and not at one more than the
    last row that holds a label. *)
Lemma C7_header_rows_counterexample :
  Forall (fun label =>
            nth_error (label_below_grid label) 3 =
              Some [None; None; None; None; Some "COAL (MW)"; Some "LIGNITE";
                    None] /\
            (forall x, In x (scanned_cells (label_below_grid label)) ->
               (cell_row x < 3)%nat -> labelled x = false) /\
            coal_col (locate_headers (label_below_grid label)) = Some 4%nat /\
            lignite_col (locate_headers (label_below_grid label)) = Some 5%nat /\
            start_row (locate_headers (label_below_grid label)) = 5%nat)
         ["GAS (MW)"; "State"; "Sector"] /\
  (nth_error labels_to_the_left_grid 3 =
     Some [None; Some "COAL"; Some "LIGNITE"; None; Some "COAL (MW)";
           Some "LIGNITE"; None] /\
   (forall x, In x (scanned_cells labels_to_the_left_grid) ->
      (cell_row x < 3)%nat -> labelled x = false) /\
   coal_col (locate_headers labels_to_the_left_grid) = Some 1%nat /\
   lignite_col (locate_headers labels_to_the_left_grid) = Some 2%nat /\
   start_row (locate_headers labels_to_the_left_grid) = 4%nat) /\
  (In (1, 3, "COAL (MW)")%nat (scanned_cells repeated_coal_grid) /\
   labelled (1, 3, "COAL (MW)")%nat = true /\
   (forall x, In x (scanned_cells repeated_coal_grid) -> labelled x = true ->
      (cell_row x <= 1)%nat) /\
   header_rows (locate_headers repeated_coal_grid) = [0%nat] /\
   start_row (locate_headers repeated_coal_grid) = 1%nat).
Proof.
  split; [|split].
  - repeat constructor; try reflexivity;
      intros x Hx; vm_compute in Hx;
      destruct Hx as [<-|[<-|[<-|[<-|[]]]]]; vm_compute; lia.
  - split; [reflexivity|]. split; [|repeat split; reflexivity].
    intros x Hx. vm_compute in Hx.
    destruct Hx as [<-|[<-|[<-|[<-|[<-|[]]]]]]; vm_compute; lia.
  - split; [vm_compute; tauto|]. split; [reflexivity|].
    split; [|split; reflexivity].
    intros x Hx. vm_compute in Hx.
    destruct Hx as [<-|[<-|[<-|[]]]]; vm_compute; intros H;
      try discriminate H; lia.
Qed.

(** ** C6 *)

Lemma classify_rows_app cols date region (a b : list row) (st : Classifier) :
  classify_rows cols date region (a ++ b) st =
  (st' <- classify_rows cols date region a st ;;
   classify_rows cols date region b st').
Proof.
  revert st. induction a as [|r a IH]; intros st; simpl; [reflexivity|].
  destruct (classify_row cols date region r st); simpl; [apply IH|reflexivity].
Qed.

Section StateFirstSectorSecond.

Variables (cols : Columns) (date : option string) (region : string).
Hypothesis Hstate : state_col cols = 0%nat.
Hypothesis Hsector : sector_col cols = Some 1%nat.

(** A row that names a state and has no sector text. *)
Lemma classify_state_row (name : string) (t : row) (st : Classifier) :
  cell_text (Some name) = name ->
  no_sector_row name = Assign (Some name) ->
  (name =? "nan") = false ->
  classify_row cols date region (Some name :: None :: t) st =
  Ok (mkClassifier (Some name) (result_data st)).
Proof.
  intros Htext Hv Hnan. unfold classify_row, sector_col_or_default.
  rewrite Hstate, Hsector. cbn [bind iloc nth_error].
  rewrite Htext, Hnan. change (cell_text None) with "nan".
  cbn [andb orb String.eqb Ascii.eqb Bool.eqb]. now rewrite Hv.
Qed.

(** A sub-total row. *)
Lemma classify_total_row (text : string) (t : row) (st : Classifier) :
  cell_text (Some text) = text ->
  no_sector_row text = Continue ->
  (text =? "nan") = false ->
  classify_row cols date region (Some text :: None :: t) st = Ok st.
Proof.
  intros Htext Hv Hnan. unfold classify_row, sector_col_or_default.
  rewrite Hstate, Hsector. cbn [bind iloc nth_error].
  rewrite Htext, Hnan. change (cell_text None) with "nan".
  cbn [andb orb String.eqb Ascii.eqb Bool.eqb]. now rewrite Hv.
Qed.

(** A sector row under a state. *)
Lemma classify_sector_row (label sname name : string) (t : row) (st : Classifier) :
  cell_text (Some label) = label ->
  ((label =? "nan") || (label =? "") || (label =? "None")) = false ->
  PyStr.mem (PyStr.upper label) sector_labels = true ->
  dict_get sector_mapping (PyStr.upper label) = Ok sname ->
  truthy (current_state st) = Some name ->
  classify_row cols date region (Some "" :: Some label :: t) st =
  Ok (mkClassifier (current_state st)
        (result_data st
         ++ [record_of cols date region name sname (Some "" :: Some label :: t)])).
Proof.
  intros Htext Hno Hmem Hget Hcur. unfold classify_row, sector_col_or_default.
  rewrite Hstate, Hsector. cbn [bind iloc nth_error]. rewrite Htext, Hno.
  change (cell_text (Some "")) with "".
  cbn [andb orb String.eqb Ascii.eqb Bool.eqb].
  unfold sector_row. now rewrite Hcur, Hmem, build_record_eq, Hget.
Qed.

End StateFirstSectorSecond.

(** C6. With the state text in column 0 and the sector text in column 1,
    the rows ["Maharashtra", nan], ["", "STATE SECTOR", 100, ...],
    ["", "PVT SECTOR", 50, ...], ["Total of Maharashtra", nan] add exactly
    two records to the records so far, both of state Maharashtra (sectors
    State and Private), and leave Maharashtra as the carried state; the
    next row ["Gujarat", nan] adds no record and makes Gujarat the carried
    state, with which the rows that follow are classified. *)
Theorem C6_row_classifier_sequence (cols : Columns) (date : option string)
    (region : string) (t1 t2 t3 t4 t5 : row) (rows : list row) (st : Classifier) :
  state_col cols = 0%nat ->
  sector_col cols = Some 1%nat ->
  let r1 := Some "Maharashtra" :: None :: t1 in
  let r2 := Some "" :: Some "STATE SECTOR" :: Some "100" :: t2 in
  let r3 := Some "" :: Some "PVT SECTOR" :: Some "50" :: t3 in
  let r4 := Some "Total of Maharashtra" :: None :: t4 in
  let r5 := Some "Gujarat" :: None :: t5 in
  let rec2 := record_of cols date region "Maharashtra" "State" r2 in
  let rec3 := record_of cols date region "Maharashtra" "Private" r3 in
  classify_rows cols date region [r1; r2; r3; r4] st =
    Ok (mkClassifier (Some "Maharashtra") (result_data st ++ [rec2; rec3])) /\
  classify_rows cols date region [r1; r2; r3; r4; r5] st =
    Ok (mkClassifier (Some "Gujarat") (result_data st ++ [rec2; rec3])) /\
  classify_rows cols date region ([r1; r2; r3; r4; r5] ++ rows) st =
    classify_rows cols date region rows
      (mkClassifier (Some "Gujarat") (result_data st ++ [rec2; rec3])) /\
  State rec2 = "Maharashtra" /\ Sector rec2 = "State" /\
  State rec3 = "Maharashtra" /\ Sector rec3 = "Private".
Proof.
  intros Hstate Hsector r1 r2 r3 r4 r5 rec2 rec3.
  assert (H4 : classify_rows cols date region [r1; r2; r3; r4] st =
    Ok (mkClassifier (Some "Maharashtra") (result_data st ++ [rec2; rec3]))).
  { unfold r1, r2, r3, r4. simpl classify_rows.
    rewrite (classify_state_row cols date region Hstate Hsector "Maharashtra")
      by reflexivity.
    simpl bind.
    rewrite (classify_sector_row cols date region Hstate Hsector
               "STATE SECTOR" "State" "Maharashtra") by reflexivity.
    simpl bind.
    rewrite (classify_sector_row cols date region Hstate Hsector
               "PVT SECTOR" "Private" "Maharashtra") by reflexivity.
    simpl bind.
    rewrite (classify_total_row cols date region Hstate Hsector
               "Total of Maharashtra") by reflexivity.
    simpl. now rewrite <- app_assoc. }
  assert (H5 : classify_rows cols date region [r1; r2; r3; r4; r5] st =
    Ok (mkClassifier (Some "Gujarat") (result_data st ++ [rec2; rec3]))).
  { change [r1; r2; r3; r4; r5] with ([r1; r2; r3; r4] ++ [r5]).
    rewrite classify_rows_app, H4. unfold r5. simpl.
    now rewrite (classify_state_row cols date region Hstate Hsector "Gujarat")
      by reflexivity. }
  repeat split; auto.
  now rewrite classify_rows_app, H5.
Qed.

(** ** Invariants of the loops over regions and months *)

Section Program.

Context {aggregation : Aggregation}.

Lemma download_attempts_saved (w : World) (url : string) (attempt remaining : nat)
    (content : option RawGrid) :
  fst (download_attempts w url attempt remaining) = Some content ->
  exists k, get w url k = Saved content.
Proof.
  revert attempt. induction remaining as [|n IH]; intros attempt; simpl;
    [discriminate|].
  destruct (get w url attempt) as [c| |] eqn:G; simpl.
  - intros [= ->]. eauto.
  - destruct (download_attempts w url (S attempt) n) as [r log] eqn:D. simpl.
    intros ->. apply (IH (S attempt)). now rewrite D.
  - discriminate.
Qed.

Lemma concat_nonempty_app (a df : list CapacityRecord) :
  concat_nonempty a df = a ++ df.
Proof. destruct df; simpl; [now rewrite app_nil_r|reflexivity]. Qed.

Section RegionLoop.

Variables (w : World) (P : CapacityRecord -> Prop).

Lemma fetch_region_Forall (m : Month) (target : string * string * string) :
  (forall content k,
     get w (fst (fst target)) k = Saved content ->
     Forall P (region_frame content (snd (fst target)) (snd target))) ->
  Forall P (monthly_data m) ->
  Forall P (monthly_data (fetch_region w m target)).
Proof.
  destruct target as [[url filename] region]. simpl. intros Hframe Hm.
  unfold fetch_region, download_excel_file.
  destruct (download_attempts w url 0 3) as [[content|] log] eqn:D; simpl;
    [|exact Hm].
  rewrite concat_nonempty_app. apply Forall_app. split; [exact Hm|].
  destruct (download_attempts_saved w url 0 3 content) as [k Hk];
    [now rewrite D|].
  eauto.
Qed.

Lemma fold_fetch_region_Forall (urls : list (string * string * string)) (m : Month) :
  (forall target content k,
     In target urls -> get w (fst (fst target)) k = Saved content ->
     Forall P (region_frame content (snd (fst target)) (snd target))) ->
  Forall P (monthly_data m) ->
  Forall P (monthly_data (fold_left (fetch_region w) urls m)).
Proof.
  revert m. induction urls as [|target urls IH]; intros m Hframe Hm; simpl;
    [exact Hm|].
  apply IH.
  - intros t content k Ht. apply Hframe. now right.
  - apply fetch_region_Forall; [|exact Hm].
    intros content k. apply Hframe. now left.
Qed.

Lemma fetch_regions_Forall (urls : list (string * string * string)) :
  (forall target content k,
     In target urls -> get w (fst (fst target)) k = Saved content ->
     Forall P (region_frame content (snd (fst target)) (snd target))) ->
  Forall P (monthly_data (fetch_regions w urls)).
Proof. intros H. apply fold_fetch_region_Forall; [exact H|constructor]. Qed.

Lemma roll_up_Forall (md : list CapacityRecord) (n : nat) :
  Forall P md ->
  (forall date, Forall P (all_india_rows date md)) ->
  Forall P (roll_up md n).
Proof.
  intros Hmd Hrows. unfold roll_up. destruct md as [|first md']; [constructor|].
  destruct (3 <=? n)%nat; [|exact Hmd].
  apply Forall_app. auto.
Qed.

(** What a month returns: nothing, or the rolled-up frames of the regions. *)
Lemma process_month_data_cases (year month : string) (t : list CapacityRecord)
    (log : list event) :
  process_month_data w year month = (Ok t, log) ->
  t = [] \/
  exists urls, generate_urls_for_month_year year month = Ok urls /\
    t = roll_up (monthly_data (fetch_regions w urls))
                (successful_downloads (fetch_regions w urls)).
Proof.
  unfold process_month_data.
  destruct (check_data_availability w year month) as [[[|]|e] log0].
  - destruct (generate_urls_for_month_year year month) as [urls|e];
      [|discriminate].
    intros [= <- _]. right. now exists urls.
  - intros [= <- _]. now left.
  - discriminate.
Qed.

Lemma process_month_Forall (acc : Master) (ym : string * string) :
  (forall year month t log,
     process_month_data w year month = (Ok t, log) -> Forall P t) ->
  Forall P (all_data acc) -> Forall P (all_data (process_month w acc ym)).
Proof.
  intros Hmonth Hacc. destruct ym as [year month]. unfold process_month.
  destruct (process_month_data w year month) as [[t|e] log] eqn:E; simpl;
    [|exact Hacc].
  rewrite concat_nonempty_app. apply Forall_app. eauto.
Qed.

Lemma process_months_Forall (date_range : list (string * string)) :
  (forall year month t log,
     process_month_data w year month = (Ok t, log) -> Forall P t) ->
  Forall P (all_data (process_months w date_range)).
Proof.
  intros Hmonth. unfold process_months.
  assert (H : forall acc, Forall P (all_data acc) ->
            Forall P (all_data (fold_left (process_month w) date_range acc))).
  { induction date_range as [|ym l IH]; intros acc Hacc; simpl; [exact Hacc|].
    apply IH. now apply process_month_Forall. }
  apply H. constructor.
Qed.

Lemma main_Forall :
  (forall year month t log,
     process_month_data w year month = (Ok t, log) -> Forall P t) ->
  Forall P (all_data (main w)).
Proof.
  intros Hmonth. unfold main.
  destruct (generate_date_range _ _ _ _) as [[date_range|e]|];
    try constructor.
  now apply process_months_Forall.
Qed.

End RegionLoop.

(** The targets of a month are the five regions. *)
Lemma generate_urls_regions (year month : string)
    (urls : list (string * string * string)) (target : string * string * string) :
  generate_urls_for_month_year year month = Ok urls ->
  In target urls -> In (snd target) regions.
Proof.
  unfold generate_urls_for_month_year.
  destruct (dict_get month_num month) as [mm|e]; cbn [bind]; [|discriminate].
  intros [= <-] Hin.
  destruct Hin as [<-|[<-|[<-|[<-|[<-|[]]]]]]; simpl; tauto.
Qed.

(** A month keeps a property that the frames of the regions and the
    roll-up lines have. *)
Lemma process_month_data_Forall (w : World) (P : CapacityRecord -> Prop)
    (year month : string) (t : list CapacityRecord) (log : list event) :
  (forall content k url filename region,
     In region regions -> get w url k = Saved content ->
     Forall P (region_frame content filename region)) ->
  (forall date md, Forall P md -> Forall P (all_india_rows date md)) ->
  process_month_data w year month = (Ok t, log) -> Forall P t.
Proof.
  intros Hframe Hrows Hm. apply process_month_data_cases in Hm.
  destruct Hm as [->|(urls & Hurls & ->)]; [constructor|].
  assert (Hmd : Forall P (monthly_data (fetch_regions w urls))).
  { apply fetch_regions_Forall. intros [[url filename] region] content k Hin Hk.
    simpl in *. eapply Hframe; eauto.
    apply (generate_urls_regions _ _ _ _ Hurls Hin). }
  apply roll_up_Forall; auto.
Qed.

(** ** C4 *)

Lemma drop_regional_state_ne_region (l : list CapacityRecord) :
  Forall (fun rec => State rec <> Region rec) (drop_regional l).
Proof.
  destruct l as [|a l]; [constructor|]. unfold drop_regional.
  apply Forall_forall. intros rec Hin. apply filter_In in Hin.
  destruct Hin as [_ Hne]. apply negb_true_iff in Hne.
  now apply String.eqb_neq in Hne.
Qed.

Lemma region_frame_state_ne_region (content : option RawGrid)
    (filename region : string) :
  Forall (fun rec => State rec <> Region rec)
         (region_frame content filename region).
Proof.
  unfold region_frame, process_excel_file.
  destruct content as [df|]; [|constructor].
  destruct (classify_rows _ _ _ _ _); [|constructor].
  apply drop_regional_state_ne_region.
Qed.

(** The roll-up lines are built by [all_india_row]. *)
Lemma all_india_rows_shape (date : option string) (md : list CapacityRecord)
    (rec : CapacityRecord) :
  In rec (all_india_rows date md) ->
  exists sector line, rec = all_india_row date sector line.
Proof.
  unfold all_india_rows. intros Hin. apply in_app_or in Hin.
  destruct Hin as [Hin|[<-|[]]]; [|eauto].
  apply in_flat_map in Hin. destruct Hin as (sector & _ & Hin).
  destruct (loc (all_india_totals md) sector) as [line|]; [|easy].
  destruct Hin as [<-|[]]. eauto.
Qed.

Lemma all_india_rows_state_ne_region (date : option string)
    (md : list CapacityRecord) :
  Forall (fun rec => State rec <> Region rec) (all_india_rows date md).
Proof.
  apply Forall_forall. intros rec Hin.
  apply all_india_rows_shape in Hin. destruct Hin as (sector & line & ->).
  discriminate.
Qed.

(** C4. In the table of a month, in the master table of any range of
    months, and so in the table [main] writes, no record has its State
    equal to its Region: this holds for the records of the regions, from
    which such rows are filtered out, and for the roll-up lines. *)
Theorem C4_state_differs_from_region (w : World) :
  (forall year month t log rec,
     process_month_data w year month = (Ok t, log) ->
     In rec t -> State rec <> Region rec) /\
  (forall date_range rec,
     In rec (all_data (process_months w date_range)) ->
     State rec <> Region rec) /\
  (forall rec, In rec (all_data (main w)) -> State rec <> Region rec).
Proof.
  assert (Hmonth : forall year month t log,
            process_month_data w year month = (Ok t, log) ->
            Forall (fun rec => State rec <> Region rec) t).
  { intros year month t log. apply process_month_data_Forall.
    - intros. apply region_frame_state_ne_region.
    - intros. apply all_india_rows_state_ne_region. }
  repeat split.
  - intros year month t log rec Hm. revert rec. apply Forall_forall. eauto.
  - intros date_range. apply Forall_forall. now apply process_months_Forall.
  - apply Forall_forall. now apply main_Forall.
Qed.


(** ** The range of months *)

Lemma py_index_months_range (i : Z) (name : string) :
  py_index months i = Ok name -> (-12 <= i < 12)%Z.
Proof.
  unfold py_index, iloc. change (Z.of_nat (List.length months)) with 12%Z.
  destruct (0 <=? i)%Z eqn:E0.
  - apply Z.leb_le in E0.
    destruct (nth_error months (Z.to_nat i)) eqn:En; [|discriminate].
    intros _.
    assert (H : Z.to_nat i < List.length months)
      by (apply nth_error_Some; congruence).
    change (List.length months) with 12 in H. lia.
  - apply Z.leb_gt in E0. destruct (- (12) <=? i)%Z eqn:E1; [|discriminate].
    apply Z.leb_le in E1. intros _. lia.
Qed.

(** The loop of [generate_date_range] ends within its fuel. *)
Lemma date_range_loop_total (fuel : nat) (cy cm ey em : Z)
    (acc : list (string * string)) :
  Z.to_nat ((ey - cy) * 24 + 36 - cm) < fuel ->
  date_range_loop fuel cy cm ey em acc <> None.
Proof.
  revert cy cm acc. induction fuel as [|fuel IH]; intros cy cm acc Hfuel; [lia|].
  cbn [date_range_loop].
  destruct ((cy <? ey) || ((cy =? ey) && (cm <=? em)))%Z eqn:Econd; [|discriminate].
  destruct (py_index months (cm - 1)) as [name|e] eqn:Eidx; [|discriminate].
  apply py_index_months_range in Eidx.
  assert (Hcy : (cy <= ey)%Z).
  { apply orb_true_iff in Econd. destruct Econd as [H|H].
    - apply Z.ltb_lt in H. lia.
    - apply andb_true_iff in H. destruct H as [H _]. apply Z.eqb_eq in H. lia. }
  destruct (12 <? cm + 1)%Z eqn:E12; apply IH.
  - apply Z.ltb_lt in E12. lia.
  - apply Z.ltb_ge in E12. lia.
Qed.

Lemma generate_date_range_total (sy sm ey em : Z) :
  generate_date_range sy sm ey em <> None.
Proof.
  unfold generate_date_range, date_range_fuel. apply date_range_loop_total. lia.
Qed.

(** The range of [main]: the 91 months from January 2018 to July 2025. *)
Lemma main_date_range_eq :
  generate_date_range START_YEAR START_MONTH END_YEAR END_MONTH
  = Some (Ok main_date_range) /\
  List.length main_date_range = 91 /\
  hd_error main_date_range = Some ("2018", "JAN") /\
  last main_date_range ("", "") = ("2025", "JUL").
Proof. repeat split; vm_compute; reflexivity. Qed.

Lemma main_eq (w : World) : main w = process_months w main_date_range.
Proof.
  unfold main. now rewrite (proj1 main_date_range_eq).
Qed.

(** ** C9 *)

Lemma fold_process_month_app (w : World) (a b : list (string * string))
    (acc : Master) :
  fold_left (process_month w) (a ++ b) acc =
  fold_left (process_month w) b (fold_left (process_month w) a acc).
Proof. apply fold_left_app. Qed.

(** C9. When the probe of a month of the range reports failure, the month
    returns no row and its only request is the probe, so no region file is
    fetched; the orchestrator adds nothing to the master table and goes on
    with the months that follow. *)
Theorem C9_unavailable_month_skipped (w : World) (year month : string)
    (before after : list (string * string)) (probe : list event) :
  check_data_availability w year month = (Ok false, probe) ->
  process_month_data w year month = (Ok [], probe) /\
  (exists url, probe = [Head url]) /\
  process_months w (before ++ (year, month) :: after) =
    fold_left (process_month w) after
      (mkMaster (all_data (process_months w before))
                (master_log (process_months w before) ++ probe)) /\
  (generate_date_range START_YEAR START_MONTH END_YEAR END_MONTH
     = Some (Ok (before ++ (year, month) :: after)) ->
   main w =
     fold_left (process_month w) after
       (mkMaster (all_data (process_months w before))
                 (master_log (process_months w before) ++ probe))).
Proof.
  intros Hprobe.
  assert (Hm : process_month_data w year month = (Ok [], probe)).
  { unfold process_month_data. now rewrite Hprobe. }
  assert (Hrun : process_months w (before ++ (year, month) :: after) =
    fold_left (process_month w) after
      (mkMaster (all_data (process_months w before))
                (master_log (process_months w before) ++ probe))).
  { unfold process_months. rewrite fold_process_month_app. simpl fold_left.
    f_equal. unfold process_month at 1. now rewrite Hm. }
  split; [exact Hm|]. split; [|split; [exact Hrun|]].
  - unfold check_data_availability in Hprobe.
    destruct (dict_get month_num month); [|discriminate].
    injection Hprobe as _ <-. eauto.
  - intros Hrange. unfold main. now rewrite Hrange.
Qed.


(** ** C1 *)

Lemma in_insert_key (s k : string) (keys : list string) :
  In s (insert_key k keys) <-> s = k \/ In s keys.
Proof.
  induction keys as [|k' keys IH]; simpl.
  - split; [intros [H|[]]; auto|intros [H|[]]; auto].
  - destruct (k ?= k')%string eqn:E; simpl.
    + apply String.compare_eq_iff in E. subst k'. split; [auto|].
      intros [->|H]; auto.
    + split; intros [H|H]; auto.
    + rewrite IH. split; intros [H|[H|H]]; auto.
Qed.

Lemma in_group_keys (s : string) (md : list CapacityRecord) :
  In s (group_keys md) <-> exists r, In r md /\ Sector r = s.
Proof.
  unfold group_keys.
  assert (H : forall keys,
            In s (fold_left (fun keys r => insert_key (Sector r) keys) md keys)
            <-> In s keys \/ exists r, In r md /\ Sector r = s).
  { induction md as [|a md IH]; intros keys; simpl.
    - split; [auto|]. now intros [H|(r & [] & _)].
    - rewrite IH, in_insert_key. split.
      + intros [[->|H]|(r & Hr & Hs)]; eauto.
      + intros [H|(r & [<-|Hr] & Hs)]; eauto. }
  rewrite H. simpl. split; [now intros [[]|H']|auto].
Qed.

Lemma loc_map_keys (f : string -> totals) (keys : list string) (s : string) :
  loc (map (fun k => (k, f k)) keys) s =
  if PyStr.mem s keys then Some (f s) else None.
Proof.
  unfold PyStr.mem. induction keys as [|k keys IH]; simpl; [reflexivity|].
  destruct (s =? k)%string eqn:E; simpl; [|exact IH].
  apply String.eqb_eq in E. now subst k.
Qed.

Lemma mem_group_keys (s : string) (md : list CapacityRecord) :
  PyStr.mem s (group_keys md) = existsb (fun r => Sector r =? s) md.
Proof.
  apply eq_true_iff_eq. unfold PyStr.mem. rewrite !existsb_exists. split.
  - intros (k & Hk & E). apply String.eqb_eq in E. subst k.
    apply in_group_keys in Hk. destruct Hk as (r & Hr & Hs).
    exists r. split; [exact Hr|]. now apply String.eqb_eq.
  - intros (r & Hr & E). apply String.eqb_eq in E.
    exists s. split; [|apply String.eqb_refl].
    apply in_group_keys. eauto.
Qed.

(** The sectors of the roll-up lines: those of the three that occur, in the
    order State, Private, Central, and then Total. *)
Lemma all_india_rows_sectors (date : option string) (md : list CapacityRecord) :
  map Sector (all_india_rows date md) = sectors_present md ++ ["Total"].
Proof.
  unfold all_india_rows, sectors_present, all_india_totals.
  rewrite map_app. f_equal. simpl flat_map. simpl filter.
  rewrite !loc_map_keys, !mem_group_keys.
  destruct (existsb (fun r => Sector r =? "State") md),
           (existsb (fun r => Sector r =? "Private") md),
           (existsb (fun r => Sector r =? "Central") md); reflexivity.
Qed.

Lemma all_india_rows_all_india (date : option string) (md : list CapacityRecord) :
  Forall (fun rec => Region rec = "All India" /\ State rec = "ALL INDIA")
         (all_india_rows date md).
Proof.
  apply Forall_forall. intros rec Hin.
  apply all_india_rows_shape in Hin. now destruct Hin as (sector & line & ->).
Qed.

Lemma has_all_india_app (a b : list CapacityRecord) :
  has_all_india (a ++ b) = has_all_india a || has_all_india b.
Proof. apply existsb_app. Qed.

Lemma has_all_india_false (md : list CapacityRecord) :
  Forall (fun rec => Region rec <> "All India") md -> has_all_india md = false.
Proof.
  induction 1 as [|rec md Hrec _ IH]; [reflexivity|]. simpl.
  rewrite IH. unfold is_all_india. apply String.eqb_neq in Hrec. now rewrite Hrec.
Qed.

Lemma has_all_india_rows (date : option string) (md : list CapacityRecord) :
  has_all_india (all_india_rows date md) = true.
Proof.
  unfold all_india_rows. rewrite has_all_india_app.
  apply orb_true_iff. now right.
Qed.

(** The counter counts the downloads that succeeded. *)
Lemma fold_fetch_region_downloads (w : World)
    (urls : list (string * string * string)) (m : Month) :
  successful_downloads (fold_left (fetch_region w) urls m) =
  (successful_downloads m + List.length (filter (downloaded w) urls))%nat.
Proof.
  revert m. induction urls as [|[[url filename] region] urls IH]; intros m;
    simpl; [lia|].
  rewrite IH. unfold fetch_region, downloaded. simpl.
  destruct (download_excel_file w url) as [[content|] log]; simpl; lia.
Qed.

(** The records of a region carry its name. *)
Lemma region_frame_region (content : option RawGrid) (filename region : string) :
  Forall (fun rec => Region rec = region) (region_frame content filename region).
Proof.
  apply Forall_forall. intros rec Hin. unfold region_frame in Hin.
  destruct content as [df|]; [|easy].
  apply process_excel_file_records in Hin.
  destruct Hin as (r & name & sector & _ & _ & Hb).
  apply build_record_inv in Hb. now destruct Hb as [sname ->].
Qed.

Lemma regions_not_all_india (region : string) :
  In region regions -> region <> "All India".
Proof. intros [<-|[<-|[<-|[<-|[<-|[]]]]]]; discriminate. Qed.

Lemma fetch_regions_not_all_india (w : World) (year month : string)
    (urls : list (string * string * string)) :
  generate_urls_for_month_year year month = Ok urls ->
  Forall (fun rec => Region rec <> "All India")
         (monthly_data (fetch_regions w urls)).
Proof.
  intros Hurls. apply fetch_regions_Forall.
  intros [[url filename] region] content k Hin _. simpl.
  pose proof (generate_urls_regions _ _ _ _ Hurls Hin) as Hr. simpl in Hr.
  eapply Forall_impl; [|apply region_frame_region].
  intros rec ->. now apply regions_not_all_india.
Qed.

Lemma has_all_india_roll_up (md : list CapacityRecord) (n : nat) :
  Forall (fun rec => Region rec <> "All India") md ->
  has_all_india (roll_up md n) = true <-> (3 <= n)%nat /\ md <> [].
Proof.
  intros Hmd. unfold roll_up. destruct md as [|first md'].
  - simpl. split; [discriminate|]. now intros [_ H].
  - destruct (3 <=? n)%nat eqn:E.
    + apply Nat.leb_le in E. rewrite has_all_india_app, has_all_india_rows.
      rewrite orb_true_r. split; [|reflexivity]. intros _. now split.
    + apply Nat.leb_gt in E. rewrite (has_all_india_false _ Hmd).
      split; [discriminate|]. intros [H _]. lia.
Qed.

(** The gate of the roll-up.  After a successful probe, the table of a
    month is the concatenated frames of the regions followed, under the
    gate, by the roll-up lines.  Roll-up lines are in it if and only if at
    least 3 of the downloads succeeded and the concatenated frame is not
    empty; the counter is the number of regions whose download succeeded,
    whether or not records were extracted from the file.  When they are
    emitted, the lines come after the records of the regions: one line for
    each of State, Private, Central that occurs among the records, then
    one Total line, all with Region "All India" and State "ALL INDIA". *)
Lemma all_india_gate (w : World) (year month : string)
    (urls : list (string * string * string)) (probe : list event) :
  check_data_availability w year month = (Ok true, probe) ->
  generate_urls_for_month_year year month = Ok urls ->
  let md := monthly_data (fetch_regions w urls) in
  let n := successful_downloads (fetch_regions w urls) in
  fst (process_month_data w year month) = Ok (roll_up md n) /\
  n = List.length (filter (downloaded w) urls) /\
  (has_all_india (roll_up md n) = true <-> (3 <= n)%nat /\ md <> []) /\
  ((n < 3)%nat -> roll_up md n = md /\ has_all_india md = false) /\
  ((3 <= n)%nat -> md <> [] ->
   exists date,
     roll_up md n = md ++ all_india_rows date md /\
     has_all_india md = false /\
     map Sector (all_india_rows date md) = sectors_present md ++ ["Total"] /\
     Forall (fun rec => Region rec = "All India" /\ State rec = "ALL INDIA")
            (all_india_rows date md)).
Proof.
  intros Hprobe Hurls md n.
  pose proof (fetch_regions_not_all_india w year month urls Hurls) as Hmd.
  fold md in Hmd.
  split; [|split; [|split; [|split]]].
  - unfold process_month_data. now rewrite Hprobe, Hurls.
  - unfold n, fetch_regions. now rewrite fold_fetch_region_downloads.
  - now apply has_all_india_roll_up.
  - intros Hn. split; [|now apply has_all_india_false].
    unfold roll_up. destruct md; [reflexivity|].
    apply Nat.leb_gt in Hn. now rewrite Hn.
  - intros Hn Hne. destruct md as [|first md'] eqn:E; [easy|].
    exists (Date first). rewrite <- E in *. split; [|split; [|split]].
    + rewrite E. unfold roll_up. apply Nat.leb_le in Hn. now rewrite Hn.
    + now apply has_all_india_false.
    + apply all_india_rows_sectors.
    + apply all_india_rows_all_india.
Qed.

(** ** The numbers of the roll-up lines *)

Lemma loc_all_india_totals (md : list CapacityRecord) (s : string) (line : totals) :
  loc (all_india_totals md) s = Some line ->
  line = fun c => round2 (group_sum (map (value c) (group s md))).
Proof.
  unfold all_india_totals.
  rewrite (loc_map_keys
             (fun k c => round2 (group_sum (map (value c) (group k md))))).
  destruct (PyStr.mem s (group_keys md)); [|discriminate]. now intros [= <-].
Qed.

Lemma group_incl (s : string) (md : list CapacityRecord) : incl (group s md) md.
Proof. intros r Hr. now apply filter_In in Hr. Qed.

Lemma value_all_india_row (date : option string) (s : string) (line : totals)
    (c : column) :
  value c (all_india_row date s line) = line c.
Proof. now destruct c. Qed.

(** A line of a sector holds, in each column, the rounded sum of that
    column over the records of the sector; the Total line holds the sum of
    these rounded sums over the sectors that occur. *)
Lemma all_india_rows_values (date : option string) (md : list CapacityRecord)
    (rec : CapacityRecord) :
  In rec (all_india_rows date md) ->
  (In (Sector rec) ["State"; "Private"; "Central"] /\
   forall c, value c rec =
             round2 (group_sum (map (value c) (group (Sector rec) md))))
  \/ (Sector rec = "Total" /\
      forall c, value c rec =
                frame_sum (map (fun s => round2 (group_sum
                                            (map (value c) (group s md))))
                               (group_keys md))).
Proof.
  unfold all_india_rows. intros Hin. apply in_app_or in Hin.
  destruct Hin as [Hin|[<-|[]]].
  - left. apply in_flat_map in Hin. destruct Hin as (s & Hs & Hin).
    destruct (loc (all_india_totals md) s) as [line|] eqn:E; [|easy].
    destruct Hin as [<-|[]]. apply loc_all_india_totals in E. subst line.
    split; [exact Hs|]. intros c. now rewrite value_all_india_row.
  - right. split; [reflexivity|]. intros c. rewrite value_all_india_row.
    unfold overall_totals, all_india_totals. now rewrite map_map.
Qed.

(** ** C2 *)

Lemma process_excel_file_thermal (df : RawGrid) (date : option string)
    (region : string) (rec : CapacityRecord) :
  In rec (process_excel_file (Some df) date region) -> thermal_exact rec.
Proof.
  intros Hin. apply process_excel_file_records in Hin.
  destruct Hin as (r & name & sector & _ & _ & Hb).
  apply build_record_inv in Hb. now destruct Hb as [sname ->].
Qed.

Lemma region_frame_thermal (content : option RawGrid) (filename region : string) :
  Forall thermal_exact (region_frame content filename region).
Proof.
  apply Forall_forall. intros rec Hin. unfold region_frame in Hin.
  destruct content as [df|]; [|easy].
  now apply process_excel_file_thermal in Hin.
Qed.

(** The records of the regions satisfy the thermal identity. *)
Lemma fetch_regions_thermal_exact (w : World)
    (urls : list (string * string * string)) :
  Forall thermal_exact (monthly_data (fetch_regions w urls)).
Proof.
  apply fetch_regions_Forall. intros target content k _ _.
  apply region_frame_thermal.
Qed.

(** The roll-up lines of a month are lines of [all_india_rows] over the
    records of the regions. *)
Lemma month_all_india_rows (w : World) (year month : string)
    (t : list CapacityRecord) (log : list event) (rec : CapacityRecord) :
  process_month_data w year month = (Ok t, log) -> In rec t ->
  Region rec = "All India" ->
  exists urls date,
    generate_urls_for_month_year year month = Ok urls /\
    In rec (all_india_rows date (monthly_data (fetch_regions w urls))).
Proof.
  intros Hm Hin Hreg. apply process_month_data_cases in Hm.
  destruct Hm as [->|(urls & Hurls & ->)]; [easy|].
  pose proof (fetch_regions_not_all_india w year month urls Hurls) as Hmd.
  rewrite Forall_forall in Hmd.
  exists urls. unfold roll_up in Hin.
  destruct (monthly_data (fetch_regions w urls)) as [|first md'] eqn:E; [easy|].
  exists (Date first). split; [exact Hurls|].
  destruct (3 <=? _)%nat; [|now elim (Hmd rec Hin)].
  apply in_app_or in Hin. destruct Hin as [Hin|Hin]; [|exact Hin].
  now elim (Hmd rec Hin).
Qed.

(** C2 (amended).  A record built from a data row takes Coal, Lignite, Gas
    and Diesel from the cells of that row under the located columns, and
    its Thermal Total is the float [Coal + Lignite + Gas + Diesel],
    computed from these four numbers and from no other cell; this holds
    for every record of a month that is not a roll-up line.  A roll-up
    line is not recomputed from its own fuels: each of its nine numbers,
    the Thermal Total among them, is the sum of that column over the
    records of its sector rounded to 2 decimals, and on the Total line the
    sum of these rounded sums over the sectors. *)
Theorem C2_thermal_total_recomputed :
  (forall df date region rec,
     In rec (process_excel_file (Some df) date region) ->
     exists r, In r df /\
       Coal rec = cell_value (coal_col (locate_headers df)) r /\
       Lignite rec = cell_value (lignite_col (locate_headers df)) r /\
       Gas rec = cell_value (gas_col (locate_headers df)) r /\
       Diesel rec = cell_value (diesel_col (locate_headers df)) r /\
       ThermalTotal rec = add4 (Coal rec) (Lignite rec) (Gas rec) (Diesel rec)) /\
  (forall w year month t log rec,
     process_month_data w year month = (Ok t, log) -> In rec t ->
     Region rec <> "All India" ->
     ThermalTotal rec = add4 (Coal rec) (Lignite rec) (Gas rec) (Diesel rec)) /\
  (forall w year month t log rec,
     process_month_data w year month = (Ok t, log) -> In rec t ->
     Region rec = "All India" ->
     exists urls,
       generate_urls_for_month_year year month = Ok urls /\
       let md := monthly_data (fetch_regions w urls) in
       Forall thermal_exact md /\
       (Sector rec <> "Total" ->
        forall c, value c rec =
                  round2 (group_sum (map (value c) (group (Sector rec) md)))) /\
       (Sector rec = "Total" ->
        forall c, value c rec =
                  frame_sum (map (fun s => round2 (group_sum
                                              (map (value c) (group s md))))
                                 (group_keys md)))).
Proof.
  split; [|split].
  - intros df date region rec Hin.
    apply process_excel_file_records in Hin.
    destruct Hin as (r & name & sector & Hr & _ & Hb).
    apply build_record_inv in Hb. destruct Hb as [sname ->].
    exists r. now repeat split.
  - intros w year month t log rec Hm Hin.
    assert (Ht : Forall (fun rec => Region rec <> "All India" ->
                   thermal_exact rec) t).
    { revert Hm. apply process_month_data_Forall.
      - intros content k url filename region _ _.
        eapply Forall_impl; [|apply region_frame_thermal]. auto.
      - intros date md _.
        eapply Forall_impl; [|apply all_india_rows_all_india].
        intros r [Hreg _] Hne. now elim Hne. }
    rewrite Forall_forall in Ht. now apply Ht.
  - intros w year month t log rec Hm Hin Hreg.
    destruct (month_all_india_rows w year month t log rec Hm Hin Hreg)
      as (urls & date & Hurls & Hrow).
    exists urls. split; [exact Hurls|]. cbn zeta.
    split; [apply fetch_regions_thermal_exact|].
    apply all_india_rows_values in Hrow.
    destruct Hrow as [[Hs Hv]|[Hs Hv]]; split.
    + intros _. exact Hv.
    + intros E. rewrite E in Hs.
      destruct Hs as [H|[H|[H|[]]]]; discriminate H.
    + intros Hne. now elim Hne.
    + intros _. exact Hv.
Qed.

(** ** C5 *)

Lemma holds_no_negative_convert (v : cell) :
  holds_no_negative v = true -> Binary64.nonneg (safe_numeric_convert v) = true.
Proof.
  destruct v as [s|]; [|reflexivity].
  unfold holds_no_negative, safe_numeric_convert.
  destruct (PyStr.mem (PyStr.strip s) ["nan"; ""; "None"]); [reflexivity|].
  now destruct (PyFloat.py_float (PyStr.strip s)).
Qed.

Lemma cell_value_nonneg (col : option nat) (r : row) :
  (forall v, In v r -> holds_no_negative v = true) ->
  Binary64.nonneg (cell_value col r) = true.
Proof.
  intros H. unfold cell_value. destruct col as [c|]; [|reflexivity].
  destruct (nth_error r c) as [v|] eqn:E; [|reflexivity].
  apply holds_no_negative_convert, H. eapply nth_error_In; eauto.
Qed.

Lemma record_of_nonneg cols date region name sname (r : row) :
  (forall v, In v r -> holds_no_negative v = true) ->
  nonneg_record (record_of cols date region name sname r).
Proof.
  intros H.
  pose proof (fun col => cell_value_nonneg col r H) as Hc.
  assert (Ht : Binary64.nonneg
                 (add4 (cell_value (coal_col cols) r)
                       (cell_value (lignite_col cols) r)
                       (cell_value (gas_col cols) r)
                       (cell_value (diesel_col cols) r)) = true)
    by (apply add4_nonneg; apply Hc).
  intros c. destruct c; unfold record_of; cbn [value Coal Lignite Gas Diesel
    ThermalTotal Nuclear Hydro RES Total]; try apply Hc; try exact Ht.
  unfold grand_or_sum. destruct (Binary64.is_zero _); [|apply Hc].
  apply add4_nonneg; try apply Hc. exact Ht.
Qed.

Lemma process_excel_file_nonneg (df : RawGrid) (date : option string)
    (region : string) :
  nonneg_grid df ->
  Forall nonneg_record (process_excel_file (Some df) date region).
Proof.
  intros Hdf. apply Forall_forall. intros rec Hin.
  apply process_excel_file_records in Hin.
  destruct Hin as (r & name & sector & Hr & _ & Hb).
  apply build_record_inv in Hb. destruct Hb as [sname ->].
  apply record_of_nonneg. intros v Hv. now apply (Hdf r v).
Qed.

Lemma all_india_rows_nonneg (date : option string) (md : list CapacityRecord) :
  keeps_nonneg aggregation ->
  Forall nonneg_record md -> Forall nonneg_record (all_india_rows date md).
Proof.
  intros (Hgroup & Hframe & Hround) Hmd. rewrite Forall_forall in Hmd.
  assert (Hline : forall s c,
            Binary64.nonneg
              (round2 (group_sum (map (value c) (group s md)))) = true).
  { intros s c. apply Hround, Hgroup, Forall_forall. intros x Hx.
    apply in_map_iff in Hx. destruct Hx as (r & <- & Hr).
    apply group_incl in Hr. now apply Hmd. }
  apply Forall_forall. intros rec Hin c.
  apply all_india_rows_values in Hin.
  destruct Hin as [[_ Hv]|[_ Hv]]; rewrite Hv; [apply Hline|].
  apply Hframe, Forall_forall. intros x Hx.
  apply in_map_iff in Hx. destruct Hx as (s & <- & _). apply Hline.
Qed.

(** C5 (amended).  A record built from a data row passes on what [float]
    reads from the cells under the seven located columns of Coal, Lignite,
    Gas, Diesel, Nuclear, Hydro and RES, a negative number included: the
    code neither clamps nor rejects it.  The nine numbers of the record
    are non-negative when no cell of its row holds a negative number or a
    NaN.  So, in a world that serves only grids without such cells, and
    with sums and a rounding that keep non-negative numbers non-negative,
    every record of a month, roll-up lines included, of any range of
    months and of the table of [main], has nine non-negative numbers. *)
Theorem C5_non_negative_fields :
  (forall df date region rec,
     In rec (process_excel_file (Some df) date region) ->
     exists r name sector,
       In r df /\
       build_record (locate_headers df) date region name sector r = Ok rec /\
       (forall f s x, f <> FTotal ->
          cell_holds (get_col f (locate_headers df)) r s ->
          PyFloat.py_float (PyStr.strip s) = Ok x -> component f rec = x) /\
       ((forall v, In v r -> holds_no_negative v = true) -> nonneg_record rec)) /\
  (forall w, nonneg_world w -> keeps_nonneg aggregation ->
     (forall year month t log rec,
        process_month_data w year month = (Ok t, log) ->
        In rec t -> nonneg_record rec) /\
     (forall date_range rec,
        In rec (all_data (process_months w date_range)) -> nonneg_record rec) /\
     (forall rec, In rec (all_data (main w)) -> nonneg_record rec)).
Proof.
  split.
  - intros df date region rec Hin.
    apply process_excel_file_records in Hin.
    destruct Hin as (r & name & sector & Hr & _ & Hb).
    exists r, name, sector. split; [exact Hr|]. split; [exact Hb|].
    apply build_record_inv in Hb. destruct Hb as [sname ->].
    split; [|apply record_of_nonneg].
    intros f s x Hf Hs Hx.
    destruct f; try (now elim Hf);
      cbn [component record_of Coal Lignite Gas Diesel Nuclear Hydro RES];
      cbn [get_col] in Hs; now rewrite (cell_value_holds _ _ _ Hs), Hx.
  - intros w Hw Hagg.
    assert (Hmonth : forall year month t log,
              process_month_data w year month = (Ok t, log) ->
              Forall nonneg_record t).
    { intros year month t log. apply process_month_data_Forall.
      - intros content k url filename region _ Hget. unfold region_frame.
        destruct content as [df|]; [|constructor].
        apply process_excel_file_nonneg. eapply Hw; eauto.
      - intros date md. now apply all_india_rows_nonneg. }
    repeat split.
    + intros year month t log rec Hm. revert rec. apply Forall_forall. eauto.
    + intros date_range. apply Forall_forall. now apply process_months_Forall.
    + apply Forall_forall. now apply main_Forall.
Qed.

End Program.

(** * Further properties of the program *)

(** ** Text: [strip], [split], [str] and [int] *)

Lemma lstrip_no_space (s : string) : no_space s = true -> PyStr.lstrip s = s.
Proof.
  destruct s as [|c s]; [reflexivity|]. simpl. intros H.
  apply andb_true_iff in H. destruct H as [H _]. apply negb_true_iff in H.
  now rewrite H.
Qed.

Lemma rstrip_no_space (s : string) : no_space s = true -> PyStr.rstrip s = s.
Proof.
  induction s as [|c s IH]; [reflexivity|]. simpl. intros H.
  apply andb_true_iff in H. destruct H as [Hc Hs]. apply negb_true_iff in Hc.
  now rewrite Hc, (IH Hs).
Qed.

Lemma strip_no_space (s : string) : no_space s = true -> PyStr.strip s = s.
Proof.
  intros H. unfold PyStr.strip. now rewrite (lstrip_no_space s H), rstrip_no_space.
Qed.

Lemma split_lacks (sep : ascii) (s : string) :
  lacks sep s = true -> PyStr.split sep s = [s].
Proof.
  induction s as [|c s IH]; [reflexivity|]. simpl. intros H.
  apply andb_true_iff in H. destruct H as [Hc Hs]. apply negb_true_iff in Hc.
  now rewrite Hc, (IH Hs).
Qed.

Lemma split_app (sep : ascii) (a b : string) :
  lacks sep a = true ->
  PyStr.split sep (a ++ String sep b)%string = a :: PyStr.split sep b.
Proof.
  induction a as [|c a IH]; simpl.
  - intros _. now rewrite Ascii.eqb_refl.
  - intros H. apply andb_true_iff in H. destruct H as [Hc Ha].
    apply negb_true_iff in Hc. now rewrite Hc, (IH Ha).
Qed.

Lemma lacks_app (c : ascii) (a b : string) :
  lacks c (a ++ b)%string = lacks c a && lacks c b.
Proof.
  induction a as [|x a IH]; [reflexivity|]. simpl. now rewrite IH, andb_assoc.
Qed.

Lemma digits_tail_uint (d : Decimal.uint) (v : Z) (n : nat) :
  PyFloat.digits_tail (NilEmpty.string_of_uint d) v n =
  (uint_value d v, (n + Decimal.nb_digits d)%nat, "").
Proof.
  revert v n. induction d; intros v n; simpl;
    try (rewrite IHd; f_equal; f_equal; lia).
  f_equal. f_equal. lia.
Qed.

Lemma uint_value_acc (d : Decimal.uint) (acc : positive) :
  uint_value d (Zpos acc) = Zpos (Pos.of_uint_acc d acc).
Proof.
  revert acc. induction d; intros acc; cbn [uint_value Pos.of_uint_acc];
    [reflexivity|..];
    match goal with
    | |- uint_value _ ?v = _ =>
        match goal with
        | |- _ = Zpos (Pos.of_uint_acc _ ?a) =>
            replace v with (Zpos a) by lia; apply IHd
        end
    end.
Qed.

Lemma uint_value_of_uint (d : Decimal.uint) :
  uint_value d 0 = Z.of_N (Pos.of_uint d).
Proof.
  induction d; simpl; try exact IHd; try reflexivity; apply uint_value_acc.
Qed.

Lemma no_space_uint (d : Decimal.uint) :
  no_space (NilEmpty.string_of_uint d) = true.
Proof. induction d; simpl; auto. Qed.

Lemma digitpart_uint (d : Decimal.uint) :
  d <> Decimal.Nil ->
  exists n, PyFloat.digitpart (NilEmpty.string_of_uint d)
            = Some (uint_value d 0, n, "").
Proof.
  destruct d; [easy|..]; intros _; simpl; rewrite digits_tail_uint; eauto.
Qed.

Lemma sign_uint (d : Decimal.uint) :
  PyFloat.sign (NilEmpty.string_of_uint d) = (false, NilEmpty.string_of_uint d).
Proof. destruct d; reflexivity. Qed.

Lemma py_int_uint (d : Decimal.uint) :
  d <> Decimal.Nil ->
  py_int (NilEmpty.string_of_uint d) = Ok (Z.of_N (Pos.of_uint d)) /\
  py_int (String "-" (NilEmpty.string_of_uint d)) = Ok (- Z.of_N (Pos.of_uint d))%Z.
Proof.
  intros Hd. destruct (digitpart_uint d Hd) as [n Hn]. split.
  - unfold py_int. rewrite strip_no_space by apply no_space_uint.
    rewrite sign_uint. cbv beta iota zeta.
    now rewrite Hn, uint_value_of_uint.
  - unfold py_int.
    rewrite strip_no_space by (simpl; apply no_space_uint).
    change (PyFloat.sign (String "-" (NilEmpty.string_of_uint d)))
      with (true, NilEmpty.string_of_uint d).
    cbv beta iota zeta. now rewrite Hn, uint_value_of_uint.
Qed.

(** [int(str(n)) == n] *)
Lemma py_int_str_int (z : Z) : py_int (str_int z) = Ok z.
Proof.
  unfold str_int. destruct z as [|p|p]; [reflexivity|..]; simpl.
  - destruct (py_int_uint (Pos.to_uint p)) as [H _];
      [apply Stdlib.Numbers.DecimalPos.Unsigned.to_uint_nonnil|].
    rewrite H. now rewrite Stdlib.Numbers.DecimalPos.Unsigned.of_to.
  - destruct (py_int_uint (Pos.to_uint p)) as [_ H];
      [apply Stdlib.Numbers.DecimalPos.Unsigned.to_uint_nonnil|].
    rewrite H. now rewrite Stdlib.Numbers.DecimalPos.Unsigned.of_to.
Qed.

(** ** File names *)

Lemma split_file_name (region year mm : string) :
  lacks "-" region = true -> lacks "-" year = true -> lacks "-" mm = true ->
  PyStr.split "-" (file_name region year mm) =
  ["capacity2"; region; year; (mm ++ ".xls")%string].
Proof.
  intros Hr Hy Hm. unfold file_name.
  change ("capacity2-" ++ region ++ "-" ++ year ++ "-" ++ mm ++ ".xls")%string
    with ("capacity2" ++ String "-" (region ++ String "-"
            (year ++ String "-" (mm ++ ".xls"))))%string.
  rewrite split_app by reflexivity.
  rewrite split_app by exact Hr.
  rewrite split_app by exact Hy.
  rewrite split_lacks; [reflexivity|].
  rewrite lacks_app, Hm. reflexivity.
Qed.

Lemma split_dot_xls (mm : string) :
  lacks "." mm = true -> PyStr.split "." (mm ++ ".xls")%string = [mm; "xls"].
Proof.
  intros H. change (mm ++ ".xls")%string with (mm ++ String "." "xls")%string.
  now rewrite split_app.
Qed.

Lemma extract_region_of_file_name_aux (region year mm : string) :
  (lacks "-" region = true ->
   extract_region_from_filename (file_name region year mm) = region).
Proof.
  intros Hr. unfold extract_region_from_filename, file_name.
  change ("capacity2-" ++ region ++ "-" ++ year ++ "-" ++ mm ++ ".xls")%string
    with ("capacity2" ++ String "-" (region ++ String "-"
            (year ++ "-" ++ mm ++ ".xls")))%string.
  rewrite split_app by reflexivity.
  now rewrite split_app by exact Hr.
Qed.

(** X1. The region is read back from a generated file name: for a region
    name without a dash, [extract_region_from_filename] of
    [capacity2-{region}-{year}-{mm}.xls] is the region, whatever the year
    and month texts; a name without any dash gives ["Unknown"]. *)
Theorem extract_region_of_file_name (region year mm filename : string) :
  (lacks "-" region = true ->
   extract_region_from_filename (file_name region year mm) = region) /\
  (lacks "-" filename = true ->
   extract_region_from_filename filename = "Unknown").
Proof.
  split.
  - apply extract_region_of_file_name_aux.
  - intros H. unfold extract_region_from_filename.
    now rewrite split_lacks.
Qed.

Lemma extract_region_of_file_name_witness :
  extract_region_from_filename (file_name "North Eastern" "2025" "06")
    = "North Eastern" /\
  extract_region_from_filename "capacity2.xls" = "Unknown".
Proof.
  destruct (extract_region_of_file_name "North Eastern" "2025" "06"
              "capacity2.xls") as [H1 H2].
  split; [exact (H1 eq_refl)|exact (H2 eq_refl)].
Defined.

Lemma month_numbers_cases (mm : string) :
  PyStr.mem mm month_numbers = true ->
  lacks "-" mm = true /\ lacks "." mm = true /\
  exists m, py_int mm = Ok m /\ (1 <= m <= 12)%Z.
Proof.
  unfold PyStr.mem, month_numbers. simpl. intros H.
  repeat (apply orb_true_iff in H; destruct H as [H|H];
          [apply String.eqb_eq in H; subst mm;
           split; [reflexivity|split; [reflexivity|]];
           eexists; split;
           [vm_compute; reflexivity|vm_compute; split; discriminate]|]).
  discriminate.
Qed.

Lemma extract_date_aux (region year mm : string) :
  lacks "-" region = true -> lacks "-" year = true ->
  PyStr.mem mm month_numbers = true ->
  exists m, py_int mm = Ok m /\
    extract_date_from_filename (file_name region year mm) =
    match py_int year with
    | Ok y => Some (last_day_date year mm y m)
    | Raise _ => Some "01-01-2025"
    end.
Proof.
  intros Hr Hy Hmm.
  destruct (month_numbers_cases mm Hmm) as (Hdash & Hdot & m & Hm & Hrange).
  exists m. split; [exact Hm|].
  unfold extract_date_from_filename.
  rewrite (split_file_name region year mm Hr Hy Hdash).
  cbn [iloc nth_error bind]. rewrite (split_dot_xls mm Hdot).
  cbn [iloc nth_error bind]. rewrite Hmm, Hm.
  destruct (py_int year) as [y|e]; reflexivity.
Qed.



(** X3. The two ways [extract_date_from_filename] gives no date of its
    own.  A name with fewer than four dash-separated parts gives the default
    date ["01-01-2025"].  A name of the generated shape whose month part is
    not one of the twelve two-digit numbers gives no date at all: the
    function ends without a [return]. *)
Theorem extract_date_fallbacks (filename region year mm : string) :
  ((List.length (PyStr.split "-" filename) < 4)%nat ->
   extract_date_from_filename filename = Some "01-01-2025") /\
  (lacks "-" region = true -> lacks "-" year = true -> lacks "-" mm = true ->
   lacks "." mm = true -> PyStr.mem mm month_numbers = false ->
   extract_date_from_filename (file_name region year mm) = None).
Proof.
  split.
  - intros Hlen. unfold extract_date_from_filename, iloc.
    destruct (nth_error (PyStr.split "-" filename) 2) as [yr|] eqn:E2;
      [|reflexivity].
    cbn [bind].
    destruct (nth_error (PyStr.split "-" filename) 3) as [p3|] eqn:E3;
      [|reflexivity].
    assert (H : (3 < List.length (PyStr.split "-" filename))%nat)
      by (apply nth_error_Some; congruence).
    lia.
  - intros Hr Hy Hdash Hdot Hmm. unfold extract_date_from_filename.
    rewrite (split_file_name region year mm Hr Hy Hdash).
    cbn [iloc nth_error bind]. rewrite (split_dot_xls mm Hdot).
    cbn [iloc nth_error bind]. now rewrite Hmm.
Qed.

Lemma extract_date_fallbacks_witness :
  extract_date_from_filename "capacity2-Northern.xls" = Some "01-01-2025" /\
  extract_date_from_filename (file_name "Northern" "2025" "6") = None.
Proof.
  destruct (extract_date_fallbacks "capacity2-Northern.xls" "Northern" "2025" "6")
    as [H1 H2].
  split.
  - apply H1. vm_compute. repeat constructor.
  - exact (H2 eq_refl eq_refl eq_refl eq_refl eq_refl).
Defined.

(** ** The range of months, in closed form *)

Lemma py_index_months (cm : Z) :
  (1 <= cm <= 12)%Z ->
  py_index months (cm - 1) = Ok (nth (Z.to_nat (cm - 1)) months "").
Proof.
  intros H. unfold py_index, iloc.
  destruct (0 <=? cm - 1)%Z eqn:E; [|apply Z.leb_gt in E; lia].
  assert (Hlt : (Z.to_nat (cm - 1) < List.length months)%nat)
    by (change (List.length months) with 12%nat; lia).
  destruct (nth_error months (Z.to_nat (cm - 1))) as [name|] eqn:En.
  - now rewrite (nth_error_nth _ _ _ En).
  - apply nth_error_None in En. lia.
Qed.

Lemma month_entry_of (cy cm : Z) :
  (1 <= cm <= 12)%Z ->
  month_entry (cy * 12 + cm - 1) =
  (str_int cy, nth (Z.to_nat (cm - 1)) months "").
Proof.
  intros H. unfold month_entry.
  assert (Hd : ((cy * 12 + cm - 1) / 12 = cy)%Z)
    by (symmetry; apply (Z.div_unique _ 12 cy (cm - 1)); lia).
  assert (Hm : ((cy * 12 + cm - 1) mod 12 = cm - 1)%Z)
    by (symmetry; apply (Z.mod_unique _ 12 cy (cm - 1)); lia).
  now rewrite Hd, Hm.
Qed.

Lemma date_range_condition (cy cm ey em : Z) :
  (1 <= cm <= 12)%Z -> (1 <= em <= 12)%Z ->
  ((cy <? ey) || ((cy =? ey) && (cm <=? em)))%Z = true <->
  (cy * 12 + cm <= ey * 12 + em)%Z.
Proof.
  intros Hcm Hem. rewrite orb_true_iff, andb_true_iff, Z.ltb_lt, Z.eqb_eq,
    Z.leb_le. lia.
Qed.

Lemma date_range_loop_spec (ey em : Z) (n : nat) :
  (1 <= em <= 12)%Z ->
  forall (fuel : nat) (cy cm : Z) (acc : list (string * string)),
    (1 <= cm <= 12)%Z ->
    n = Z.to_nat (ey * 12 + em - (cy * 12 + cm) + 1) ->
    (n <= fuel)%nat ->
    date_range_loop fuel cy cm ey em acc =
    Some (Ok (acc ++ map (fun k => month_entry (cy * 12 + cm - 1 + Z.of_nat k))
                         (seq 0 n))).
Proof.
  intros Hem. induction n as [|n IH]; intros fuel cy cm acc Hcm Hn Hfuel.
  - assert (Hc : ((cy <? ey) || ((cy =? ey) && (cm <=? em)))%Z = false).
    { apply not_true_iff_false. rewrite date_range_condition by assumption. lia. }
    simpl. rewrite app_nil_r.
    destruct fuel; cbn [date_range_loop]; now rewrite Hc.
  - assert (Hc : ((cy <? ey) || ((cy =? ey) && (cm <=? em)))%Z = true)
      by (apply date_range_condition; [assumption..|lia]).
    destruct fuel as [|fuel]; [lia|]. cbn [date_range_loop].
    rewrite Hc, (py_index_months cm Hcm).
    rewrite <- (month_entry_of cy cm Hcm).
    change (seq 0 (S n)) with (0%nat :: seq 1 n). rewrite <- seq_shift.
    rewrite map_cons, map_map. cbn [Z.of_nat].
    replace (cy * 12 + cm - 1 + 0)%Z with (cy * 12 + cm - 1)%Z by lia.
    destruct (12 <? cm + 1)%Z eqn:E12.
    + apply Z.ltb_lt in E12.
      rewrite (IH fuel (cy + 1)%Z 1%Z) by lia.
      rewrite <- app_assoc. do 3 f_equal. simpl app. f_equal.
      apply map_ext. intros k. f_equal. lia.
    + apply Z.ltb_ge in E12.
      rewrite (IH fuel cy (cm + 1)%Z) by lia.
      rewrite <- app_assoc. do 3 f_equal. simpl app. f_equal.
      apply map_ext. intros k. f_equal. lia.
Qed.

(** X4. For month numbers between 1 and 12, [generate_date_range] returns
    the months from the start month to the end month, both included, in
    calendar order: entry [k] is the month that comes [k] months after the
    start, as the text of its year and its three-letter abbreviation, and
    there are [12 (ey - sy) + em - sm + 1] entries, none when the start is
    after the end. *)
Theorem generate_date_range_calendar (sy sm ey em : Z) :
  (1 <= sm <= 12)%Z -> (1 <= em <= 12)%Z ->
  generate_date_range sy sm ey em = Some (Ok (calendar_months sy sm ey em)) /\
  List.length (calendar_months sy sm ey em) =
    Z.to_nat ((ey - sy) * 12 + em - sm + 1) /\
  forall k, (k < List.length (calendar_months sy sm ey em))%nat ->
    nth_error (calendar_months sy sm ey em) k =
    Some (month_entry (sy * 12 + sm - 1 + Z.of_nat k)).
Proof.
  intros Hsm Hem. split; [|split].
  - unfold generate_date_range, calendar_months.
    rewrite (date_range_loop_spec ey em _ Hem _ sy sm [] Hsm eq_refl);
      [reflexivity|].
    unfold date_range_fuel. lia.
  - unfold calendar_months. rewrite length_map, length_seq. f_equal. lia.
  - unfold calendar_months. intros k Hk. rewrite length_map, length_seq in Hk.
    rewrite nth_error_map, nth_error_seq.
    apply Nat.ltb_lt in Hk. now rewrite Hk.
Qed.

Lemma generate_date_range_calendar_witness :
  generate_date_range 2018 11 2019 2 =
    Some (Ok [("2018", "NOV"); ("2018", "DEC"); ("2019", "JAN"); ("2019", "FEB")]) /\
  generate_date_range 2020 5 2020 4 = Some (Ok []).
Proof.
  assert (H1 : (1 <= 11 <= 12)%Z) by (split; discriminate).
  assert (H2 : (1 <= 2 <= 12)%Z) by (split; discriminate).
  assert (H5 : (1 <= 5 <= 12)%Z) by (split; discriminate).
  assert (H4 : (1 <= 4 <= 12)%Z) by (split; discriminate).
  split.
  - exact (proj1 (generate_date_range_calendar 2018 11 2019 2 H1 H2)).
  - exact (proj1 (generate_date_range_calendar 2020 5 2020 4 H5 H4)).
Defined.

Lemma py_index_months_out (i : Z) :
  (12 <= i \/ i < -12)%Z -> py_index months i = Raise IndexError.
Proof.
  intros H. unfold py_index, iloc.
  change (Z.of_nat (List.length months)) with 12%Z.
  destruct (0 <=? i)%Z eqn:E0.
  - apply Z.leb_le in E0.
    destruct (nth_error months (Z.to_nat i)) eqn:En; [|reflexivity].
    assert (Hlt : (Z.to_nat i < List.length months)%nat)
      by (apply nth_error_Some; congruence).
    change (List.length months) with 12%nat in Hlt. lia.
  - apply Z.leb_gt in E0.
    destruct (- (12) <=? i)%Z eqn:E1; [|reflexivity].
    apply Z.leb_le in E1. lia.
Qed.

(** X5. A start month outside 1..12.  When the loop is entered (the start
    is not after the end), a start month above 12 or below -11 makes
    [months[current_month - 1]] raise [IndexError], so no range is
    returned; a start month of 0 is not rejected: the index -1 selects
    ["DEC"], and the range is December of the start year followed by the
    months from January of that same year to the end. *)
Theorem generate_date_range_start_month_outside (sy sm ey em : Z) :
  (((sy <? ey) || ((sy =? ey) && (sm <=? em)))%Z = true ->
   (12 < sm \/ sm < -11)%Z ->
   generate_date_range sy sm ey em = Some (Raise IndexError)) /\
  ((sy <= ey)%Z -> (1 <= em <= 12)%Z ->
   generate_date_range sy 0 ey em =
   Some (Ok ((str_int sy, "DEC") :: calendar_months sy 1 ey em))).
Proof.
  split.
  - intros Hc Hsm. unfold generate_date_range, date_range_fuel.
    cbn [date_range_loop]. rewrite Hc.
    now rewrite py_index_months_out by lia.
  - intros Hy Hem. unfold generate_date_range, date_range_fuel.
    cbn [date_range_loop].
    assert (Hc : ((sy <? ey) || ((sy =? ey) && (0 <=? em)))%Z = true).
    { apply orb_true_iff. rewrite andb_true_iff, Z.ltb_lt, Z.eqb_eq, Z.leb_le.
      lia. }
    rewrite Hc. change (py_index months (0 - 1)) with (@Ok string "DEC").
    cbv beta iota zeta. change (12 <? 0 + 1)%Z with false. cbv iota.
    unfold calendar_months.
    rewrite (date_range_loop_spec ey em _ Hem _ sy (0 + 1)%Z _
               ltac:(lia) eq_refl) by lia.
    simpl app. do 3 f_equal.
Qed.

Lemma generate_date_range_start_month_outside_witness :
  generate_date_range 2024 13 2025 1 = Some (Raise IndexError) /\
  generate_date_range 2024 0 2024 2 =
    Some (Ok [("2024", "DEC"); ("2024", "JAN"); ("2024", "FEB")]).
Proof.
  destruct (generate_date_range_start_month_outside 2024 13 2025 1) as [H1 _].
  destruct (generate_date_range_start_month_outside 2024 0 2024 2) as [_ H2].
  split.
  - apply H1; [reflexivity|]. left. reflexivity.
  - apply H2; [discriminate|split; discriminate].
Defined.

(** ** The targets of a month *)

Lemma dict_get_month_num_mem (month mm : string) :
  dict_get month_num month = Ok mm -> PyStr.mem mm month_numbers = true.
Proof.
  unfold month_num. cbn [dict_get].
  repeat (match goal with
          | |- (if ?b then _ else _) = _ -> _ =>
              destruct b; [intros [= <-]; reflexivity|]
          end).
  discriminate.
Qed.

Lemma lacks_dash_uint (d : Decimal.uint) :
  lacks "-" (NilEmpty.string_of_uint d) = true.
Proof. induction d; simpl; auto. Qed.

Lemma lacks_dash_str_int (y : Z) : (0 <= y)%Z -> lacks "-" (str_int y) = true.
Proof.
  intros Hy. unfold str_int. destruct y as [|p|p]; [reflexivity| |lia].
  simpl. apply lacks_dash_uint.
Qed.

Lemma regions_lack_dash (region : string) :
  In region regions -> lacks "-" region = true.
Proof. intros [<-|[<-|[<-|[<-|[<-|[]]]]]]; reflexivity. Qed.

Lemma generate_urls_eq (year month mm : string) :
  dict_get month_num month = Ok mm ->
  generate_urls_for_month_year year month =
  Ok (map (fun region =>
             (file_url year month (file_name region year mm),
              file_name region year mm, region)) regions).
Proof. intros H. unfold generate_urls_for_month_year. now rewrite H. Qed.

(** X6. The targets of a month and what is read back from them.  For a
    month abbreviation of the table, [generate_urls_for_month_year] gives
    one target for each of the five regions, in their fixed order, and the
    probe of [check_data_availability] asks for the URL of the first
    target, the Northern file.  For the text of a non-negative year, the
    file name of each target gives back its region through
    [extract_region_from_filename] and, through
    [extract_date_from_filename], the last day of that month of that
    year.  A month abbreviation outside the table raises [KeyError]. *)
Theorem generate_urls_targets (year month : string) (w : World) :
  (forall e, dict_get month_num month = Raise e ->
     generate_urls_for_month_year year month = Raise e) /\
  (forall mm, dict_get month_num month = Ok mm ->
     exists urls m,
       generate_urls_for_month_year year month = Ok urls /\
       map snd urls = regions /\
       (exists url filename,
          hd_error urls = Some (url, filename, "Northern") /\
          check_data_availability w year month
            = (Ok (head_ok w url), [Head url])) /\
       py_int mm = Ok m /\ (1 <= m <= 12)%Z /\
       forall url filename region,
         In (url, filename, region) urls ->
         filename = file_name region year mm /\
         url = file_url year month filename /\
         forall y, (0 <= y)%Z -> year = str_int y ->
           extract_region_from_filename filename = region /\
           extract_date_from_filename filename
             = Some (last_day_date year mm y m)).
Proof.
  split.
  - intros e H. unfold generate_urls_for_month_year. now rewrite H.
  - intros mm Hmm.
    destruct (month_numbers_cases mm (dict_get_month_num_mem _ _ Hmm))
      as (_ & _ & m & Hm & Hrange).
    eexists. exists m. split; [apply (generate_urls_eq _ _ _ Hmm)|].
    split; [reflexivity|]. split.
    { eexists. eexists. split; [reflexivity|].
      unfold check_data_availability. now rewrite Hmm. }
    split; [exact Hm|]. split; [exact Hrange|].
    intros url filename region Hin. apply in_map_iff in Hin.
    destruct Hin as (r & [= <- <- <-] & Hr).
    split; [reflexivity|]. split; [reflexivity|].
    intros y Hy ->. split.
    + apply extract_region_of_file_name_aux. now apply regions_lack_dash.
    + destruct (extract_date_aux r (str_int y) mm
                  (regions_lack_dash r Hr) (lacks_dash_str_int y Hy)
                  (dict_get_month_num_mem _ _ Hmm)) as (m' & Hm' & H).
      rewrite H, py_int_str_int. congruence.
Qed.

(** ** The dates of the records of a month *)

Section MonthDates.

Context {aggregation : Aggregation}.

Lemma region_frame_date (content : option RawGrid) (filename region : string) :
  Forall (fun rec => Date rec = extract_date_from_filename filename)
         (region_frame content filename region).
Proof.
  apply Forall_forall. intros rec Hin. unfold region_frame in Hin.
  destruct content as [df|]; [|easy].
  apply process_excel_file_records in Hin.
  destruct Hin as (r & name & sector & _ & _ & Hb).
  apply build_record_inv in Hb. now destruct Hb as [sname ->].
Qed.

Lemma all_india_rows_date (date : option string) (md : list CapacityRecord) :
  Forall (fun rec => Date rec = date) (all_india_rows date md).
Proof.
  apply Forall_forall. intros rec Hin.
  apply all_india_rows_shape in Hin. now destruct Hin as (sector & line & ->).
Qed.

(** X7. Every record of the table of a month, the roll-up lines included,
    is dated with the last day of that month: for the text of a
    non-negative year and a month abbreviation of the table, the Date of
    each record is the number of days of the month, the month number and
    the year. *)
Theorem month_records_dated (w : World) (y : Z) (month mm : string) (m : Z)
    (t : list CapacityRecord) (log : list event) (rec : CapacityRecord) :
  (0 <= y)%Z ->
  dict_get month_num month = Ok mm -> py_int mm = Ok m ->
  process_month_data w (str_int y) month = (Ok t, log) ->
  In rec t -> Date rec = Some (last_day_date (str_int y) mm y m).
Proof.
  intros Hy Hmm Hm Hp.
  set (D := Some (last_day_date (str_int y) mm y m)).
  assert (Ht : Forall (fun rec => Date rec = D) t);
    [|rewrite Forall_forall in Ht; apply Ht].
  apply process_month_data_cases in Hp.
  destruct Hp as [->|(urls & Hurls & ->)]; [constructor|].
  assert (Eu : urls = map (fun region =>
                (file_url (str_int y) month (file_name region (str_int y) mm),
                 file_name region (str_int y) mm, region)) regions)
    by (rewrite (generate_urls_eq _ _ _ Hmm) in Hurls; congruence).
  assert (Hmd : Forall (fun rec => Date rec = D)
                       (monthly_data (fetch_regions w urls))).
  { apply fetch_regions_Forall. intros target content k Hin _.
    rewrite Eu in Hin. apply in_map_iff in Hin.
    destruct Hin as (r & <- & Hr). cbn [fst snd].
    eapply Forall_impl; [|apply region_frame_date].
    intros rec0 ->.
    destruct (extract_date_aux r (str_int y) mm
                (regions_lack_dash r Hr) (lacks_dash_str_int y Hy)
                (dict_get_month_num_mem _ _ Hmm)) as (m' & Hm' & H).
    rewrite H, py_int_str_int. unfold D. congruence. }
  unfold roll_up. destruct (monthly_data (fetch_regions w urls))
    as [|first md'] eqn:E; [constructor|].
  destruct (3 <=? _)%nat; [|exact Hmd].
  apply Forall_app. split; [exact Hmd|].
  eapply Forall_impl; [|apply all_india_rows_date].
  intros rec0 ->. now inversion Hmd.
Qed.

End MonthDates.

(** ** The records of a sheet *)

Lemma no_sector_row_assign (s t : string) :
  no_sector_row s = Assign (Some t) ->
  t = s /\
  PyStr.contains "Total of" s = false /\
  PyStr.contains "TOTAL OF" (PyStr.upper s) = false /\
  s <> "nan" /\ PyStr.isdigit s = false /\
  PyStr.mem (PyStr.upper s) region_names = false /\
  PyStr.startswith "http" s = false.
Proof.
  unfold no_sector_row.
  destruct (PyStr.contains "Total of" s) eqn:E1; [discriminate|].
  destruct (PyStr.contains "TOTAL OF" (PyStr.upper s)) eqn:E2; [discriminate|].
  cbn [orb]. cbv iota.
  destruct (s =? "nan") eqn:E3; [discriminate|].
  destruct (PyStr.isdigit s) eqn:E4; [discriminate|].
  cbn [andb negb]. cbv iota.
  destruct (PyStr.mem (PyStr.upper s) region_names) eqn:E5; [discriminate|].
  destruct (PyStr.startswith "http" s) eqn:E6; [discriminate|].
  cbn [orb]. cbv iota. intros [= <-].
  apply String.eqb_neq in E3. auto 10.
Qed.

Lemma truthy_some (s : option string) (name : string) :
  truthy s = Some name -> s = Some name /\ name <> "".
Proof.
  destruct s as [[|c s]|]; simpl; try discriminate.
  intros [= <-]. now split.
Qed.

Lemma build_record_sector cols date region name sector r rec :
  build_record cols date region name sector r = Ok rec ->
  Date rec = date /\ Region rec = region /\ State rec = name /\
  In (Sector rec) ["State"; "Private"; "Central"].
Proof.
  rewrite build_record_eq.
  destruct (dict_get sector_mapping (PyStr.upper sector)) as [sname|e] eqn:E;
    [|discriminate].
  cbn [bind]. intros [= <-]. repeat split.
  unfold sector_mapping in E. cbn [dict_get] in E. cbn [Sector record_of].
  destruct (PyStr.upper sector =? "STATE SECTOR");
    [injection E as <-; simpl; auto|].
  destruct (PyStr.upper sector =? "PVT SECTOR");
    [injection E as <-; simpl; auto|].
  destruct (PyStr.upper sector =? "CENTRAL SECTOR");
    [injection E as <-; simpl; auto|discriminate].
Qed.

Section ClassifierInvariants.

Variables (cols : Columns) (date : option string) (region : string).

Lemma sector_row_sound (sector : string) (r : row) (st : Classifier) :
  carries_state_text st -> Forall (sound_record date region) (result_data st) ->
  Forall (sound_record date region) (result_data (sector_row cols date region sector r st)).
Proof.
  intros Hcur Hst. unfold sector_row.
  destruct (truthy (current_state st)) as [name|] eqn:Ht; [|exact Hst].
  destruct (PyStr.mem (PyStr.upper sector) sector_labels); [|exact Hst].
  destruct (build_record cols date region name sector r) as [rec|e] eqn:Hb;
    [|exact Hst].
  cbn [result_data]. apply Forall_app. split; [exact Hst|].
  constructor; [|constructor].
  destruct (build_record_sector _ _ _ _ _ _ _ Hb) as (Hd & Hr & Hs & Hsec).
  destruct (truthy_some _ _ Ht) as [Hc Hne].
  unfold sound_record, state_name. rewrite Hs.
  split; [exact Hd|]. split; [exact Hr|].
  split; [split; [exact Hne|apply Hcur; exact Hc]|exact Hsec].
Qed.

Lemma sector_row_current (sector : string) (r : row) (st : Classifier) :
  current_state (sector_row cols date region sector r st) = current_state st.
Proof.
  unfold sector_row. destruct (truthy (current_state st)); [|reflexivity].
  destruct (PyStr.mem _ _); [|reflexivity].
  now destruct (build_record _ _ _ _ _ _).
Qed.

Lemma classify_row_sound (r : row) (st st' : Classifier) :
  carries_state_text st -> Forall (sound_record date region) (result_data st) ->
  classify_row cols date region r st = Ok st' ->
  carries_state_text st' /\ Forall (sound_record date region) (result_data st').
Proof.
  intros Hcur Hst. unfold classify_row.
  destruct (iloc r (state_col cols)) as [state_cell|]; cbn [bind]; [|discriminate].
  destruct (iloc r (sector_col_or_default cols)) as [sector_cell|]; cbn [bind];
    [|discriminate].
  destruct ((cell_text state_cell =? "nan") && (cell_text sector_cell =? "nan")).
  - now intros [= <-].
  - destruct (if (cell_text sector_cell =? "nan") || (cell_text sector_cell =? "")
                 || (cell_text sector_cell =? "None")
              then no_sector_row (cell_text state_cell) else FallThrough)
      as [|s|] eqn:Ev.
    + now intros [= <-].
    + intros [= <-]. split; [|exact Hst].
      intros s0 Hs0. cbn [current_state] in Hs0. subst s.
      destruct ((cell_text sector_cell =? "nan") || _ || _); [|discriminate].
      destruct (no_sector_row_assign _ _ Ev) as [-> _]. exact Ev.
    + intros [= <-]. split.
      * intros s0. rewrite sector_row_current. apply Hcur.
      * now apply sector_row_sound.
Qed.

Lemma classify_rows_sound (rows : list row) (st st' : Classifier) :
  carries_state_text st -> Forall (sound_record date region) (result_data st) ->
  classify_rows cols date region rows st = Ok st' ->
  carries_state_text st' /\ Forall (sound_record date region) (result_data st').
Proof.
  revert st. induction rows as [|r rows IH]; intros st Hcur Hst; simpl.
  - now intros [= <-].
  - destruct (classify_row cols date region r st) as [st1|e] eqn:Hrow;
      cbn [bind]; [|discriminate].
    destruct (classify_row_sound r st st1 Hcur Hst Hrow) as [H1 H2].
    now apply IH.
Qed.

(** Each row appends at most one record, after the records so far. *)
Lemma classify_row_appends (r : row) (st st' : Classifier) :
  classify_row cols date region r st = Ok st' ->
  exists new, result_data st' = result_data st ++ new
              /\ (List.length new <= 1)%nat.
Proof.
  unfold classify_row.
  destruct (iloc r (state_col cols)) as [state_cell|]; cbn [bind]; [|discriminate].
  destruct (iloc r (sector_col_or_default cols)) as [sector_cell|]; cbn [bind];
    [|discriminate].
  assert (Hsame : exists new, result_data st = result_data st ++ new
                              /\ (List.length new <= 1)%nat)
    by (exists []; rewrite app_nil_r; simpl; auto).
  destruct ((cell_text state_cell =? "nan") && (cell_text sector_cell =? "nan")).
  - now intros [= <-].
  - destruct (if (cell_text sector_cell =? "nan") || (cell_text sector_cell =? "")
                 || (cell_text sector_cell =? "None")
              then no_sector_row (cell_text state_cell) else FallThrough).
    + now intros [= <-].
    + now intros [= <-].
    + intros [= <-]. unfold sector_row.
      destruct (truthy (current_state st)); [|exact Hsame].
      destruct (PyStr.mem _ _); [|exact Hsame].
      destruct (build_record _ _ _ _ _ _) as [rec|]; [|exact Hsame].
      exists [rec]. simpl. auto.
Qed.

Lemma classify_rows_appends (rows : list row) (st st' : Classifier) :
  classify_rows cols date region rows st = Ok st' ->
  exists new, result_data st' = result_data st ++ new
              /\ (List.length new <= List.length rows)%nat.
Proof.
  revert st. induction rows as [|r rows IH]; intros st; simpl.
  - intros [= <-]. exists []. rewrite app_nil_r. simpl. auto.
  - destruct (classify_row cols date region r st) as [st1|e] eqn:Hrow;
      cbn [bind]; [|discriminate].
    intros Hrest.
    destruct (classify_row_appends r st st1 Hrow) as (n1 & E1 & L1).
    destruct (IH st1 Hrest) as (n2 & E2 & L2).
    exists (n1 ++ n2). rewrite E2, E1, <- app_assoc. split; [reflexivity|].
    rewrite length_app. lia.
Qed.

(** A row without a state cell or a sector cell stops the loop. *)
Lemma classify_rows_short (rows : list row) (r : row) (st : Classifier) :
  In r rows -> short_row cols r ->
  exists e, classify_rows cols date region rows st = Raise e.
Proof.
  revert st. induction rows as [|r0 rows IH]; intros st Hin Hshort; [easy|].
  simpl. destruct Hin as [->|Hin].
  - unfold classify_row, iloc.
    destruct Hshort as [H|H]; apply nth_error_None in H.
    + rewrite H. cbn [bind]. eauto.
    + destruct (nth_error r (state_col cols)); cbn [bind]; [|eauto].
      rewrite H. cbn [bind]. eauto.
  - destruct (classify_row cols date region r0 st) as [st1|e]; cbn [bind];
      [|eauto].
    now apply IH.
Qed.

End ClassifierInvariants.

Lemma process_excel_file_classified (df : RawGrid) (date : option string)
    (region : string) :
  process_excel_file (Some df) date region = drop_regional (classified df date region).
Proof.
  unfold process_excel_file, classified.
  now destruct (classify_rows _ _ _ _ _).
Qed.

Lemma classified_sound (df : RawGrid) (date : option string) (region : string) :
  Forall (sound_record date region) (classified df date region).
Proof.
  unfold classified.
  destruct (classify_rows _ _ _ _ _) as [st|e] eqn:Hc; [|constructor].
  eapply classify_rows_sound in Hc; [apply Hc| |constructor].
  intros s Hs. discriminate Hs.
Qed.

(** X8. What every record of the frame of a sheet satisfies.  Its Date and
    Region are the ones the file was processed with, its Sector is State,
    Private or Central, and its State is a text the classifier accepted as
    a state name: not empty, not ["nan"], not a run of digits, not the name
    of one of the five regions in any letter case, not a URL, not a
    "Total of" line, and different from the Region. *)
Theorem frame_records_sound (df : RawGrid) (date : option string)
    (region : string) (rec : CapacityRecord) :
  In rec (process_excel_file (Some df) date region) ->
  Date rec = date /\ Region rec = region /\
  In (Sector rec) ["State"; "Private"; "Central"] /\
  State rec <> "" /\ State rec <> "nan" /\
  PyStr.isdigit (State rec) = false /\
  PyStr.mem (PyStr.upper (State rec)) region_names = false /\
  PyStr.startswith "http" (State rec) = false /\
  PyStr.contains "Total of" (State rec) = false /\
  PyStr.contains "TOTAL OF" (PyStr.upper (State rec)) = false /\
  State rec <> Region rec.
Proof.
  intros Hin.
  assert (Hne : State rec <> Region rec).
  { pose proof (drop_regional_state_ne_region (classified df date region)) as H.
    rewrite <- process_excel_file_classified in H.
    rewrite Forall_forall in H. now apply H. }
  rewrite process_excel_file_classified in Hin.
  apply drop_regional_incl in Hin.
  pose proof (classified_sound df date region) as H.
  rewrite Forall_forall in H.
  destruct (H rec Hin) as (Hd & Hr & [Hs Hn] & Hsec).
  destruct (no_sector_row_assign _ _ Hn) as (_ & H1 & H2 & H3 & H4 & H5 & H6).
  auto 12.
Qed.

Lemma frame_records_sound_witness :
  Forall (fun rec => Region rec = "Northern" /\ State rec <> "")
         (process_excel_file (Some delhi_sheet) None "Northern").
Proof.
  apply Forall_forall. intros rec Hin.
  destruct (frame_records_sound delhi_sheet None "Northern" rec Hin)
    as (_ & Hr & _ & Hs & _).
  split; [exact Hr|exact Hs].
Defined.

Lemma filter_all {A : Type} (f : A -> bool) (l : list A) :
  (forall x, In x l -> f x = true) -> filter f l = l.
Proof.
  induction l as [|a l IH]; intros H; [reflexivity|]. simpl.
  rewrite (H a) by now left. f_equal. apply IH. intros x Hx. apply H. now right.
Qed.

(** X9. For a region whose name in capitals is one of the five region
    names, as the five regions of the program are, the filter on State and
    Region at the end of [process_excel_file] removes nothing: the frame is
    the list of the records the row loop appended, since the loop never
    carries a region name as a state. *)
Theorem regional_filter_removes_nothing (df : RawGrid) (date : option string)
    (region : string) :
  PyStr.mem (PyStr.upper region) region_names = true ->
  process_excel_file (Some df) date region = classified df date region.
Proof.
  intros Hregion. rewrite process_excel_file_classified.
  pose proof (classified_sound df date region) as H.
  rewrite Forall_forall in H.
  destruct (classified df date region) as [|a l] eqn:E; [reflexivity|].
  unfold drop_regional. apply filter_all. intros rec Hin.
  destruct (H rec Hin) as (_ & Hr & [_ Hn] & _).
  destruct (no_sector_row_assign _ _ Hn) as (_ & _ & _ & _ & _ & H5 & _).
  apply negb_true_iff, String.eqb_neq. intros Heq.
  rewrite Heq, Hr, Hregion in H5. discriminate.
Qed.

Lemma regional_filter_removes_nothing_witness :
  process_excel_file (Some delhi_sheet) None "North Eastern"
  = classified delhi_sheet None "North Eastern".
Proof.
  exact (regional_filter_removes_nothing delhi_sheet None "North Eastern" eq_refl).
Defined.

(** X10. One row too short empties the frame.  When a row at or below the
    start row has no cell in the state column or in the sector column,
    reading that cell raises, the exception is caught around the whole of
    [process_excel_file], and the frame is empty whatever records the rows
    above had given. *)
Theorem short_row_empties_frame (df : RawGrid) (date : option string)
    (region : string) (r : row) :
  In r (skipn (start_row (locate_headers df)) df) ->
  short_row (locate_headers df) r ->
  process_excel_file (Some df) date region = [].
Proof.
  intros Hin Hshort. unfold process_excel_file.
  destruct (classify_rows_short (locate_headers df) date region _ r
              (mkClassifier None []) Hin Hshort) as [e ->].
  reflexivity.
Qed.

Lemma short_row_empties_frame_witness :
  process_excel_file (Some one_column_grid) None "Northern" = [].
Proof.
  apply (short_row_empties_frame one_column_grid None "Northern"
           [Some "Delhi"]).
  - vm_compute. auto.
  - right. vm_compute. repeat constructor.
Defined.

(** X11. A frame has at most one record for each row at or below the start
    row, and none when the sheet ends at the header. *)
Theorem frame_length_bound (df : RawGrid) (date : option string)
    (region : string) :
  (List.length (process_excel_file (Some df) date region)
   <= List.length df - start_row (locate_headers df))%nat.
Proof.
  rewrite process_excel_file_classified.
  assert (H1 : (List.length (drop_regional (classified df date region))
                <= List.length (classified df date region))%nat).
  { destruct (classified df date region) as [|a l]; [simpl; lia|].
    unfold drop_regional. apply filter_length_le. }
  assert (H2 : (List.length (classified df date region)
                <= List.length df - start_row (locate_headers df))%nat).
  { unfold classified.
    destruct (classify_rows _ _ _ _ _) as [st|e] eqn:Hc; [|simpl; lia].
    apply classify_rows_appends in Hc. destruct Hc as (new & E & L).
    cbn [result_data app] in E. rewrite E. now rewrite length_skipn in L. }
  lia.
Qed.

(** ** Where the located columns are *)

Lemma hd_error_map_in {A B : Type} (g : A -> B) (l : list A) (b : B) :
  hd_error (map g l) = Some b -> exists a, In a l /\ g a = b.
Proof.
  destruct l as [|a l]; [discriminate|]. simpl. intros [= <-].
  exists a. auto.
Qed.

Lemma last_in_or_default {A : Type} (l : list A) (d : A) :
  last l d = d \/ In (last l d) l.
Proof.
  destruct l as [|a l]; [now left|]. right.
  revert a. induction l as [|b l IH]; intros a; [now left|].
  change (last (a :: b :: l) d) with (last (b :: l) d).
  right. apply IH.
Qed.

Lemma scanned_cell_in_grid (df : RawGrid) (x : scanned) :
  In x (scanned_cells df) ->
  exists r, (cell_row x < 15)%nat /\ nth_error df (cell_row x) = Some r
            /\ (cell_col x < List.length r)%nat.
Proof.
  intros Hin. apply in_scanned_cells in Hin.
  destruct Hin as (i & r & k & s & Hi & Hr & Hk & ->).
  exists r. cbn. repeat split; auto.
  apply nth_error_Some. congruence.
Qed.

Lemma list_max_bound (l : list nat) (b : nat) :
  (forall j, In j l -> j <= b)%nat -> (list_max l <= b)%nat.
Proof.
  induction l as [|a l IH]; intros H; simpl; [lia|].
  assert (a <= b)%nat by (apply H; now left).
  assert (list_max l <= b)%nat by (apply IH; intros j Hj; apply H; now right).
  unfold list_max in *. lia.
Qed.

(** X13. Where the Header Locator points.  Every fuel or total column it
    finds, and the sector column when found by its label, is the position
    of a cell of one of the first 15 rows, so it lies inside that row; the
    state column is such a position too, or the default 1.  Every recorded
    header row is one of the first 15 rows of the sheet, so the data start
    at a row between 1 and 15. *)
Theorem located_columns_in_bounds (df : RawGrid) :
  (forall f c, get_col f (locate_headers df) = Some c ->
     exists i r, (i < 15)%nat /\ nth_error df i = Some r
                 /\ (c < List.length r)%nat) /\
  (forall c, sector_col (locate_headers df) = Some c ->
     exists i r, (i < 15)%nat /\ nth_error df i = Some r
                 /\ (c < List.length r)%nat) /\
  (state_col (locate_headers df) = 1%nat \/
   exists i r, (i < 15)%nat /\ nth_error df i = Some r
               /\ (state_col (locate_headers df) < List.length r)%nat) /\
  (forall j, In j (header_rows (locate_headers df)) ->
     (j < 15)%nat /\ (j < List.length df)%nat) /\
  (1 <= start_row (locate_headers df) <= 15)%nat.
Proof.
  assert (Hcell : forall x, In x (scanned_cells df) ->
            exists i r, (i < 15)%nat /\ nth_error df i = Some r
                        /\ (cell_col x < List.length r)%nat).
  { intros x Hx. destruct (scanned_cell_in_grid df x Hx) as (r & H1 & H2 & H3).
    eauto. }
  assert (Hrows : forall j, In j (header_rows (locate_headers df)) ->
            (j < 15)%nat /\ (j < List.length df)%nat).
  { intros j Hj. rewrite locate_headers_fold in Hj.
    apply fold_header_rows_labelled in Hj.
    destruct Hj as [[]|(x & Hx & <- & _)].
    destruct (scanned_cell_in_grid df x Hx) as (r & H1 & H2 & _).
    split; [exact H1|]. apply nth_error_Some. congruence. }
  split; [|split; [|split; [|split]]].
  - intros f c Hf. rewrite locate_headers_fold, fold_get_col in Hf.
    replace (get_col f initial_columns) with (@None nat) in Hf
      by now destruct f.
    apply hd_error_map_in in Hf. destruct Hf as (x & Hx & <-).
    apply filter_In in Hx. now apply Hcell.
  - intros c Hc. rewrite locate_headers_fold, fold_sector_col in Hc.
    cbn [sector_col initial_columns] in Hc.
    destruct (last_in_or_default
                (map (fun x => Some (cell_col x))
                     (filter is_sector_label (scanned_cells df))) None)
      as [H|H]; [congruence|].
    rewrite Hc in H. apply in_map_iff in H.
    destruct H as (x & [= <-] & Hx). apply filter_In in Hx. now apply Hcell.
  - rewrite locate_headers_fold, fold_state_col.
    cbn [state_col initial_columns].
    destruct (last_in_or_default
                (map cell_col (filter is_state_label (scanned_cells df))) 1%nat)
      as [H|H]; [now left|].
    right. apply in_map_iff in H. destruct H as (x & Hx & Hin).
    rewrite <- Hx. apply filter_In in Hin. now apply Hcell.
  - exact Hrows.
  - unfold start_row.
    destruct (header_rows (locate_headers df)) as [|a l] eqn:E; [lia|].
    assert (list_max (a :: l) <= 14)%nat.
    { apply list_max_bound. intros j Hj. apply Hrows in Hj. lia. }
    lia.
Qed.

(** ** Downloads *)

Lemma download_attempts_protocol (w : World) (url : string)
    (remaining attempt : nat) :
  (1 <= remaining)%nat ->
  exists n,
    (1 <= n <= remaining)%nat /\
    snd (download_attempts w url attempt remaining)
      = map (Get url) (seq attempt n) /\
    (forall k, (k < n - 1)%nat -> get w url (attempt + k) = RequestException) /\
    match fst (download_attempts w url attempt remaining) with
    | Some content => get w url (attempt + (n - 1)) = Saved content
    | None =>
        get w url (attempt + (n - 1)) = OtherException
        \/ (n = remaining /\ get w url (attempt + (n - 1)) = RequestException)
    end.
Proof.
  revert attempt. induction remaining as [|rem IH]; intros attempt Hrem; [lia|].
  cbn [download_attempts].
  destruct (get w url attempt) as [content| |] eqn:G.
  - exists 1%nat. cbn. rewrite Nat.add_0_r. repeat split; auto; lia.
  - destruct rem as [|rem'].
    + cbn. exists 1%nat. cbn. rewrite Nat.add_0_r.
      repeat split; auto; try lia.
    + destruct (IH (S attempt) ltac:(lia)) as (n & Hn & Hlog & Hfail & Hlast).
      destruct (download_attempts w url (S attempt) (S rem')) as [r log].
      cbn [fst snd] in *. exists (S n). split; [lia|]. split.
      * cbn [seq map]. now rewrite Hlog.
      * split.
        -- intros [|k] Hk; [now rewrite Nat.add_0_r|].
           replace (attempt + S k)%nat with (S attempt + k)%nat by lia.
           apply Hfail. lia.
        -- replace (attempt + (S n - 1))%nat with (S attempt + (n - 1))%nat
             by lia.
           destruct r; [exact Hlast|].
           destruct Hlast as [H|[H1 H2]]; [now left|right].
           split; [lia|exact H2].
  - exists 1%nat. cbn. rewrite Nat.add_0_r. repeat split; auto; lia.
Qed.

(** X14. The retries of a download.  [download_excel_file] makes between
    one and three requests on the URL, numbered from 0 in order; every
    request before the last one met a [RequestException]; it reports
    success exactly when the last request saved the file, and failure when
    the last request met another exception, after which it does not retry,
    or when the third request met a [RequestException] too. *)
Theorem download_retries (w : World) (url : string) :
  exists n,
    (1 <= n <= 3)%nat /\
    snd (download_excel_file w url) = map (Get url) (seq 0 n) /\
    (forall k, (k < n - 1)%nat -> get w url k = RequestException) /\
    match fst (download_excel_file w url) with
    | Some content => get w url (n - 1) = Saved content
    | None =>
        get w url (n - 1) = OtherException
        \/ (n = 3%nat /\ get w url 2 = RequestException)
    end.
Proof.
  destruct (download_attempts_protocol w url 3 0 ltac:(lia))
    as (n & Hn & Hlog & Hfail & Hlast).
  exists n. split; [exact Hn|]. split; [exact Hlog|]. split; [exact Hfail|].
  unfold download_excel_file. cbn [Nat.add] in Hlast.
  destruct (fst (download_attempts w url 0 3)); [exact Hlast|].
  destruct Hlast as [H|[-> H]]; [now left|right]. now split.
Qed.

Lemma download_log_length (w : World) (url : string) :
  (List.length (snd (download_excel_file w url)) <= 3)%nat /\
  forallb is_get (snd (download_excel_file w url)) = true.
Proof.
  destruct (download_attempts_protocol w url 3 0 ltac:(lia))
    as (n & Hn & Hlog & _).
  unfold download_excel_file. rewrite Hlog, length_map, length_seq.
  split; [lia|]. apply forallb_forall. intros e He.
  apply in_map_iff in He. now destruct He as (k & <- & _).
Qed.

(** ** A month as the concatenation of its regions *)

Section Concatenation.

Context {aggregation : Aggregation}.

Lemma fold_fetch_region_concat (w : World)
    (urls : list (string * string * string)) (m : Month) :
  monthly_data (fold_left (fetch_region w) urls m)
    = monthly_data m ++ flat_map (target_frame w) urls /\
  month_log (fold_left (fetch_region w) urls m)
    = month_log m ++ flat_map (target_log w) urls.
Proof.
  revert m. induction urls as [|[[url filename] region] urls IH]; intros m.
  - simpl. now rewrite !app_nil_r.
  - cbn [fold_left flat_map]. destruct (IH (fetch_region w m (url, filename, region)))
      as [H1 H2].
    rewrite H1, H2. unfold fetch_region, target_frame, target_log. cbn [fst snd].
    destruct (download_excel_file w url) as [[content|] log]; cbn [fst snd];
      cbn [monthly_data month_log].
    + rewrite concat_nonempty_app, <- !app_assoc. auto.
    + rewrite <- app_assoc. auto.
Qed.

Lemma month_is_concatenation_aux (w : World)
    (urls : list (string * string * string)) :
  monthly_data (fetch_regions w urls) = flat_map (target_frame w) urls /\
  month_log (fetch_regions w urls) = flat_map (target_log w) urls.
Proof. apply (fold_fetch_region_concat w urls (mkMonth [] 0 [])). Qed.

(** X15. The frame of a month before the roll-up is the concatenation, in
    the order of the targets, of what each target contributes: the frame
    of its file when its download succeeds (which may be empty) and
    nothing when it fails.  The requests of the loop are those of the
    downloads in the same order, and the counter is the number of targets
    whose download succeeded. *)
Theorem month_is_concatenation (w : World)
    (urls : list (string * string * string)) :
  monthly_data (fetch_regions w urls) = flat_map (target_frame w) urls /\
  month_log (fetch_regions w urls) = flat_map (target_log w) urls /\
  successful_downloads (fetch_regions w urls)
    = List.length (filter (downloaded w) urls).
Proof.
  unfold fetch_regions.
  destruct (fold_fetch_region_concat w urls (mkMonth [] 0 [])) as [H1 H2].
  split; [exact H1|]. split; [exact H2|].
  now rewrite fold_fetch_region_downloads.
Qed.

(** ** The master table as the concatenation of the months *)

Lemma process_month_eq (w : World) (acc : Master) (ym : string * string) :
  process_month w acc ym =
  mkMaster (all_data acc ++ month_table w (fst ym) (snd ym))
           (master_log acc ++ month_requests w ym).
Proof.
  destruct ym as [year month].
  unfold process_month, month_table, month_requests. cbn [fst snd].
  destruct (process_month_data w year month) as [[t|e] log]; cbn [fst snd].
  - now rewrite concat_nonempty_app.
  - now rewrite app_nil_r.
Qed.

Lemma fold_process_month_concat (w : World)
    (date_range : list (string * string)) (acc : Master) :
  fold_left (process_month w) date_range acc =
  mkMaster
    (all_data acc
     ++ flat_map (fun ym => month_table w (fst ym) (snd ym)) date_range)
    (master_log acc ++ flat_map (month_requests w) date_range).
Proof.
  revert acc. induction date_range as [|ym l IH]; intros acc.
  - simpl. rewrite !app_nil_r. now destruct acc.
  - cbn [fold_left flat_map]. rewrite IH, process_month_eq.
    cbn [all_data master_log]. now rewrite <- !app_assoc.
Qed.

(** X16. The master table is the concatenation of the tables of the months
    of the range, in order, a month that raises contributing nothing, and
    the requests of the run are those of the months in order.  So a range
    cut in two gives the table of the first part followed by the table of
    the second, and [main] gives this for the months from January 2018 to
    July 2025. *)
Theorem master_is_concatenation (w : World)
    (date_range more : list (string * string)) :
  all_data (process_months w date_range)
    = flat_map (fun ym => month_table w (fst ym) (snd ym)) date_range /\
  master_log (process_months w date_range)
    = flat_map (month_requests w) date_range /\
  all_data (process_months w (date_range ++ more))
    = all_data (process_months w date_range)
      ++ all_data (process_months w more) /\
  all_data (main w)
    = flat_map (fun ym => month_table w (fst ym) (snd ym)) main_date_range.
Proof.
  assert (H : forall l, process_months w l =
            mkMaster (flat_map (fun ym => month_table w (fst ym) (snd ym)) l)
                     (flat_map (month_requests w) l)).
  { intros l. unfold process_months. now rewrite fold_process_month_concat. }
  rewrite main_eq, !H. cbn [all_data master_log].
  repeat split. apply flat_map_app.
Qed.

(** ** The requests of a month *)

Lemma flat_map_length_bound {A B : Type} (f : A -> list B) (b : nat) (l : list A) :
  (forall x, In x l -> List.length (f x) <= b)%nat ->
  (List.length (flat_map f l) <= List.length l * b)%nat.
Proof.
  induction l as [|a l IH]; intros H; simpl; [lia|].
  rewrite length_app.
  assert (List.length (f a) <= b)%nat by (apply H; now left).
  assert (List.length (flat_map f l) <= List.length l * b)%nat
    by (apply IH; intros x Hx; apply H; now right).
  lia.
Qed.

Lemma forallb_flat_map {A B : Type} (p : B -> bool) (f : A -> list B) (l : list A) :
  (forall x, In x l -> forallb p (f x) = true) ->
  forallb p (flat_map f l) = true.
Proof.
  induction l as [|a l IH]; intros H; simpl; [reflexivity|].
  rewrite forallb_app, (H a) by now left.
  apply IH. intros x Hx. apply H. now right.
Qed.

(** X17. The requests of a month.  For a month abbreviation of the table,
    [process_month_data] makes one probe, before anything else, and then
    only download requests, at most 15 of them (three for each of the five
    regions), and none when the probe fails.  For an abbreviation outside
    the table it raises [KeyError] without any request, and the loop of
    [main] then leaves the master table as it is. *)
Theorem month_requests_budget (w : World) (year month : string) :
  (forall mm, dict_get month_num month = Ok mm ->
     exists url gets,
       snd (process_month_data w year month) = Head url :: gets /\
       url = file_url year month (file_name "Northern" year mm) /\
       forallb is_get gets = true /\
       (List.length gets <= 15)%nat /\
       (head_ok w url = false -> gets = [])) /\
  (forall e, dict_get month_num month = Raise e ->
     process_month_data w year month = (Raise e, []) /\
     forall acc, all_data (process_month w acc (year, month)) = all_data acc
                 /\ master_log (process_month w acc (year, month))
                    = master_log acc).
Proof.
  split.
  - intros mm Hmm. unfold process_month_data, check_data_availability.
    rewrite Hmm, (generate_urls_eq _ _ _ Hmm).
    set (url := file_url year month (file_name "Northern" year mm)).
    set (urls := map _ regions).
    destruct (head_ok w url) eqn:Hhead.
    + exists url, (month_log (fetch_regions w urls)). cbn [snd app].
      split; [reflexivity|]. split; [reflexivity|].
      destruct (month_is_concatenation_aux w urls) as [_ Hlog].
      rewrite Hlog. split; [|split; [|intros H; congruence]].
      * apply forallb_flat_map. intros t _. apply download_log_length.
      * assert (Hlen : List.length urls = 5%nat)
          by (unfold urls; now rewrite length_map).
        pose proof (flat_map_length_bound (target_log w) 3 urls) as Hb.
        rewrite Hlen in Hb. apply Hb. intros t _. apply download_log_length.
    + exists url, []. cbn [snd]. repeat split; auto. simpl. lia.
  - intros e He.
    assert (Hp : process_month_data w year month = (Raise e, [])).
    { unfold process_month_data, check_data_availability. now rewrite He. }
    split; [exact Hp|]. intros acc. unfold process_month. rewrite Hp.
    cbn [all_data master_log]. now rewrite app_nil_r.
Qed.

End Concatenation.

(** ** The further statements on the sample inputs *)

Lemma generate_urls_targets_witness :
  dict_get month_num "JUN" = Ok "06" /\
  extract_region_from_filename (file_name "Southern" (str_int 2025) "06")
    = "Southern" /\
  extract_date_from_filename (file_name "Southern" (str_int 2025) "06")
    = Some (last_day_date (str_int 2025) "06" 2025 6).
Proof.
  destruct (generate_urls_targets "2025" "JUN" offline_world) as [_ H].
  destruct (H "06" eq_refl) as (urls & m & Hurls & _ & _ & Hm & _ & Hall).
  injection Hm as <-.
  assert (Hin : In (file_url "2025" "JUN" (file_name "Southern" "2025" "06"),
                    file_name "Southern" "2025" "06", "Southern") urls).
  { injection Hurls as <-. simpl. auto 10. }
  destruct (Hall _ _ _ Hin) as (_ & _ & Hback).
  assert (Hy : (0 <= 2025)%Z) by discriminate.
  destruct (Hback 2025%Z Hy eq_refl) as [Hr Hd].
  split; [reflexivity|]. split; [exact Hr|exact Hd].
Defined.

Lemma located_columns_in_bounds_witness :
  (1 <= start_row (locate_headers delhi_sheet) <= 15)%nat /\
  exists i r, (i < 15)%nat /\ nth_error delhi_sheet i = Some r
              /\ (3 < List.length r)%nat.
Proof.
  destruct (located_columns_in_bounds delhi_sheet) as (Hcol & _ & _ & _ & Hstart).
  split; [exact Hstart|]. exact (Hcol FCoal 3%nat eq_refl).
Defined.

(** Two failures and a success: three requests, and the file is there. *)
Example download_at_third_attempt :
  download_excel_file third_time_world "u"
  = (Some (Some delhi_sheet), [Get "u" 0; Get "u" 1; Get "u" 2]).
Proof. reflexivity. Qed.
(** * The statements on sample inputs *)

(** ** The sequential aggregation keeps non-negative numbers non-negative *)

Lemma nansum_nonneg (l : list float) :
  Forall (fun x => Binary64.nonneg x = true) l ->
  Binary64.nonneg (Sequential.nansum l) = true.
Proof.
  unfold Sequential.nansum.
  assert (H : forall acc, Binary64.nonneg acc = true ->
            Forall (fun x => Binary64.nonneg x = true) l ->
            Binary64.nonneg
              (fold_left (fun acc x => if Binary64.is_nan x then acc
                                       else Binary64.add acc x) l acc) = true).
  { induction l as [|x l IH]; intros acc Hacc Hl; [exact Hacc|].
    apply Forall_cons_iff in Hl. destruct Hl as [Hx Hl]. simpl.
    apply IH; [|exact Hl].
    destruct (Binary64.is_nan x); [exact Hacc|now apply add_nonneg]. }
  now apply H.
Qed.

Lemma mul_finite_nonneg (x : float) (m : positive) (e : Z) :
  Binary64.nonneg x = true ->
  Binary64.nonneg (Binary64.mul x (S754_finite false m e)) = true.
Proof.
  intros Hx.
  destruct x as [[|]|[|]| |[|] mx ex]; try discriminate Hx; try reflexivity.
  apply has_sign_nonneg. unfold Binary64.mul, SFmul.
  apply binary_round_aux_sign. lia.
Qed.

Lemma div_finite_nonneg (x : float) (m : positive) (e : Z) :
  Binary64.nonneg x = true ->
  Binary64.nonneg (Binary64.div x (S754_finite false m e)) = true.
Proof.
  intros Hx.
  destruct x as [[|]|[|]| |[|] mx ex]; try discriminate Hx; try reflexivity.
  apply has_sign_nonneg. unfold Binary64.div, SFdiv, SFdiv_core_binary.
  set (s := (ex - e - _)%Z).
  set (m' := match s with
             | Zpos _ => Z.shiftl (Zpos mx) s
             | Z0 => Zpos mx
             | Zneg _ => 0%Z
             end).
  assert (Hm' : (0 <= m')%Z).
  { unfold m'. destruct s; try lia. apply Z.shiftl_nonneg. lia. }
  assert (Hq : (0 <= fst (Z.div_eucl m' (Zpos m)))%Z).
  { change (fst (Z.div_eucl m' (Zpos m))) with (m' / Zpos m)%Z.
    apply Z.div_pos; lia. }
  destruct (Z.div_eucl m' (Zpos m)) as [q r]. cbn [fst] in Hq.
  now apply binary_round_aux_sign.
Qed.

Lemma rint_nonneg (x : float) :
  Binary64.nonneg x = true -> Binary64.nonneg (Sequential.rint x) = true.
Proof.
  intros Hx.
  destruct x as [[|]|[|]| |[|] mx ex]; try discriminate Hx; try reflexivity.
  unfold Sequential.rint. destruct (0 <=? ex)%Z; [reflexivity|].
  set (q := Z.shiftr (Zpos mx) (- ex)).
  assert (Hq : (0 <= q)%Z) by (apply Z.shiftr_nonneg; lia).
  set (k := match (_ ?= _)%Z with Lt => q | Gt => (q + 1)%Z | Eq => _ end).
  assert (Hk : (0 <= k)%Z).
  { unfold k. destruct (_ ?= _)%Z; try lia. destruct (Z.even q); lia. }
  destruct k as [|p|p]; [reflexivity| |lia].
  apply has_sign_nonneg. apply binary_round_sign.
Qed.

Lemma round2_nonneg (x : float) :
  Binary64.nonneg x = true -> Binary64.nonneg (Sequential.round2 x) = true.
Proof.
  intros Hx. unfold Sequential.round2.
  assert (H : exists m e, Binary64.of_Z 100 = S754_finite false m e)
    by (vm_compute; eauto).
  destruct H as (m & e & ->).
  now apply div_finite_nonneg, rint_nonneg, mul_finite_nonneg.
Qed.

Lemma sequential_keeps_nonneg : keeps_nonneg sequential.
Proof.
  repeat split.
  - apply nansum_nonneg.
  - apply nansum_nonneg.
  - apply round2_nonneg.
Qed.

#[local] Existing Instance sequential.

(** ** The rows of the sample sheets *)

Lemma build_record_coal cols date region name sector r rec :
  build_record cols date region name sector r = Ok rec ->
  Coal rec = cell_value (coal_col cols) r.
Proof.
  intros Hb. apply build_record_inv in Hb. now destruct Hb as [sname ->].
Qed.

(** ** C1 *)

(** C1.  June 2025, with three files downloaded: the Northern file gives
    one record, the Eastern file cannot be read and the Western file is
    empty.  A single region has yielded data, but the counter of the gate
    is 3, and the table of the month holds the roll-up lines of All India
    after the record of the Northern region.  With three files downloaded
    of which none gives a record, there is no roll-up line. *)
Theorem C1_single_region_roll_up :
  regions_with_data one_region_world june_2025_urls = 1%nat /\
  successful_downloads (fetch_regions one_region_world june_2025_urls) = 3%nat /\
  has_all_india (month_table one_region_world "2025" "JUN") = true /\
  map Region (month_table one_region_world "2025" "JUN")
    = ["Northern"; "All India"; "All India"] /\
  map Sector (month_table one_region_world "2025" "JUN")
    = ["State"; "State"; "Total"] /\
  ~ (has_all_india (month_table one_region_world "2025" "JUN") = true <->
     (3 <= regions_with_data one_region_world june_2025_urls)%nat) /\
  List.length (filter (downloaded no_data_world) june_2025_urls) = 3%nat /\
  has_all_india (month_table no_data_world "2025" "JUN") = false.
Proof.
  assert (H1 : has_all_india (month_table one_region_world "2025" "JUN") = true)
    by (vm_compute; reflexivity).
  assert (H2 : regions_with_data one_region_world june_2025_urls = 1%nat)
    by (vm_compute; reflexivity).
  split; [exact H2|]. split; [vm_compute; reflexivity|].
  split; [exact H1|]. split; [vm_compute; reflexivity|].
  split; [vm_compute; reflexivity|]. split.
  - rewrite H2. intros [H _]. specialize (H H1). lia.
  - split; vm_compute; reflexivity.
Qed.

(** ** C2 *)

Lemma june_2025_urls_eq :
  generate_urls_for_month_year "2025" "JUN" = Ok june_2025_urls.
Proof. reflexivity. Qed.

Lemma C2_thermal_total_recomputed_witness :
  let t := month_table three_fuels_world "2025" "JUN" in
  thermal_exact (nth 0 t blank_record) /\
  (forall c, value c (nth 3 t blank_record) =
             round2 (group_sum (map (value c) (group "State" three_fuels_records)))) /\
  (forall c, value c (nth 4 t blank_record) =
             frame_sum (map (fun s => round2 (group_sum
                                         (map (value c)
                                              (group s three_fuels_records))))
                            (group_keys three_fuels_records))).
Proof.
  intros t.
  destruct C2_thermal_total_recomputed as (_ & Hrow & Hroll).
  assert (Hm : process_month_data three_fuels_world "2025" "JUN" =
               (Ok t, snd (process_month_data three_fuels_world "2025" "JUN")))
    by (vm_compute; reflexivity).
  split; [|split].
  - apply (Hrow _ _ _ _ _ (nth 0 t blank_record) Hm);
      [vm_compute; tauto|vm_compute; discriminate].
  - destruct (Hroll _ _ _ _ _ (nth 3 t blank_record) Hm)
      as (urls & Hurls & _ & H & _);
      [vm_compute; tauto|vm_compute; reflexivity|].
    rewrite june_2025_urls_eq in Hurls. injection Hurls as <-.
    apply H. vm_compute. discriminate.
  - destruct (Hroll _ _ _ _ _ (nth 4 t blank_record) Hm)
      as (urls & Hurls & _ & _ & H);
      [vm_compute; tauto|vm_compute; reflexivity|].
    rewrite june_2025_urls_eq in Hurls. injection Hurls as <-.
    apply H. vm_compute. reflexivity.
Defined.

(** Three regions report 0.004 MW each, in Coal, in Lignite and in Gas: the
    State line of the roll-up has Thermal Total 0.01, and Coal, Lignite,
    Gas and Diesel 0.0, which add up to 0.0. *)
Lemma C2_roll_up_rounding_counterexample :
  exists rec,
    In rec (month_table three_fuels_world "2025" "JUN") /\
    Region rec = "All India" /\ Sector rec = "State" /\
    PyFloat.py_float "0.01" = Ok (ThermalTotal rec) /\
    add4 (Coal rec) (Lignite rec) (Gas rec) (Diesel rec) = Binary64.zero /\
    ThermalTotal rec <> add4 (Coal rec) (Lignite rec) (Gas rec) (Diesel rec).
Proof.
  exists (nth 3 (month_table three_fuels_world "2025" "JUN") blank_record).
  split; [vm_compute; tauto|]. vm_compute. repeat split; discriminate.
Qed.

(** ** C3 *)

Lemma C3_total_is_source_or_sum_witness :
  let rec := nth 0 (process_excel_file (Some grand_total_sheet) None "Northern")
               blank_record in
  In rec (process_excel_file (Some grand_total_sheet) None "Northern") /\
  PyFloat.py_float "2500.5" = Ok (Total rec) /\
  PyFloat.py_float "2500.0"
    = Ok (add4 (ThermalTotal rec) (Nuclear rec) (Hydro rec) (RES rec)).
Proof.
  intros rec.
  assert (Hin : In rec (process_excel_file (Some grand_total_sheet) None
                          "Northern")) by (vm_compute; tauto).
  split; [exact Hin|]. split; [|vm_compute; reflexivity].
  destruct (C3_total_is_source_or_sum grand_total_sheet None "Northern" rec Hin)
    as (r & name & sector & Hr & Hb & Hcell & _ & _).
  apply build_record_coal in Hb.
  assert (Hg : PyFloat.py_float (PyStr.strip "2500.5")
               = Ok (S754_finite false 5498657650507776 (-41)))
    by (vm_compute; reflexivity).
  destruct Hr as [<-|[<-|[<-|[]]]]; vm_compute in Hb; try discriminate Hb.
  rewrite (Hcell "2500.5" _
             (ex_intro _ 11%nat (conj eq_refl (conj eq_refl eq_refl))) Hg).
  vm_compute. reflexivity.
Defined.

(** ** C4 *)

Lemma C4_state_differs_from_region_witness :
  Forall (fun rec => State rec <> Region rec)
         (all_data (process_months one_region_world [("2025", "JUN")])).
Proof.
  apply Forall_forall. intros rec Hin.
  exact (proj1 (proj2 (C4_state_differs_from_region one_region_world))
           [("2025", "JUN")] rec Hin).
Defined.

(** ** C5 *)

Lemma delhi_sheet_nonneg : nonneg_grid delhi_sheet.
Proof.
  intros r v Hr Hv. vm_compute in Hr.
  destruct Hr as [<-|[<-|[<-|[]]]]; vm_compute in Hv;
    repeat (destruct Hv as [<-|Hv]; [vm_compute; reflexivity|]);
    destruct Hv.
Qed.

Lemma one_region_world_nonneg : nonneg_world one_region_world.
Proof.
  intros url attempt df. unfold one_region_world, serving. cbn [get find fst snd].
  destruct (june_2025 "Northern" =? url).
  - intros [= <-]. apply delhi_sheet_nonneg.
  - destruct (june_2025 "Eastern" =? url); [discriminate|].
    destruct (june_2025 "Western" =? url); [|discriminate].
    intros [= <-]. intros r v [].
Qed.

Lemma C5_non_negative_fields_witness :
  let rec := nth 0 (process_excel_file (Some delhi_sheet) None "Northern")
               blank_record in
  In rec (process_excel_file (Some delhi_sheet) None "Northern") /\
  PyFloat.py_float "100.0" = Ok (Coal rec) /\
  nonneg_record rec /\
  Forall nonneg_record
    (all_data (process_months one_region_world [("2025", "JUN")])).
Proof.
  intros rec.
  destruct C5_non_negative_fields as [Hframe Hworld].
  destruct (Hworld one_region_world one_region_world_nonneg
              sequential_keeps_nonneg) as (_ & Hrange & _).
  assert (Hin : In rec (process_excel_file (Some delhi_sheet) None "Northern"))
    by (vm_compute; tauto).
  destruct (Hframe delhi_sheet None "Northern" rec Hin)
    as (r & name & sector & Hr & Hb & Hpass & Hnn).
  split; [exact Hin|]. split; [|split].
  - apply build_record_coal in Hb.
    assert (Hx : PyFloat.py_float (PyStr.strip "100.0")
                 = Ok (S754_finite false 7036874417766400 (-46)))
      by (vm_compute; reflexivity).
    destruct Hr as [<-|[<-|[<-|[]]]]; vm_compute in Hb; try discriminate Hb.
    assert (Hne : FCoal <> FTotal) by discriminate.
    change (PyFloat.py_float "100.0" = Ok (component FCoal rec)).
    rewrite (Hpass FCoal "100.0" _ Hne
               (ex_intro _ 3%nat (conj eq_refl (conj eq_refl eq_refl))) Hx).
    vm_compute. reflexivity.
  - apply Hnn. intros v Hv. exact (delhi_sheet_nonneg r v Hr Hv).
  - apply Forall_forall. intros rec0 Hin0.
    exact (Hrange [("2025", "JUN")] rec0 Hin0).
Defined.

(** A source cell that holds -5.0 gives a record with Coal, Thermal Total
    and Total of -5.0, in the frame of the file and in the table of the
    month. *)
Lemma C5_negative_cell_counterexample :
  exists rec,
    In rec (process_excel_file (Some negative_sheet) (Some "30-06-2025") "Northern") /\
    In rec (month_table negative_world "2025" "JUN") /\
    PyFloat.py_float "-5.0" = Ok (Coal rec) /\
    Binary64.negative (Coal rec) = true /\
    Binary64.negative (ThermalTotal rec) = true /\
    Binary64.negative (Total rec) = true /\
    ~ nonneg_record rec.
Proof.
  set (rec := nth 0 (month_table negative_world "2025" "JUN") blank_record).
  assert (H : Binary64.nonneg (Coal rec) = false) by (vm_compute; reflexivity).
  exists rec.
  split; [vm_compute; tauto|]. split; [vm_compute; tauto|].
  split; [vm_compute; reflexivity|]. split; [vm_compute; reflexivity|].
  split; [vm_compute; reflexivity|]. split; [vm_compute; reflexivity|].
  intros Hn. specialize (Hn CCoal). cbn [value] in Hn. congruence.
Qed.

(** ** C6 *)

Lemma C6_row_classifier_sequence_witness :
  state_col state_sector_columns = 0 /\
  sector_col state_sector_columns = Some 1 /\
  classify_rows state_sector_columns None "Western"
    [ [Some "Maharashtra"; None];
      [Some ""; Some "STATE SECTOR"; Some "100"];
      [Some ""; Some "PVT SECTOR"; Some "50"];
      [Some "Total of Maharashtra"; None];
      [Some "Gujarat"; None] ] (mkClassifier None []) =
  Ok (mkClassifier (Some "Gujarat")
        [ record_of state_sector_columns None "Western" "Maharashtra" "State"
            [Some ""; Some "STATE SECTOR"; Some "100"];
          record_of state_sector_columns None "Western" "Maharashtra" "Private"
            [Some ""; Some "PVT SECTOR"; Some "50"] ]).
Proof.
  split; [reflexivity|]. split; [reflexivity|].
  exact (proj1 (proj2 (C6_row_classifier_sequence state_sector_columns None
                         "Western" [] [] [] [] [] [] (mkClassifier None [])
                         eq_refl eq_refl))).
Defined.

(** ** C8 *)

Lemma C8_numeric_extraction_total_witness :
  nth_error text_in_coal_row 3 = Some (Some "n/a") /\
  reads_as_zero (Some "n/a") = true /\
  extract (Some 3) text_in_coal_row = Ok Binary64.zero /\
  extract (Some 7) text_in_coal_row = Ok Binary64.zero /\
  PyFloat.py_float "12.5" = extract (Some 4) text_in_coal_row /\
  exists rec,
    build_record initial_columns None "Northern" "Delhi" "State Sector"
      text_in_coal_row = Ok rec.
Proof.
  destruct (C8_numeric_extraction_total (Some 3) text_in_coal_row)
    as (_ & _ & _ & Hzero & _ & Hrec).
  destruct (C8_numeric_extraction_total (Some 7) text_in_coal_row)
    as (_ & _ & Hout & _ & _).
  destruct (C8_numeric_extraction_total (Some 4) text_in_coal_row)
    as (_ & _ & _ & _ & Hfloat & _).
  split; [reflexivity|]. split; [reflexivity|].
  split; [exact (Hzero 3 (Some "n/a") eq_refl eq_refl eq_refl)|].
  split; [apply (Hout 7 eq_refl); repeat constructor|].
  split; [|exact (Hrec initial_columns None "Northern" "Delhi" "State Sector"
                    eq_refl)].
  rewrite (Hfloat 4 "12.5" (S754_finite false 7036874417766400 (-49))
             eq_refl eq_refl eq_refl eq_refl).
  reflexivity.
Defined.

(** ** C9 *)

Lemma C9_unavailable_month_skipped_witness :
  process_month_data offline_world "2018" "JAN" =
    (Ok [], [Head (file_url "2018" "JAN" (file_name "Northern" "2018" "01"))]) /\
  main offline_world =
    fold_left (process_month offline_world) (tl main_date_range)
      (mkMaster [] [Head (file_url "2018" "JAN" (file_name "Northern" "2018" "01"))]).
Proof.
  destruct (C9_unavailable_month_skipped offline_world "2018" "JAN" []
              (tl main_date_range)
              [Head (file_url "2018" "JAN" (file_name "Northern" "2018" "01"))]
              eq_refl) as (H1 & _ & _ & H4).
  split; [exact H1|]. apply H4. vm_compute. reflexivity.
Defined.

(** ** The further statements *)

Lemma month_records_dated_witness :
  Forall (fun rec => Date rec = Some "30-06-2025")
         (month_table three_fuels_world "2025" "JUN").
Proof.
  apply Forall_forall. intros rec Hin.
  assert (Hy : (0 <= 2025)%Z) by discriminate.
  assert (Hp : process_month_data three_fuels_world (str_int 2025) "JUN" =
               (Ok (month_table three_fuels_world "2025" "JUN"),
                snd (process_month_data three_fuels_world "2025" "JUN")))
    by (vm_compute; reflexivity).
  exact (month_records_dated three_fuels_world 2025 "JUN" "06" 6 _ _ rec
           Hy eq_refl eq_refl Hp Hin).
Defined.

Lemma month_requests_budget_witness :
  dict_get month_num "JUN" = Ok "06" /\
  dict_get month_num "Jun" = Raise KeyError /\
  process_month_data one_region_world "2025" "Jun" = (Raise KeyError, []) /\
  exists url gets,
    snd (process_month_data one_region_world "2025" "JUN") = Head url :: gets /\
    (List.length gets <= 15)%nat.
Proof.
  destruct (month_requests_budget one_region_world "2025" "JUN") as [H1 _].
  destruct (month_requests_budget one_region_world "2025" "Jun") as [_ H2].
  destruct (H1 "06" eq_refl) as (url & gets & Hlog & _ & _ & Hlen & _).
  destruct (H2 KeyError eq_refl) as [Hraise _].
  split; [reflexivity|]. split; [reflexivity|]. split; [exact Hraise|].
  exists url, gets. split; [exact Hlog|exact Hlen].
Defined.
